(** * LabWired example firmware: GPIO, UART and DMA drivers

    A shallow embedding of the three C firmware images

    - [examples/nucleo-h563zi/board_firmware/main.c]   (module [Nucleo]),
    - [examples/hil-displacement-showcase/firmware/main.c] (module [Hil]),
    - [examples/arm-c-hello/src/main.c]                (module [Hello]),

    over a small model of the memory-mapped register bus.  Unsigned 32-bit
    values are integers in [Z] with the wrap-around written out; register
    accesses are threaded through a state monad whose state carries the
    register file, the transfer buffer and the chronological log of bus
    writes. *)

From Stdlib Require Import ZArith List Lia Bool String Ascii Zwf.
From stdpp Require Import base decidable list functions.
From Equations Require Import Equations.
Import ListNotations.

Local Open Scope Z_scope.

(** ** 32-bit unsigned arithmetic *)

Definition u32 (x : Z) : Z := x mod 2 ^ 32.
Definition u8 (x : Z) : Z := x mod 2 ^ 8.

Definition add32 (a b : Z) : Z := u32 (a + b).
Definition sub32 (a b : Z) : Z := u32 (a - b).
Definition mul32 (a b : Z) : Z := u32 (a * b).

(** [~x] on a [uint32_t]. *)
Definition not32 (x : Z) : Z := Z.lxor x 0xFFFFFFFF.

(** The value of [x << s] for a shift count the C standard allows. *)
Definition shl (x s : Z) : Z := u32 (Z.shiftl x s).

(** ** The register bus *)

(** The GPIO ports the firmware touches; a value of this type plays the role
    of the [GPIO_TypeDef *] argument of the C functions. *)
Inductive GPIO_TypeDef : Type := GPIOB | GPIOC | GPIOD | GPIOF | GPIOG.

(** One constructor per memory-mapped register that some firmware image
    reads or writes.  [AFR g 1] of the C code is [AFRH g]. *)
Inductive reg : Type :=
| RCC_AHB1ENR | RCC_AHB2ENR | RCC_APB1LENR | RCC_CCIPR1
| MODER (g : GPIO_TypeDef) | OTYPER (g : GPIO_TypeDef)
| OSPEEDR (g : GPIO_TypeDef) | PUPDR (g : GPIO_TypeDef)
| IDR (g : GPIO_TypeDef) | ODR (g : GPIO_TypeDef)
| BSRR (g : GPIO_TypeDef) | AFRH (g : GPIO_TypeDef)
| USART3_CR1 | USART3_CR2 | USART3_CR3 | USART3_BRR | USART3_ISR | USART3_TDR
| DMA1_ISR
| DMA1_Channel1_CCR | DMA1_Channel1_CNDTR | DMA1_Channel1_CPAR | DMA1_Channel1_CMAR
| UART_DR | UART_FR.

#[global] Instance GPIO_TypeDef_eq_dec : EqDecision GPIO_TypeDef.
Proof. solve_decision. Defined.

#[global] Instance reg_eq_dec : EqDecision reg.
Proof. solve_decision. Defined.

(** What the program does that the outside can observe, in program order. *)
Inductive event : Type :=
| EvStore (r : reg) (v : Z)     (* a write to a peripheral register *)
| EvBuf (i : Z) (v : Z)         (* a write to [stress_buffer[i]] *)
| EvBkpt.                       (* the [bkpt #0] instruction *)

#[global] Instance event_eq_dec : EqDecision event.
Proof. solve_decision. Defined.

(** Status registers are driven by the hardware: what a read returns does not
    depend on what the program wrote.  All other registers are storage. *)
Definition is_status (r : reg) : bool :=
  match r with
  | USART3_ISR | DMA1_ISR | IDR _ | UART_FR => true
  | _ => false
  end.

(** The machine as the program sees it.

    - [mem]: contents of the storage registers (last value written);
    - [stress_buffer]: the statically allocated transfer buffer of [Hil];
    - [env r n]: the value the [n]-th read of status register [r] returns
      (the behaviour of the hardware, given from outside);
    - [polls r]: how many times status register [r] has been read so far;
    - [log]: the bus writes so far, oldest first. *)
Record machine : Type := Machine {
  mem : reg -> Z;
  stress_buffer : list Z;
  env : reg -> nat -> Z;
  polls : reg -> nat;
  log : list event
}.

(** Modelled from the spec: the effect of a register write on the register
    file.  The hardware side of the set/reset register is not part of the
    firmware sources; the spec describes it as a write-only field in which
    bit N asserts pin N and bit N+16 deasserts it, touching no other pin.  A
    write to [BSRR g] therefore updates the output latch [ODR g]; every other
    register just keeps the value written. *)
Definition bus_write (r : reg) (v : Z) (f : reg -> Z) : reg -> Z :=
  match r with
  | BSRR g =>
      <[ODR g := Z.lor (Z.land (f (ODR g)) (not32 (Z.shiftr v 16)))
                       (Z.land v 0xFFFF)]> f
  | _ => <[r := v]> f
  end.

(** ** The execution monad *)

(** A run either returns, hits undefined behaviour of C (a shift count of 32
    or more, an array index out of bounds, a read of an uninitialised array
    element), or is still inside a loop when the observer stops waiting. *)
Inductive outcome (A : Type) : Type :=
| Ret (a : A) (m : machine)
| Undef
| Spin (m : machine).
Arguments Ret {A} a m.
Arguments Undef {A}.
Arguments Spin {A} m.

Definition M (A : Type) : Type := machine -> outcome A.

Definition ret {A} (a : A) : M A := fun m => Ret a m.

Definition bind {A B} (c : M A) (k : A -> M B) : M B :=
  fun m =>
    match c m with
    | Ret a m' => k a m'
    | Undef => Undef
    | Spin m' => Spin m'
    end.

Definition undef {A} : M A := fun _ => Undef.
Definition spin {A} : M A := fun m => Spin m.

Declare Scope mmio_scope.
Delimit Scope mmio_scope with mmio.
Notation "x <- c ;; k" := (bind c (fun x => k))
  (at level 100, c at next level, right associativity) : mmio_scope.
Notation "c ;; k" := (bind c (fun _ => k))
  (at level 100, right associativity) : mmio_scope.
Local Open Scope mmio_scope.

(** A read of register [r]. *)
Definition load (r : reg) : M Z :=
  fun m =>
    if is_status r
    then Ret (u32 (env m r (polls m r)))
             (Machine (mem m) (stress_buffer m) (env m)
                      (<[r := S (polls m r)]> (polls m)) (log m))
    else Ret (mem m r) m.

(** A write of [v] to register [r]. *)
Definition store (r : reg) (v : Z) : M unit :=
  fun m =>
    Ret tt (Machine (bus_write r v (mem m)) (stress_buffer m) (env m)
                    (polls m) (log m ++ [EvStore r v])).

(** [x << s]; undefined for a shift count of 32 or more. *)
Definition shl32 (x s : Z) : M Z :=
  if decide (0 <= s < 32) then ret (shl x s) else undef.

(** The inline [bkpt #0]. *)
Definition bkpt : M unit :=
  fun m =>
    Ret tt (Machine (mem m) (stress_buffer m) (env m) (polls m)
                    (log m ++ [EvBkpt])).

(** [while ((r & flag) == 0) {}]: poll a status flag.  [fuel] is the number
    of polls after which the observer gives up; the loop itself has no
    bound. *)
Fixpoint busy_wait (fuel : nat) (r : reg) (flag : Z) : M unit :=
  match fuel with
  | O => spin
  | S fuel' =>
      v <- load r ;;
      if Z.land v flag =? 0 then busy_wait fuel' r flag else ret tt
  end.

(** [while (1) body]: never returns. *)
Fixpoint forever {S : Type} (fuel : nat) (body : S -> M S) (s : S) : M S :=
  match fuel with
  | O => spin
  | Datatypes.S fuel' => s' <- body s ;; forever fuel' body s'
  end.

(** The bytes a C string literal holds before its terminating NUL. *)
Definition byte_of (c : ascii) : Z := Z.of_N (N_of_ascii c).

Definition CR : ascii := ascii_of_N 13.
Definition LF : ascii := ascii_of_N 10.
Definition CRLF : string := String CR (String LF EmptyString).

(** The values written to register [port], oldest first. *)
Fixpoint writes_to (port : reg) (l : list event) : list Z :=
  match l with
  | [] => []
  | EvStore r v :: l' =>
      if decide (r = port) then v :: writes_to port l' else writes_to port l'
  | _ :: l' => writes_to port l'
  end.

(** The bytes handed to the USART3 transmit data register, oldest first. *)
Definition uart_out (l : list event) : list Z := writes_to USART3_TDR l.

(** Loops whose trip count is bounded by the data are defined by
    well-founded recursion on a non-negative integer that decreases.  The
    accessibility proof is guarded by 2^9 constructors, so that runs on
    concrete inputs evaluate. *)
#[local] Instance Zwf0_wf : WellFounded (Zwf 0) :=
  Acc_intro_generator 9 (Zwf_well_founded 0).

(** A local array is a list of optional bytes, [None] marking an element
    that was never assigned.  [array_store buf i c] is [buf[i] = c]; it is
    undefined outside the array. *)
Definition array_store (buf : list (option Z)) (i c : Z) : option (list (option Z)) :=
  if decide (0 <= i < Z.of_nat (length buf))
  then Some (<[Z.to_nat i := Some c]> buf)
  else None.

(** [buf[i]]; undefined outside the array and on an unassigned element. *)
Definition array_load (buf : list (option Z)) (i : Z) : option Z :=
  if decide (0 <= i < Z.of_nat (length buf))
  then mjoin (buf !! Z.to_nat i)
  else None.

(** ** The vendor header

    [stm32h563xx.h] is not among the firmware sources.  The bit masks and
    addresses the firmware takes from it are parameters of the model; nothing
    below depends on their values unless a lemma says so in a hypothesis. *)
Class stm32h563xx : Type := {
  RCC_AHB1ENR_DMA1EN : Z;
  RCC_AHB2ENR_GPIOBEN : Z;
  RCC_AHB2ENR_GPIOCEN : Z;
  RCC_AHB2ENR_GPIODEN : Z;
  RCC_AHB2ENR_GPIOFEN : Z;
  RCC_AHB2ENR_GPIOGEN : Z;
  RCC_APB1LENR_USART3EN : Z;
  RCC_CCIPR1_USART3SEL : Z;
  GPIO_MODER_MODE8_Msk : Z;
  GPIO_MODER_MODE9_Msk : Z;
  GPIO_MODER_MODE8_1 : Z;
  GPIO_MODER_MODE9_1 : Z;
  GPIO_OTYPER_OT8 : Z;
  GPIO_OTYPER_OT9 : Z;
  GPIO_OSPEEDR_OSPEED8_Msk : Z;
  GPIO_OSPEEDR_OSPEED9_Msk : Z;
  GPIO_PUPDR_PUPD8_Msk : Z;
  GPIO_PUPDR_PUPD9_Msk : Z;
  GPIO_PUPDR_PUPD9_0 : Z;
  GPIO_AFRH_AFSEL8_Msk : Z;
  GPIO_AFRH_AFSEL9_Msk : Z;
  GPIO_AFRH_AFSEL8_Pos : Z;
  GPIO_AFRH_AFSEL9_Pos : Z;
  USART_CR1_TE : Z;
  USART_CR1_RE : Z;
  USART_CR1_UE : Z;
  USART_CR3_DMAT : Z;
  USART_ISR_TXE_TXFNF : Z;
  DMA_CCR_MINC : Z;
  DMA_CCR_DIR : Z;
  DMA_CCR_TCIE : Z;
  DMA_CCR_EN : Z;
  DMA_ISR_TCIF1 : Z;
  (* (uint32_t)&USART3->TDR *)
  USART3_TDR_address : Z;
  (* (uint32_t)stress_buffer, fixed by the linker *)
  stress_buffer_address : Z
}.

(** One instance of the header, with the values ST's CMSIS device headers
    give these names (the DMA channel names are those of the channel-based
    DMA controllers).  It serves to run the model on concrete inputs; no
    general statement below is about these values. *)
Definition cmsis : stm32h563xx := {|
  RCC_AHB1ENR_DMA1EN := 0x1;
  RCC_AHB2ENR_GPIOBEN := 0x2;
  RCC_AHB2ENR_GPIOCEN := 0x4;
  RCC_AHB2ENR_GPIODEN := 0x8;
  RCC_AHB2ENR_GPIOFEN := 0x20;
  RCC_AHB2ENR_GPIOGEN := 0x40;
  RCC_APB1LENR_USART3EN := 0x40000;
  RCC_CCIPR1_USART3SEL := 0x1C0;
  GPIO_MODER_MODE8_Msk := 0x30000;
  GPIO_MODER_MODE9_Msk := 0xC0000;
  GPIO_MODER_MODE8_1 := 0x20000;
  GPIO_MODER_MODE9_1 := 0x80000;
  GPIO_OTYPER_OT8 := 0x100;
  GPIO_OTYPER_OT9 := 0x200;
  GPIO_OSPEEDR_OSPEED8_Msk := 0x30000;
  GPIO_OSPEEDR_OSPEED9_Msk := 0xC0000;
  GPIO_PUPDR_PUPD8_Msk := 0x30000;
  GPIO_PUPDR_PUPD9_Msk := 0xC0000;
  GPIO_PUPDR_PUPD9_0 := 0x40000;
  GPIO_AFRH_AFSEL8_Msk := 0xF;
  GPIO_AFRH_AFSEL9_Msk := 0xF0;
  GPIO_AFRH_AFSEL8_Pos := 0;
  GPIO_AFRH_AFSEL9_Pos := 4;
  USART_CR1_TE := 0x8;
  USART_CR1_RE := 0x4;
  USART_CR1_UE := 0x1;
  USART_CR3_DMAT := 0x80;
  USART_ISR_TXE_TXFNF := 0x80;
  DMA_CCR_MINC := 0x80;
  DMA_CCR_DIR := 0x10;
  DMA_CCR_TCIE := 0x2;
  DMA_CCR_EN := 0x1;
  DMA_ISR_TCIF1 := 0x2;
  USART3_TDR_address := 0x40004828;
  stress_buffer_address := 0x20000000
|}.

(** A machine after reset in which every status read returns [status]. *)
Definition reset_machine (status : reg -> Z) : machine :=
  Machine (fun _ => 0) (replicate 256 0) (fun r _ => status r) (fun _ => 0%nat) [].

(** ** [examples/nucleo-h563zi/board_firmware/main.c] *)
Module Nucleo.
Section Firmware.
Context {hdr : stm32h563xx}.

(** The observer's patience: polls allowed to a wait loop before the run is
    reported as [Spin]. *)
Variable fuel : nat.

Definition LED1_PIN : Z := 0.
Definition LED2_PIN : Z := 4.
Definition LED3_PIN : Z := 4.
Definition BTN_PIN : Z := 13.

Definition USART3_BRR_115200_AT_64MHZ : Z := 556.

(** [while (cycles-- > 0U) { nop }]; the decrement that goes with the failing
    test only changes the local, which is dead by then. *)
Equations? delay_cycles (cycles : Z) : M unit by wf cycles (Zwf 0) :=
delay_cycles cycles with decide (cycles > 0) := {
  | left _ => delay_cycles (sub32 cycles 1)
  | right _ => ret tt }.
Proof.
  unfold sub32, u32. split; [lia|].
  apply Z.le_lt_trans with (cycles - 1); [apply Z.mod_le|]; lia.
Qed.

Definition gpio_config_output (gpio : GPIO_TypeDef) (pin : Z) : M unit :=
  let shift := mul32 pin 2 in
  mask <- shl32 0x3 shift ;;
  moder <- load (MODER gpio) ;;
  mode <- shl32 0x1 shift ;;
  store (MODER gpio) (Z.lor (Z.land moder (not32 mask)) mode) ;;
  bit <- shl32 1 pin ;;
  otyper <- load (OTYPER gpio) ;;
  store (OTYPER gpio) (Z.land otyper (not32 bit)) ;;
  ospeedr <- load (OSPEEDR gpio) ;;
  speed <- shl32 0x1 shift ;;
  store (OSPEEDR gpio) (Z.lor (Z.land ospeedr (not32 mask)) speed) ;;
  pupdr <- load (PUPDR gpio) ;;
  store (PUPDR gpio) (Z.land pupdr (not32 mask)).

Definition gpio_config_input_pullup (gpio : GPIO_TypeDef) (pin : Z) : M unit :=
  let shift := mul32 pin 2 in
  mask <- shl32 0x3 shift ;;
  moder <- load (MODER gpio) ;;
  store (MODER gpio) (Z.land moder (not32 mask)) ;;
  pupdr <- load (PUPDR gpio) ;;
  pull <- shl32 0x1 shift ;;
  store (PUPDR gpio) (Z.lor (Z.land pupdr (not32 mask)) pull).

Definition uart3_init : M unit :=
  ahb2 <- load RCC_AHB2ENR ;;
  store RCC_AHB2ENR (Z.lor ahb2 RCC_AHB2ENR_GPIODEN) ;;
  apb1l <- load RCC_APB1LENR ;;
  store RCC_APB1LENR (Z.lor apb1l RCC_APB1LENR_USART3EN) ;;
  ccipr1 <- load RCC_CCIPR1 ;;
  store RCC_CCIPR1 (Z.land ccipr1 (not32 RCC_CCIPR1_USART3SEL)) ;;

  moder <- load (MODER GPIOD) ;;
  store (MODER GPIOD)
        (Z.land moder (not32 (Z.lor GPIO_MODER_MODE8_Msk GPIO_MODER_MODE9_Msk))) ;;
  moder <- load (MODER GPIOD) ;;
  store (MODER GPIOD) (Z.lor moder (Z.lor GPIO_MODER_MODE8_1 GPIO_MODER_MODE9_1)) ;;

  otyper <- load (OTYPER GPIOD) ;;
  store (OTYPER GPIOD)
        (Z.land otyper (not32 (Z.lor GPIO_OTYPER_OT8 GPIO_OTYPER_OT9))) ;;

  ospeedr <- load (OSPEEDR GPIOD) ;;
  store (OSPEEDR GPIOD)
        (Z.lor ospeedr (Z.lor GPIO_OSPEEDR_OSPEED8_Msk GPIO_OSPEEDR_OSPEED9_Msk)) ;;

  pupdr <- load (PUPDR GPIOD) ;;
  store (PUPDR GPIOD)
        (Z.land pupdr (not32 (Z.lor GPIO_PUPDR_PUPD8_Msk GPIO_PUPDR_PUPD9_Msk))) ;;
  pupdr <- load (PUPDR GPIOD) ;;
  store (PUPDR GPIOD) (Z.lor pupdr GPIO_PUPDR_PUPD9_0) ;;

  afrh <- load (AFRH GPIOD) ;;
  store (AFRH GPIOD)
        (Z.land afrh (not32 (Z.lor GPIO_AFRH_AFSEL8_Msk GPIO_AFRH_AFSEL9_Msk))) ;;
  afrh <- load (AFRH GPIOD) ;;
  af8 <- shl32 7 GPIO_AFRH_AFSEL8_Pos ;;
  af9 <- shl32 7 GPIO_AFRH_AFSEL9_Pos ;;
  store (AFRH GPIOD) (Z.lor afrh (Z.lor af8 af9)) ;;

  store USART3_CR1 0 ;;
  store USART3_CR2 0 ;;
  store USART3_CR3 0 ;;
  store USART3_BRR USART3_BRR_115200_AT_64MHZ ;;
  store USART3_CR1 (Z.lor (Z.lor USART_CR1_TE USART_CR1_RE) USART_CR1_UE).

Definition uart3_write_byte (byte : Z) : M unit :=
  busy_wait fuel USART3_ISR USART_ISR_TXE_TXFNF ;;
  store USART3_TDR byte.

(** The loop over a string literal, which writes every byte up to the
    terminating NUL; the end of the Rocq string stands for that NUL. *)
Fixpoint uart3_write_str (s : string) : M unit :=
  match s with
  | EmptyString => ret tt
  | String c s' =>
      if byte_of c =? 0 then ret tt
      else uart3_write_byte (u8 (byte_of c)) ;; uart3_write_str s'
  end.

(** The first loop of [uart3_write_u32_dec]:
    [while (value > 0U && i < sizeof(buf)) { buf[i++] = '0' + value % 10U; value /= 10U; }].
    It returns the final [value], [i] and [buf]. *)
Equations? digits_loop (value i : Z) (buf : list (option Z)) :
  option (Z * Z * list (option Z))
  by wf value (Zwf 0) :=
digits_loop value i buf with decide (value > 0 /\ i < Z.of_nat (length buf)) := {
  | left _ =>
      match array_store buf i (u8 (add32 (byte_of "0") (value mod 10))) with
      | Some buf' => digits_loop (value / 10) (add32 i 1) buf'
      | None => None
      end
  | right _ => Some (value, i, buf) }.
Proof. split; [lia | apply Z.div_lt; lia]. Qed.

(** The second loop:
    [while (i > 0U) { i--; uart3_write_byte((uint8_t)buf[i]); }]. *)
Equations? emit_loop (i : Z) (buf : list (option Z)) : M unit by wf i (Zwf 0) :=
emit_loop i buf with decide (i > 0) := {
  | left _ =>
      match array_load buf (sub32 i 1) with
      | Some c => uart3_write_byte (u8 c) ;; emit_loop (sub32 i 1) buf
      | None => undef
      end
  | right _ => ret tt }.
Proof.
  unfold sub32, u32. split; [lia|].
  apply Z.le_lt_trans with (i - 1); [apply Z.mod_le|]; lia.
Qed.

Definition uart3_write_u32_dec (value : Z) : M unit :=
  let buf : list (option Z) := replicate 10 None in
  let i := 0 in
  if value =? 0 then uart3_write_byte (u8 (byte_of "0"))
  else
    match digits_loop value i buf with
    | Some (_, i, buf) => emit_loop i buf
    | None => undef
    end.

(** [gpio->BSRR = on ? (1UL << pin) : (1UL << (pin + 16U))], the statement
    [led_write] issues once per LED. *)
Definition bsrr_write (gpio : GPIO_TypeDef) (pin : Z) (on : Z) : M unit :=
  v <- (if negb (on =? 0) then shl32 1 pin else shl32 1 (add32 pin 16)) ;;
  store (BSRR gpio) v.

Definition led_write (on : Z) : M unit :=
  bsrr_write GPIOB LED1_PIN on ;;
  bsrr_write GPIOF LED2_PIN on ;;
  bsrr_write GPIOG LED3_PIN on.

(** [main] up to the [while (1)]. *)
Definition main_init : M unit :=
  ahb2 <- load RCC_AHB2ENR ;;
  store RCC_AHB2ENR
        (Z.lor ahb2 (Z.lor (Z.lor (Z.lor RCC_AHB2ENR_GPIOBEN RCC_AHB2ENR_GPIOCEN)
                                  RCC_AHB2ENR_GPIOFEN) RCC_AHB2ENR_GPIOGEN)) ;;
  gpio_config_output GPIOB LED1_PIN ;;
  gpio_config_output GPIOF LED2_PIN ;;
  gpio_config_output GPIOG LED3_PIN ;;
  gpio_config_input_pullup GPIOC BTN_PIN ;;
  uart3_init ;;
  uart3_write_str ("H563-BLINK-UART" ++ CRLF).

(** One pass through the body of the [while (1)], on the locals
    [(blink_count, led_on)]. *)
Definition main_loop (locals : Z * Z) : M (Z * Z) :=
  let '(blink_count, led_on) := locals in
  let led_on := Z.lxor led_on 1 in
  led_write led_on ;;
  idr <- load (IDR GPIOC) ;;
  let btn := Z.land (Z.shiftr idr BTN_PIN) 1 in
  uart3_write_str "BLINK " ;;
  uart3_write_u32_dec blink_count ;;
  uart3_write_str " PB0=" ;;
  uart3_write_u32_dec led_on ;;
  uart3_write_str " PF4=" ;;
  uart3_write_u32_dec led_on ;;
  uart3_write_str " PG4=" ;;
  uart3_write_u32_dec led_on ;;
  uart3_write_str " BTN13=" ;;
  uart3_write_u32_dec btn ;;
  uart3_write_str CRLF ;;
  let blink_count := add32 blink_count 1 in
  delay_cycles 12000000 ;;
  ret (blink_count, led_on).

(** [main], observed for [rounds] passes through the loop. *)
Definition main (rounds : nat) : M (Z * Z) :=
  main_init ;;
  forever rounds main_loop (0, 0).

End Firmware.
End Nucleo.

(** ** [examples/hil-displacement-showcase/firmware/main.c] *)
Module Hil.
Section Firmware.
Context {hdr : stm32h563xx}.
Variable fuel : nat.

Definition STRESS_BUFFER_SIZE : Z := 256.

(** [stress_buffer[i] = v]; undefined outside the buffer. *)
Definition stress_buffer_store (i v : Z) : M unit :=
  fun m =>
    if decide (0 <= i < Z.of_nat (length (stress_buffer m)))
    then Ret tt (Machine (mem m) (<[Z.to_nat i := v]> (stress_buffer m))
                         (env m) (polls m) (log m ++ [EvBuf i v]))
    else Undef.

Definition uart3_init : M unit :=
  ahb2 <- load RCC_AHB2ENR ;;
  store RCC_AHB2ENR (Z.lor ahb2 RCC_AHB2ENR_GPIODEN) ;;
  apb1l <- load RCC_APB1LENR ;;
  store RCC_APB1LENR (Z.lor apb1l RCC_APB1LENR_USART3EN) ;;

  moder <- load (MODER GPIOD) ;;
  store (MODER GPIOD) (Z.land moder (not32 GPIO_MODER_MODE8_Msk)) ;;
  moder <- load (MODER GPIOD) ;;
  store (MODER GPIOD) (Z.lor moder GPIO_MODER_MODE8_1) ;;
  afrh <- load (AFRH GPIOD) ;;
  store (AFRH GPIOD) (Z.land afrh (not32 GPIO_AFRH_AFSEL8_Msk)) ;;
  afrh <- load (AFRH GPIOD) ;;
  af8 <- shl32 7 GPIO_AFRH_AFSEL8_Pos ;;
  store (AFRH GPIOD) (Z.lor afrh af8) ;;

  store USART3_BRR 556 ;;
  cr3 <- load USART3_CR3 ;;
  store USART3_CR3 (Z.lor cr3 USART_CR3_DMAT) ;;
  store USART3_CR1 (Z.lor USART_CR1_TE USART_CR1_UE).

Definition dma1_init : M unit :=
  ahb1 <- load RCC_AHB1ENR ;;
  store RCC_AHB1ENR (Z.lor ahb1 RCC_AHB1ENR_DMA1EN) ;;

  store DMA1_Channel1_CPAR (u32 USART3_TDR_address) ;;
  store DMA1_Channel1_CMAR (u32 stress_buffer_address) ;;
  store DMA1_Channel1_CNDTR STRESS_BUFFER_SIZE ;;
  store DMA1_Channel1_CCR
        (Z.lor (Z.lor (Z.lor DMA_CCR_MINC DMA_CCR_DIR) DMA_CCR_TCIE) DMA_CCR_EN).

(** The loop over a string literal: for every byte up to the terminating
    NUL, wait for the transmit-empty flag, then write the byte. *)
Fixpoint uart3_write_str (s : string) : M unit :=
  match s with
  | EmptyString => ret tt
  | String c s' =>
      if byte_of c =? 0 then ret tt
      else
        busy_wait fuel USART3_ISR USART_ISR_TXE_TXFNF ;;
        store USART3_TDR (u8 (byte_of c)) ;;
        uart3_write_str s'
  end.

(** [for (uint32_t i = 0; i < STRESS_BUFFER_SIZE; i++) stress_buffer[i] = (uint8_t)(i & 0xFF);]
    from the current [i] on. *)
Equations? fill_loop (i : Z) : M unit by wf (STRESS_BUFFER_SIZE - i) (Zwf 0) :=
fill_loop i with decide (i < STRESS_BUFFER_SIZE) := {
  | left _ =>
      stress_buffer_store i (u8 (Z.land i 0xFF)) ;;
      fill_loop (add32 i 1)
  | right _ => ret tt }.
Proof.
  unfold add32, u32, STRESS_BUFFER_SIZE in *. split; [lia|].
  destruct (Z_lt_dec i 0).
  - pose proof (Z.mod_pos_bound (i + 1) (2 ^ 32)). lia.
  - rewrite Z.mod_small; lia.
Qed.

Definition main : M unit :=
  fill_loop 0 ;;

  uart3_init ;;
  dma1_init ;;

  on <- shl32 1 0 ;;
  store (BSRR GPIOB) on ;;
  uart3_write_str ("HIL Stress Test Started" ++ CRLF) ;;

  busy_wait fuel DMA1_ISR DMA_ISR_TCIF1 ;;

  uart3_write_str ("HIL Stress Test Passed" ++ CRLF) ;;
  off <- shl32 1 16 ;;
  store (BSRR GPIOB) off ;;

  bkpt ;;

  forever fuel (fun _ : unit => ret tt) tt.

End Firmware.
End Hil.

(** ** [examples/arm-c-hello/src/main.c] *)
Module Hello.

Definition uart_putc (c : ascii) : M unit :=
  store UART_DR (u32 (byte_of c)).

Fixpoint uart_puts (s : string) : M unit :=
  match s with
  | EmptyString => ret tt
  | String c s' =>
      if byte_of c =? 0 then ret tt else uart_putc c ;; uart_puts s'
  end.

(** [for (int i = 0; i < 100000; i++) { nop }] from the current [i] on. *)
Equations? spin_loop (i : Z) : M unit by wf (100000 - i) (Zwf 0) :=
spin_loop i with decide (i < 100000) := {
  | left _ => spin_loop (i + 1)
  | right _ => ret tt }.
Proof. split; lia. Qed.

Definition main_init : M unit :=
  uart_puts ("Hello from LabWired C Example!" ++ String LF EmptyString) ;;
  uart_puts ("This is running on a simulated ARM Cortex-M0." ++ String LF EmptyString).

Definition main_loop (_ : unit) : M unit :=
  spin_loop 0 ;;
  uart_puts ("Pulse..." ++ String LF EmptyString).

(** [main], observed for [rounds] passes through the loop. *)
Definition main (rounds : nat) : M unit :=
  main_init ;;
  forever rounds main_loop tt.

End Hello.

(** * Specification vocabulary *)

(** The 2-bit field of a GPIO configuration register that belongs to [pin]. *)
Definition field2 (r pin : Z) : Z := Z.land (Z.shiftr r (2 * pin)) 0x3.

(** [c], started in [m], returns [a] in [m'], having added the events [evs]
    to the log and left the behaviour of the hardware as it was. *)
Definition exec {A} (c : M A) (m : machine) (a : A) (evs : list event)
    (m' : machine) : Prop :=
  c m = Ret a m' /\ log m' = log m ++ evs /\ env m' = env m.

(** From any point on, status register [r] shows [flag] after fewer than [d]
    further reads. *)
Definition flag_within (d : nat) (r : reg) (flag : Z) (m : machine) : Prop :=
  forall n, exists k, (k < d)%nat /\ Z.land (u32 (env m r (n + k))) flag <> 0.

(** Status register [r] never shows [flag]. *)
Definition flag_never (r : reg) (flag : Z) (m : machine) : Prop :=
  forall n, Z.land (u32 (env m r n)) flag = 0.

(** The shift counts the firmware takes from the header are bit positions. *)
Definition header_ok (hdr : stm32h563xx) : Prop :=
  0 <= GPIO_AFRH_AFSEL8_Pos < 32 /\ 0 <= GPIO_AFRH_AFSEL9_Pos < 32.

(** The bytes of a C string literal up to its first NUL. *)
Fixpoint c_bytes (s : string) : list Z :=
  match s with
  | EmptyString => []
  | String c s' => if byte_of c =? 0 then [] else byte_of c :: c_bytes s'
  end.

(** Stores of the bytes [bs] to register [port], in order. *)
Definition tx (port : reg) (bs : list Z) : list event := map (EvStore port) bs.

(** Decimal notation.  [digits_value 0 ds] is the number the ASCII digits
    [ds] denote, most significant digit first. *)
Definition is_digit (b : Z) : bool := (48 <=? b) && (b <=? 57).

Fixpoint digits_value (acc : Z) (ds : list Z) : Z :=
  match ds with
  | [] => acc
  | d :: ds' => digits_value (10 * acc + (d - 48)) ds'
  end.

(** [ds] is the decimal representation of [n]: ASCII digits only, at least
    one, no leading zero unless it is the single digit of zero, and of
    value [n]. *)
Definition decimal_of (n : Z) (ds : list Z) : bool :=
  forallb is_digit ds
  && (digits_value 0 ds =? n)
  && match ds with
     | [] => false
     | [_] => true
     | d :: _ => negb (d =? 48)
     end.

(** The output is a sequence of lines, each a run of bytes other than CR and
    LF followed by CR LF. *)
Fixpoint crlf_lines (out : list Z) : bool :=
  match out with
  | [] => true
  | c :: rest =>
      if c =? 13 then
        match rest with
        | c' :: rest' => (c' =? 10) && crlf_lines rest'
        | [] => false
        end
      else if c =? 10 then false
      else match rest with [] => false | _ :: _ => crlf_lines rest end
  end.

(** The same with a bare LF as the line terminator. *)
Fixpoint lf_lines (out : list Z) : bool :=
  match out with
  | [] => true
  | c :: rest =>
      if c =? 10 then lf_lines rest
      else if c =? 13 then false
      else match rest with [] => false | _ :: _ => lf_lines rest end
  end.

(** Position of the first store to register [r] in a log. *)
Fixpoint first_store (r : reg) (l : list event) : option nat :=
  match l with
  | [] => None
  | EvStore r' _ :: l' =>
      if decide (r' = r) then Some 0%nat else S <$> first_store r l'
  | _ :: l' => S <$> first_store r l'
  end.

(** Position of the first occurrence of event [e] in a log. *)
Fixpoint first_event (e : event) (l : list event) : option nat :=
  match l with
  | [] => None
  | e' :: l' => if decide (e' = e) then Some 0%nat else S <$> first_event e l'
  end.

(** The events [es] occur in the log in this order (as a subsequence). *)
Fixpoint in_order (es : list event) (l : list event) : bool :=
  match es, l with
  | [], _ => true
  | _ :: _, [] => false
  | e :: es', e' :: l' =>
      if decide (e' = e) then in_order es' l' else in_order es l'
  end.

(** [o1] and [o2] are positions, the first strictly before the second. *)
Definition before (o1 o2 : option nat) : bool :=
  match o1, o2 with
  | Some i, Some j => (i <? j)%nat
  | _, _ => false
  end.

(** The test pattern: [EvBuf i (i mod 256)] for [i] from [lo], [n] of them. *)
Fixpoint pattern_events (lo : Z) (n : nat) : list event :=
  match n with
  | O => []
  | S n' => EvBuf lo (lo mod 256) :: pattern_events (lo + 1) n'
  end.

(** [c], started in [m], returns having sent exactly the bytes [out] to the
    USART3 transmit data register. *)
Definition sends {A} (c : M A) (m : machine) (out : list Z) : Prop :=
  exists a evs m', exec c m a evs m' /\ uart_out evs = out.

(** [c], started in [m], is still running in [m'] when the observer stops
    waiting, having added the events [evs] to the log. *)
Definition stalls {A} (c : M A) (m : machine) (evs : list event)
    (m' : machine) : Prop :=
  c m = Spin m' /\ log m' = log m ++ evs.

(** A byte that is neither CR nor LF. *)
Definition plain (c : Z) : bool := negb (c =? 13) && negb (c =? 10).

(** The stores to the registers of USART3 in a log. *)
Definition is_usart3 (r : reg) : bool :=
  match r with
  | USART3_CR1 | USART3_CR2 | USART3_CR3 | USART3_BRR | USART3_ISR | USART3_TDR => true
  | _ => false
  end.

Fixpoint usart3_stores (l : list event) : list event :=
  match l with
  | [] => []
  | EvStore r v :: l' =>
      if is_usart3 r then EvStore r v :: usart3_stores l' else usart3_stores l'
  | _ :: l' => usart3_stores l'
  end.

(** The buffer after [stress_buffer[j] = j mod 256] for the [n] indices
    [j = i, i + 1, ...]. *)
Fixpoint fill_from (i : Z) (n : nat) (buf : list Z) : list Z :=
  match n with
  | O => buf
  | S n' => fill_from (i + 1) n' (<[Z.to_nat i := i mod 256]> buf)
  end.

(** The bus writes of the stress-test firmware, in terms of the register
    contents [f] it starts from: those of [uart3_init], those of
    [dma1_init], and the whole log of [main] up to the final spin. *)
Definition hil_uart3_init_events {hdr : stm32h563xx} (f : reg -> Z) : list event :=
  [EvStore RCC_AHB2ENR (Z.lor (f RCC_AHB2ENR) RCC_AHB2ENR_GPIODEN);
   EvStore RCC_APB1LENR (Z.lor (f RCC_APB1LENR) RCC_APB1LENR_USART3EN);
   EvStore (MODER GPIOD) (Z.land (f (MODER GPIOD)) (not32 GPIO_MODER_MODE8_Msk));
   EvStore (MODER GPIOD)
           (Z.lor (Z.land (f (MODER GPIOD)) (not32 GPIO_MODER_MODE8_Msk))
                  GPIO_MODER_MODE8_1);
   EvStore (AFRH GPIOD) (Z.land (f (AFRH GPIOD)) (not32 GPIO_AFRH_AFSEL8_Msk));
   EvStore (AFRH GPIOD)
           (Z.lor (Z.land (f (AFRH GPIOD)) (not32 GPIO_AFRH_AFSEL8_Msk))
                  (shl 7 GPIO_AFRH_AFSEL8_Pos));
   EvStore USART3_BRR 556;
   EvStore USART3_CR3 (Z.lor (f USART3_CR3) USART_CR3_DMAT);
   EvStore USART3_CR1 (Z.lor USART_CR1_TE USART_CR1_UE)].

Definition hil_dma1_init_events {hdr : stm32h563xx} (f : reg -> Z) : list event :=
  [EvStore RCC_AHB1ENR (Z.lor (f RCC_AHB1ENR) RCC_AHB1ENR_DMA1EN);
   EvStore DMA1_Channel1_CPAR (u32 USART3_TDR_address);
   EvStore DMA1_Channel1_CMAR (u32 stress_buffer_address);
   EvStore DMA1_Channel1_CNDTR 256;
   EvStore DMA1_Channel1_CCR
           (Z.lor (Z.lor (Z.lor DMA_CCR_MINC DMA_CCR_DIR) DMA_CCR_TCIE) DMA_CCR_EN)].

(** The log of the stress-test [main] up to the wait for the transfer. *)
Definition hil_started_events {hdr : stm32h563xx} (f : reg -> Z) : list event :=
  pattern_events 0 256
  ++ hil_uart3_init_events f
  ++ hil_dma1_init_events f
  ++ [EvStore (BSRR GPIOB) 0x1]
  ++ tx USART3_TDR (c_bytes ("HIL Stress Test Started" ++ CRLF)).

(** The log of the stress-test [main] when it has reached its final spin. *)
Definition hil_main_events {hdr : stm32h563xx} (f : reg -> Z) : list event :=
  hil_started_events f
  ++ tx USART3_TDR (c_bytes ("HIL Stress Test Passed" ++ CRLF))
  ++ [EvStore (BSRR GPIOB) 0x10000; EvBkpt].

(** The steps of the one-shot stress test in the order the specification
    lists them: the last buffer write, the pin set, the end of the "Started"
    line, the start of the DMA transfer (the write of the channel
    configuration with the enable bit), the end of the "Passed" line, the pin
    reset, the breakpoint. *)
Definition spec_stress_order {hdr : stm32h563xx} : list event :=
  [EvBuf 255 255;
   EvStore (BSRR GPIOB) 0x1;
   EvStore USART3_TDR 10;
   EvStore DMA1_Channel1_CCR
           (Z.lor (Z.lor (Z.lor DMA_CCR_MINC DMA_CCR_DIR) DMA_CCR_TCIE) DMA_CCR_EN);
   EvStore USART3_TDR 10;
   EvStore (BSRR GPIOB) 0x10000;
   EvBkpt].

(** The same steps with the start of the transfer before the pin set. *)
Definition code_stress_order {hdr : stm32h563xx} : list event :=
  [EvBuf 255 255;
   EvStore DMA1_Channel1_CCR
           (Z.lor (Z.lor (Z.lor DMA_CCR_MINC DMA_CCR_DIR) DMA_CCR_TCIE) DMA_CCR_EN);
   EvStore (BSRR GPIOB) 0x1;
   EvStore USART3_TDR 10;
   EvStore USART3_TDR 10;
   EvStore (BSRR GPIOB) 0x10000;
   EvBkpt].

(** A UART initialisation as the specification describes it: the control
    registers are cleared (which disables the UART), then the divisor 556 is
    programmed, then CR1 is written with TE, RE and UE. *)
Definition spec_uart_init {hdr : stm32h563xx} (l : list event) : bool :=
  in_order [EvStore USART3_CR1 0; EvStore USART3_CR2 0; EvStore USART3_CR3 0;
            EvStore USART3_BRR 556;
            EvStore USART3_CR1 (Z.lor (Z.lor USART_CR1_TE USART_CR1_RE) USART_CR1_UE)]
           l.

(** A string without a NUL character before its end. *)
Definition nul_free (s : string) : bool :=
  forallb (fun c => negb (byte_of c =? 0)) (list_ascii_of_string s).

(** The machine a run is in when it returns, or when the observer stops
    waiting. *)
Definition final {A} (o : outcome A) : option machine :=
  match o with
  | Ret _ m' => Some m'
  | Spin m' => Some m'
  | Undef => None
  end.

(** No run of [c] changes the observation [obs] of the machine, however far
    it gets. *)
Definition keeps {A X} (obs : machine -> X) (c : M A) : Prop :=
  forall m m', final (c m) = Some m' -> obs m' = obs m.

(** The line the periodic-report firmware sends in pass [k] of its loop
    (counting from 0) when the button reads [btn]: the pass counter modulo
    2^32 in decimal, and the level of the three LEDs, which are on in the
    even passes. *)
Definition report_line (k btn : Z) (line : list Z) : Prop :=
  exists dk,
    decimal_of (k mod 2 ^ 32) dk = true /\
    line = c_bytes "BLINK " ++ dk
           ++ c_bytes " PB0=" ++ [48 + (k + 1) mod 2]
           ++ c_bytes " PF4=" ++ [48 + (k + 1) mod 2]
           ++ c_bytes " PG4=" ++ [48 + (k + 1) mod 2]
           ++ c_bytes " BTN13=" ++ [48 + btn]
           ++ c_bytes CRLF.

(** * Bit-level facts *)

Section Bits.

Lemma testbit_3 n : Z.testbit 3 n = (0 <=? n) && (n <? 2).
Proof.
  change 3 with (Z.ones 2).
  destruct (Z.leb_spec 0 n); simpl.
  - destruct (Z.ltb_spec n 2).
    + apply Z.ones_spec_low; lia.
    + apply Z.ones_spec_high; lia.
  - apply Z.testbit_neg_r; lia.
Qed.

Lemma testbit_1 n : Z.testbit 1 n = (n =? 0).
Proof.
  change 1 with (Z.ones 1).
  destruct (Z.eqb_spec n 0) as [->|].
  - reflexivity.
  - destruct (Z_lt_dec n 0).
    + apply Z.testbit_neg_r; lia.
    + apply Z.ones_spec_high; lia.
Qed.

Lemma testbit_shl x s n :
  0 <= n < 32 -> Z.testbit (shl x s) n = Z.testbit x (n - s).
Proof.
  intros Hn. unfold shl, u32.
  rewrite Z.mod_pow2_bits_low by lia. apply Z.shiftl_spec; lia.
Qed.

Lemma testbit_not32 x n :
  0 <= n < 32 -> Z.testbit (not32 x) n = negb (Z.testbit x n).
Proof.
  intros Hn. unfold not32. rewrite Z.lxor_spec.
  change 0xFFFFFFFF with (Z.ones 32).
  rewrite Z.ones_spec_low by lia. apply xorb_true_r.
Qed.

Lemma testbit_above c k n :
  0 <= c < 2 ^ k -> 0 <= k <= n -> Z.testbit c n = false.
Proof.
  intros Hc Hk. rewrite <- (Z.mod_small c (2 ^ k)) by lia.
  apply Z.mod_pow2_bits_high; lia.
Qed.

Lemma field2_bits r pin :
  0 <= pin ->
  field2 r pin
  = Z.b2z (Z.testbit r (2 * pin)) + 2 * Z.b2z (Z.testbit r (2 * pin + 1)).
Proof.
  intros Hp. unfold field2. apply Z.bits_inj'. intros n Hn.
  rewrite Z.land_spec, Z.shiftr_spec, testbit_3 by lia.
  assert (n = 0 \/ n = 1 \/ 2 <= n) as [->|[->|Hge]] by lia.
  - replace (0 + 2 * pin) with (2 * pin) by lia.
    destruct (Z.testbit r (2 * pin)), (Z.testbit r (2 * pin + 1)); reflexivity.
  - replace (1 + 2 * pin) with (2 * pin + 1) by lia.
    destruct (Z.testbit r (2 * pin)), (Z.testbit r (2 * pin + 1)); reflexivity.
  - replace (n <? 2) with false by (symmetry; apply Z.ltb_ge; lia).
    rewrite andb_false_r, andb_false_r. symmetry.
    apply (testbit_above _ 2); [|lia].
    destruct (Z.testbit r (2 * pin)), (Z.testbit r (2 * pin + 1)); simpl; lia.
Qed.

(* mode := (v & ~(3 << s)) | (1 << s) *)
Lemma field2_set v pin :
  0 <= pin < 16 ->
  field2 (Z.lor (Z.land v (not32 (shl 3 (2 * pin)))) (shl 1 (2 * pin))) pin = 1.
Proof.
  intros Hp. rewrite field2_bits by lia.
  rewrite !Z.lor_spec, !Z.land_spec, !testbit_not32, !testbit_shl by lia.
  rewrite !testbit_3, !testbit_1.
  replace (2 * pin - 2 * pin) with 0 by lia.
  replace (2 * pin + 1 - 2 * pin) with 1 by lia. simpl.
  rewrite !andb_false_r. reflexivity.
Qed.

Lemma field2_set_other v pin p' :
  0 <= pin < 16 -> 0 <= p' < 16 -> p' <> pin ->
  field2 (Z.lor (Z.land v (not32 (shl 3 (2 * pin)))) (shl 1 (2 * pin))) p'
  = field2 v p'.
Proof.
  intros Hp Hp' Hne. rewrite !field2_bits by lia.
  rewrite !Z.lor_spec, !Z.land_spec, !testbit_not32, !testbit_shl by lia.
  rewrite !testbit_3, !testbit_1.
  assert (2 * p' - 2 * pin < 0 \/ 2 <= 2 * p' - 2 * pin) as Hd by lia.
  replace (2 * p' - 2 * pin =? 0) with false by (symmetry; apply Z.eqb_neq; lia).
  replace (2 * p' + 1 - 2 * pin =? 0) with false by (symmetry; apply Z.eqb_neq; lia).
  replace ((0 <=? 2 * p' - 2 * pin) && (2 * p' - 2 * pin <? 2)) with false
    by (symmetry; apply andb_false_iff; rewrite Z.leb_gt, Z.ltb_ge; lia).
  replace ((0 <=? 2 * p' + 1 - 2 * pin) && (2 * p' + 1 - 2 * pin <? 2)) with false
    by (symmetry; apply andb_false_iff; rewrite Z.leb_gt, Z.ltb_ge; lia).
  simpl. rewrite !andb_true_r, !orb_false_r. reflexivity.
Qed.

Lemma field2_clear v pin :
  0 <= pin < 16 -> field2 (Z.land v (not32 (shl 3 (2 * pin)))) pin = 0.
Proof.
  intros Hp. rewrite field2_bits by lia.
  rewrite !Z.land_spec, !testbit_not32, !testbit_shl by lia.
  rewrite !testbit_3.
  replace (2 * pin - 2 * pin) with 0 by lia.
  replace (2 * pin + 1 - 2 * pin) with 1 by lia. simpl.
  rewrite !andb_false_r. reflexivity.
Qed.

Lemma field2_clear_other v pin p' :
  0 <= pin < 16 -> 0 <= p' < 16 -> p' <> pin ->
  field2 (Z.land v (not32 (shl 3 (2 * pin)))) p' = field2 v p'.
Proof.
  intros Hp Hp' Hne. rewrite !field2_bits by lia.
  rewrite !Z.land_spec, !testbit_not32, !testbit_shl by lia.
  rewrite !testbit_3.
  replace ((0 <=? 2 * p' - 2 * pin) && (2 * p' - 2 * pin <? 2)) with false
    by (symmetry; apply andb_false_iff; rewrite Z.leb_gt, Z.ltb_ge; lia).
  replace ((0 <=? 2 * p' + 1 - 2 * pin) && (2 * p' + 1 - 2 * pin <? 2)) with false
    by (symmetry; apply andb_false_iff; rewrite Z.leb_gt, Z.ltb_ge; lia).
  simpl. rewrite !andb_true_r. reflexivity.
Qed.

Lemma bit_clear v pin :
  0 <= pin < 32 -> Z.testbit (Z.land v (not32 (shl 1 pin))) pin = false.
Proof.
  intros Hp. rewrite Z.land_spec, testbit_not32, testbit_shl, testbit_1 by lia.
  replace (pin - pin) with 0 by lia. simpl. apply andb_false_r.
Qed.

Lemma bit_clear_other v pin p' :
  0 <= pin < 32 -> 0 <= p' < 32 -> p' <> pin ->
  Z.testbit (Z.land v (not32 (shl 1 pin))) p' = Z.testbit v p'.
Proof.
  intros Hp Hp' Hne.
  rewrite Z.land_spec, testbit_not32, testbit_shl, testbit_1 by lia.
  replace (p' - pin =? 0) with false by (symmetry; apply Z.eqb_neq; lia).
  simpl. apply andb_true_r.
Qed.
End Bits.

(** * Running the monad *)

Section Exec.

Lemma exec_ret {A} (a : A) m : exec (ret a) m a [] m.
Proof. unfold exec, ret. rewrite app_nil_r. auto. Qed.

Lemma exec_bind {A B} (c : M A) (k : A -> M B) m a e1 m1 b e2 m2 :
  exec c m a e1 m1 -> exec (k a) m1 b e2 m2 ->
  exec (bind c k) m b (e1 ++ e2) m2.
Proof.
  intros (Hc & Hl & He) (Hk & Hl' & He'). unfold exec, bind.
  rewrite Hc. split; [exact Hk|]. split.
  - rewrite Hl', Hl, app_assoc. reflexivity.
  - congruence.
Qed.

Lemma exec_store r v m :
  exec (store r v) m tt [EvStore r v]
       (Machine (bus_write r v (mem m)) (stress_buffer m) (env m) (polls m)
                (log m ++ [EvStore r v])).
Proof. unfold exec, store. auto. Qed.

Lemma exec_load_storage r m :
  is_status r = false -> exec (load r) m (mem m r) [] m.
Proof.
  intros Hr. unfold exec, load. rewrite Hr, app_nil_r. auto.
Qed.

Lemma exec_load_status r m :
  is_status r = true ->
  exec (load r) m (u32 (env m r (polls m r))) []
       (Machine (mem m) (stress_buffer m) (env m)
                (<[r := S (polls m r)]> (polls m)) (log m)).
Proof.
  intros Hr. unfold exec, load. rewrite Hr. simpl. rewrite app_nil_r. auto.
Qed.

(** Any read returns without touching the log. *)
Lemma exec_load r m : exists v m', exec (load r) m v [] m' /\ mem m' = mem m.
Proof.
  destruct (is_status r) eqn:Hr.
  - eexists _, _. split; [apply exec_load_status; exact Hr | reflexivity].
  - eexists _, _. split; [apply exec_load_storage; exact Hr | reflexivity].
Qed.

Lemma exec_shl32 x s m : 0 <= s < 32 -> exec (shl32 x s) m (shl x s) [] m.
Proof.
  intros Hs. unfold shl32. destruct (decide (0 <= s < 32)); [|lia].
  apply exec_ret.
Qed.

Lemma shl32_run x s m : 0 <= s < 32 -> shl32 x s m = Ret (shl x s) m.
Proof.
  intros Hs. unfold shl32. destruct (decide (0 <= s < 32)); [reflexivity|lia].
Qed.

Lemma exec_bkpt m :
  exec bkpt m tt [EvBkpt]
       (Machine (mem m) (stress_buffer m) (env m) (polls m) (log m ++ [EvBkpt])).
Proof. unfold exec, bkpt. auto. Qed.

Lemma flag_within_env d r flag m m' :
  env m' = env m -> flag_within d r flag m -> flag_within d r flag m'.
Proof. unfold flag_within. intros ->. auto. Qed.

(** A wait loop returns as soon as a read shows the flag. *)
Lemma busy_wait_sees fuel r flag : forall k m,
  is_status r = true ->
  (k < fuel)%nat ->
  Z.land (u32 (env m r (polls m r + k))) flag <> 0 ->
  exists m', exec (busy_wait fuel r flag) m tt [] m' /\ mem m' = mem m.
Proof.
  induction fuel as [|fuel IH]; intros k m Hr Hk Hflag; [lia|].
  pose proof (exec_load_status r m Hr) as Hload.
  remember (Machine (mem m) (stress_buffer m) (env m)
                    (<[r := S (polls m r)]> (polls m)) (log m)) as m1 eqn:Em1.
  destruct (Z.eqb_spec (Z.land (u32 (env m r (polls m r))) flag) 0) as [Hz|Hnz].
  - destruct k as [|k]; [rewrite Nat.add_0_r in Hflag; contradiction|].
    destruct (IH k m1 Hr) as (m' & Hrun & Hmem); [lia| |].
    + subst m1. simpl. rewrite fn_lookup_insert.
      replace (S (polls m r) + k)%nat with (polls m r + S k)%nat by lia.
      exact Hflag.
    + exists m'. split; [|subst m1; exact Hmem].
      apply (exec_bind _ _ _ _ [] m1 _ [] m' Hload). cbv beta.
      rewrite (proj2 (Z.eqb_eq _ _) Hz). exact Hrun.
  - exists m1. split; [|subst m1; reflexivity].
    apply (exec_bind _ _ _ _ [] m1 _ [] m1 Hload). cbv beta.
    rewrite (proj2 (Z.eqb_neq _ _) Hnz). apply exec_ret.
Qed.

Lemma busy_wait_exec d fuel r flag m :
  is_status r = true -> flag_within d r flag m -> (d <= fuel)%nat ->
  exists m', exec (busy_wait fuel r flag) m tt [] m' /\ mem m' = mem m.
Proof.
  intros Hr Hw Hd. destruct (Hw (polls m r)) as (k & Hk & Hflag).
  apply (busy_wait_sees fuel r flag k); [assumption|lia|assumption].
Qed.

(** A wait loop on a flag that never shows is cut off by the observer; it
    has written nothing. *)
Lemma busy_wait_never fuel r flag : forall m,
  is_status r = true -> flag_never r flag m ->
  exists m', busy_wait fuel r flag m = Spin m' /\ log m' = log m.
Proof.
  induction fuel as [|fuel IH]; intros m Hr Hn.
  - exists m. auto.
  - simpl. unfold bind at 1. unfold load. rewrite Hr.
    rewrite (Hn (polls m r)). simpl.
    match goal with |- context [busy_wait fuel r flag ?m1] =>
      destruct (IH m1 Hr) as (m' & Hrun & Hlog); [intros n; apply Hn|]
    end.
    exists m'. split; [exact Hrun | exact Hlog].
Qed.

(** A wait loop has no undefined behaviour. *)
Lemma busy_wait_defined fuel r flag : forall m, busy_wait fuel r flag m <> Undef.
Proof.
  induction fuel as [|fuel IH]; intros m; [discriminate|].
  simpl. unfold bind at 1. unfold load.
  destruct (is_status r); destruct (_ =? 0); try apply IH; discriminate.
Qed.

(** [while (1)] never returns: however long the observer waits, the run is
    still in the loop. *)
Lemma forever_spins {S} rounds (body : S -> M S) : forall s m,
  match forever rounds body s m with Ret _ _ => False | _ => True end.
Proof.
  induction rounds as [|n IH]; intros s m; simpl; [exact I|].
  unfold bind. destruct (body s m) as [s' m'| |m']; [apply IH|exact I|exact I].
Qed.

Lemma forever_idle rounds m :
  forever rounds (fun _ : unit => ret tt) tt m = Spin m.
Proof. induction rounds; simpl; [reflexivity|]. unfold bind, ret. assumption. Qed.

End Exec.

(** * GPIO configuration *)

Section Gpio.

Lemma mul32_pin pin : 0 <= pin < 16 -> mul32 pin 2 = 2 * pin.
Proof.
  intros Hp. unfold mul32, u32. change (2 ^ 32) with 4294967296.
  rewrite Z.mod_small; lia.
Qed.

Ltac fn_lookup :=
  repeat (rewrite fn_lookup_insert
          || rewrite fn_lookup_insert_ne by discriminate).

Ltac run_gpio Hp :=
  rewrite (mul32_pin _ Hp);
  unfold bind, shl32, load, store, ret;
  repeat (destruct (decide _) as [_|Hbad]; [|exfalso; lia]);
  simpl.

(** C8. For every pin number of a port (0 to 15), [gpio_config_output]
    returns with the pin's 2-bit mode field set to general-purpose output
    (01), the pin's output-type bit cleared (push-pull), the pin's 2-bit
    speed field set (to 01) and the pin's 2-bit pull field cleared (00). *)
Theorem gpio_config_output_fields (gpio : GPIO_TypeDef) (pin : Z) (m : machine) :
  0 <= pin < 16 ->
  exists m',
    Nucleo.gpio_config_output gpio pin m = Ret tt m' /\
    field2 (mem m' (MODER gpio)) pin = 1 /\
    Z.testbit (mem m' (OTYPER gpio)) pin = false /\
    field2 (mem m' (OSPEEDR gpio)) pin = 1 /\
    field2 (mem m' (PUPDR gpio)) pin = 0.
Proof.
  intros Hp. unfold Nucleo.gpio_config_output. 
  run_gpio Hp.
  eexists. split; [reflexivity|]. simpl. fn_lookup.
  split; [apply field2_set; lia|].
  split; [apply bit_clear; lia|].
  split; [apply field2_set; lia|].
  apply field2_clear; lia.
Qed.

Lemma gpio_config_output_fields_witness :
  exists m',
    Nucleo.gpio_config_output GPIOB 15 (reset_machine (fun _ => 0)) = Ret tt m' /\
    field2 (mem m' (MODER GPIOB)) 15 = 1 /\
    Z.testbit (mem m' (OTYPER GPIOB)) 15 = false /\
    field2 (mem m' (OSPEEDR GPIOB)) 15 = 1 /\
    field2 (mem m' (PUPDR GPIOB)) 15 = 0.
Proof. apply gpio_config_output_fields. lia. Defined.

(** Outside that range the call shifts by 32 or more: it has no defined
    behaviour for any other 32-bit pin number. *)
Lemma gpio_config_output_undefined (gpio : GPIO_TypeDef) (pin : Z) (m : machine) :
  16 <= pin < 2 ^ 32 -> Nucleo.gpio_config_output gpio pin m = Undef.
Proof.
  intros Hp. unfold Nucleo.gpio_config_output, bind, shl32, load, store, ret.
  destruct (decide (0 <= mul32 pin 2 < 32)) as [Hs|Hs]; [|reflexivity].
  simpl. destruct (decide (0 <= pin < 32)) as [Hlt|]; [|reflexivity].
  exfalso. unfold mul32, u32 in Hs. change (2 ^ 32) with 4294967296 in *.
  rewrite Z.mod_small in Hs; lia.
Qed.

(** C10. [gpio_config_output] and [gpio_config_input_pullup] on a pin number
    [pin] of a port (0 to 15) leave the configuration of every other pin [p']
    of the port (0 to 15) as it was: the 2-bit fields of MODER, OSPEEDR and
    PUPDR at position [2 * p'] and the OTYPER bit at position [p'] are the
    same after the call as before. *)
Theorem gpio_config_frame (gpio : GPIO_TypeDef) (pin p' : Z) (m : machine) :
  0 <= pin < 16 -> 0 <= p' < 16 -> p' <> pin ->
  (exists m',
     Nucleo.gpio_config_output gpio pin m = Ret tt m' /\
     field2 (mem m' (MODER gpio)) p' = field2 (mem m (MODER gpio)) p' /\
     field2 (mem m' (OSPEEDR gpio)) p' = field2 (mem m (OSPEEDR gpio)) p' /\
     field2 (mem m' (PUPDR gpio)) p' = field2 (mem m (PUPDR gpio)) p' /\
     Z.testbit (mem m' (OTYPER gpio)) p' = Z.testbit (mem m (OTYPER gpio)) p') /\
  (exists m',
     Nucleo.gpio_config_input_pullup gpio pin m = Ret tt m' /\
     field2 (mem m' (MODER gpio)) p' = field2 (mem m (MODER gpio)) p' /\
     field2 (mem m' (OSPEEDR gpio)) p' = field2 (mem m (OSPEEDR gpio)) p' /\
     field2 (mem m' (PUPDR gpio)) p' = field2 (mem m (PUPDR gpio)) p' /\
     Z.testbit (mem m' (OTYPER gpio)) p' = Z.testbit (mem m (OTYPER gpio)) p').
Proof.
  intros Hp Hp' Hne. split.
  - unfold Nucleo.gpio_config_output. run_gpio Hp.
    eexists. split; [reflexivity|]. simpl. fn_lookup.
    split; [apply field2_set_other; lia|].
    split; [apply field2_set_other; lia|].
    split; [apply field2_clear_other; lia|].
    apply bit_clear_other; lia.
  - unfold Nucleo.gpio_config_input_pullup. run_gpio Hp.
    eexists. split; [reflexivity|]. simpl. fn_lookup.
    split; [apply field2_clear_other; lia|].
    split; [reflexivity|].
    split; [apply field2_set_other; lia|].
    reflexivity.
Qed.
End Gpio.

Lemma gpio_config_frame_witness :
  (exists m',
     Nucleo.gpio_config_output GPIOF 4 (reset_machine (fun _ => 0)) = Ret tt m' /\
     field2 (mem m' (MODER GPIOF)) 7 = field2 0 7 /\
     field2 (mem m' (OSPEEDR GPIOF)) 7 = field2 0 7 /\
     field2 (mem m' (PUPDR GPIOF)) 7 = field2 0 7 /\
     Z.testbit (mem m' (OTYPER GPIOF)) 7 = Z.testbit 0 7) /\
  (exists m',
     Nucleo.gpio_config_input_pullup GPIOF 4 (reset_machine (fun _ => 0)) = Ret tt m' /\
     field2 (mem m' (MODER GPIOF)) 7 = field2 0 7 /\
     field2 (mem m' (OSPEEDR GPIOF)) 7 = field2 0 7 /\
     field2 (mem m' (PUPDR GPIOF)) 7 = field2 0 7 /\
     Z.testbit (mem m' (OTYPER GPIOF)) 7 = Z.testbit 0 7).
Proof.
  apply (gpio_config_frame GPIOF 4 7 (reset_machine (fun _ => 0))); lia.
Defined.

(** C8 as stated, for every pin number, fails: on pin number 16 the call
    shifts [0x3UL] by 32, so it has no defined behaviour and returns in no
    state in which the fields of the pin are set. *)
Lemma gpio_config_output_counterexample :
  Nucleo.gpio_config_output GPIOB 16 (reset_machine (fun _ => 0)) = Undef /\
  ~ (exists m',
       Nucleo.gpio_config_output GPIOB 16 (reset_machine (fun _ => 0)) = Ret tt m' /\
       field2 (mem m' (MODER GPIOB)) 16 = 1 /\
       Z.testbit (mem m' (OTYPER GPIOB)) 16 = false /\
       field2 (mem m' (OSPEEDR GPIOB)) 16 = 1 /\
       field2 (mem m' (PUPDR GPIOB)) 16 = 0).
Proof.
  assert (Hrun : Nucleo.gpio_config_output GPIOB 16 (reset_machine (fun _ => 0)) = Undef).
  { apply gpio_config_output_undefined. change (2 ^ 32) with 4294967296. lia. }
  split; [exact Hrun|]. intros (m' & Hret & _). rewrite Hrun in Hret. discriminate.
Qed.

(** C10 as stated, for every pin number and every other pin number, fails:
    the pin number [2^31 + 13] is different from 13, and
    [gpio_config_input_pullup] on it returns having changed the pull field of
    pin 13 from 00 to 01, because [pin * 2U] wraps around to 26; and
    [gpio_config_output] on pin number 16 returns in no state at all. *)
Lemma gpio_config_frame_counterexample :
  2147483661 <> 13 /\
  match Nucleo.gpio_config_input_pullup GPIOC 2147483661 (reset_machine (fun _ => 0)) with
  | Ret _ m' =>
      field2 (mem (reset_machine (fun _ => 0)) (PUPDR GPIOC)) 13 = 0 /\
      field2 (mem m' (PUPDR GPIOC)) 13 = 1
  | _ => False
  end /\
  Nucleo.gpio_config_output GPIOC 16 (reset_machine (fun _ => 0)) = Undef.
Proof.
  split; [lia|]. split.
  - vm_compute. split; reflexivity.
  - apply gpio_config_output_undefined. change (2 ^ 32) with 4294967296. lia.
Qed.

(** * Word arithmetic in range *)

Section Words.

Lemma byte_of_range c : 0 <= byte_of c < 256.
Proof.
  unfold byte_of. pose proof (N_ascii_bounded c). lia.
Qed.

Lemma u8_small x : 0 <= x < 256 -> u8 x = x.
Proof. intros Hx. unfold u8. change (2 ^ 8) with 256. apply Z.mod_small. lia. Qed.

Lemma sub32_pred n : 0 < n < 2 ^ 32 -> sub32 n 1 = n - 1.
Proof. intros Hn. unfold sub32, u32. rewrite Z.mod_small; lia. Qed.

Lemma add32_succ n : 0 <= n < 2 ^ 32 - 1 -> add32 n 1 = n + 1.
Proof. intros Hn. unfold add32, u32. apply Z.mod_small. lia. Qed.

Lemma add32_small a b : 0 <= a + b < 2 ^ 32 -> add32 a b = a + b.
Proof. intros H. unfold add32, u32. apply Z.mod_small. exact H. Qed.

End Words.

(** * The polled UART of the Nucleo firmware *)

Section NucleoUart.
Context {hdr : stm32h563xx}.
Variables (fuel d : nat).
Hypothesis Hfuel : (d <= fuel)%nat.

Lemma uart3_write_byte_exec b m :
  flag_within d USART3_ISR USART_ISR_TXE_TXFNF m ->
  exists m', exec (Nucleo.uart3_write_byte fuel b) m tt [EvStore USART3_TDR b] m'.
Proof.
  intros Hw.
  destruct (busy_wait_exec d fuel USART3_ISR USART_ISR_TXE_TXFNF m eq_refl Hw Hfuel)
    as (m1 & Hwait & _).
  eexists. unfold Nucleo.uart3_write_byte.
  apply (exec_bind _ _ _ _ [] m1 _ _ _ Hwait). apply exec_store.
Qed.

Lemma uart3_write_str_exec s : forall m,
  flag_within d USART3_ISR USART_ISR_TXE_TXFNF m ->
  exists m', exec (Nucleo.uart3_write_str fuel s) m tt (tx USART3_TDR (c_bytes s)) m'.
Proof.
  induction s as [|c s IH]; intros m Hw; simpl.
  - exists m. apply exec_ret.
  - destruct (byte_of c =? 0); [exists m; apply exec_ret|].
    rewrite (u8_small _ (byte_of_range c)).
    destruct (uart3_write_byte_exec (byte_of c) m Hw) as (m1 & H1).
    destruct (IH m1) as (m2 & H2).
    { apply (flag_within_env _ _ _ m); [apply H1 | exact Hw]. }
    exists m2. apply (exec_bind _ _ _ _ _ _ _ _ _ H1 H2).
Qed.

Lemma emit_loop_unfold i buf :
  Nucleo.emit_loop fuel i buf
  = if decide (i > 0)
    then match array_load buf (sub32 i 1) with
         | Some c => Nucleo.uart3_write_byte fuel (u8 c) ;;
                     Nucleo.emit_loop fuel (sub32 i 1) buf
         | None => undef
         end
    else ret tt.
Proof.
  rewrite Nucleo.emit_loop_equation_1. unfold Nucleo.emit_loop_unfold_clause_1.
  destruct (decide (i > 0)); reflexivity.
Qed.

(** The second loop writes the assigned elements from index [n - 1] down to
    index [0]. *)
Lemma emit_loop_exec buf : forall (n : nat) (ds : list Z) m,
  (n <= length buf)%nat -> Z.of_nat (length buf) < 2 ^ 32 ->
  take n buf = map Some ds ->
  flag_within d USART3_ISR USART_ISR_TXE_TXFNF m ->
  exists m',
    exec (Nucleo.emit_loop fuel (Z.of_nat n) buf) m tt
         (tx USART3_TDR (map u8 (rev ds))) m'.
Proof.
  induction n as [|n IH]; intros ds m Hn Hlen Htake Hw.
  - rewrite emit_loop_unfold. destruct (decide (Z.of_nat 0 > 0)); [lia|].
    destruct ds; [|discriminate]. exists m. apply exec_ret.
  - rewrite emit_loop_unfold. destruct (decide (Z.of_nat (S n) > 0)); [|lia].
    rewrite sub32_pred by lia.
    replace (Z.of_nat (S n) - 1) with (Z.of_nat n) by lia.
    destruct (lookup_lt_is_Some_2 buf n) as [x Hx]; [lia|].
    rewrite (take_S_r _ _ _ Hx) in Htake.
    destruct ds as [|c ds' _] using rev_ind.
    { destruct (take n buf); discriminate. }
    rewrite map_app in Htake. simpl in Htake.
    apply app_inj_tail in Htake. destruct Htake as [Htake Hxc]. subst x.
    unfold array_load. destruct (decide _) as [_|Hbad]; [|exfalso; lia].
    rewrite Nat2Z.id, Hx. simpl.
    destruct (uart3_write_byte_exec (u8 c) m Hw) as (m1 & H1).
    destruct (IH ds' m1) as (m2 & H2); [lia|assumption|assumption| |].
    { apply (flag_within_env _ _ _ m); [apply H1 | exact Hw]. }
    exists m2. rewrite rev_app_distr. simpl.
    apply (exec_bind _ _ _ _ _ _ _ _ _ H1 H2).
Qed.
End NucleoUart.

(** * Decimal formatting *)

Section Decimal.

Lemma digits_loop_unfold value i buf :
  Nucleo.digits_loop value i buf
  = if decide (value > 0 /\ i < Z.of_nat (length buf))
    then match array_store buf i (u8 (add32 (byte_of "0") (value mod 10))) with
         | Some buf' => Nucleo.digits_loop (value / 10) (add32 i 1) buf'
         | None => None
         end
    else Some (value, i, buf).
Proof.
  rewrite Nucleo.digits_loop_equation_1. unfold Nucleo.digits_loop_unfold_clause_1.
  destruct (decide _); reflexivity.
Qed.

Lemma digits_value_app ds : forall acc d,
  digits_value acc (ds ++ [d]) = 10 * digits_value acc ds + (d - 48).
Proof.
  induction ds as [|x ds IH]; intros acc d; simpl; [reflexivity|apply IH].
Qed.

Lemma digit_char value :
  0 <= value ->
  u8 (add32 (byte_of "0") (value mod 10)) = 48 + value mod 10.
Proof.
  intros Hv. pose proof (Z.mod_pos_bound value 10).
  change (byte_of "0") with 48. unfold add32, u32, u8.
  change (2 ^ 32) with 4294967296. change (2 ^ 8) with 256.
  rewrite (Z.mod_small (48 + value mod 10) 4294967296) by lia.
  apply Z.mod_small. lia.
Qed.

(** What the first loop leaves behind, started at index [n] of a 10-byte
    buffer on a value that fits in the remaining [10 - n] digits: it runs
    until the value is 0 and stores the digits [ds], least significant
    first, at indices [n], [n + 1], ... *)
Lemma digits_loop_spec : forall value (n : nat) (buf : list (option Z)),
  0 <= value < 10 ^ (10 - Z.of_nat n) ->
  length buf = 10%nat -> (n <= 10)%nat ->
  exists ds,
    Nucleo.digits_loop value (Z.of_nat n) buf
    = Some (0, Z.of_nat (n + length ds),
            take n buf ++ map Some ds ++ drop (n + length ds) buf) /\
    (n + length ds <= 10)%nat /\
    forallb is_digit ds = true /\
    digits_value 0 (rev ds) = value /\
    (value = 0 -> ds = []) /\
    (0 < value -> exists ds' d, ds = ds' ++ [d] /\ d <> 48).
Proof.
  intros value.
  induction value as [value IH] using (well_founded_induction (Zwf_well_founded 0)).
  intros n buf Hfit Hlen Hn.
  rewrite digits_loop_unfold.
  destruct (decide (value > 0 /\ Z.of_nat n < Z.of_nat (length buf))) as [[Hpos Hroom]|Hstop].
  - (* one more digit *)
    unfold array_store. destruct (decide _) as [_|Hbad]; [|exfalso; lia].
    rewrite Nat2Z.id, digit_char by lia.
    rewrite add32_succ by lia.
    replace (Z.of_nat n + 1) with (Z.of_nat (S n)) by lia.
    set (c := 48 + value mod 10).
    assert (Hn' : (n < length buf)%nat) by lia.
    assert (Hpow : 10 ^ (10 - Z.of_nat n) = 10 * 10 ^ (10 - Z.of_nat (S n))).
    { rewrite <- Z.pow_succ_r by lia. f_equal. lia. }
    destruct (IH (value / 10)) with (n := S n) (buf := <[n := Some c]> buf)
      as (ds & Hrun & Hle & Hdig & Hval & Hzero & Hlead).
    + split; [lia | apply Z.div_lt; lia].
    + split; [apply Z.div_pos; lia|].
      apply Z.div_lt_upper_bound; lia.
    + rewrite length_insert. exact Hlen.
    + lia.
    + exists (c :: ds). rewrite Hrun. simpl length.
      replace (S n + length ds)%nat with (n + S (length ds))%nat by lia.
      split; [|split; [lia|split; [|split; [|split]]]].
      * f_equal. f_equal.
        rewrite (take_S_r _ _ (Some c)) by (apply list_lookup_insert_eq; lia).
        rewrite take_insert_ge by lia. rewrite drop_insert_lt by lia.
        rewrite <- app_assoc. reflexivity.
      * simpl. rewrite Hdig, andb_true_r. unfold is_digit, c.
        pose proof (Z.mod_pos_bound value 10). 
        apply andb_true_iff. split; [apply Z.leb_le|apply Z.leb_le]; lia.
      * simpl. rewrite digits_value_app, Hval. unfold c.
        pose proof (Z.div_mod value 10). lia.
      * intros ->. lia.
      * intros _. destruct (Z.eq_dec (value / 10) 0) as [Hz|Hnz].
        -- rewrite (Hzero Hz). exists [], c. split; [reflexivity|].
           unfold c. rewrite Z.mod_small; [lia|].
           split; [lia|]. apply Z.div_small_iff in Hz; lia.
        -- destruct Hlead as (ds' & dl & -> & Hdl).
           { pose proof (Z.div_pos value 10). lia. }
           exists (c :: ds'), dl. split; [reflexivity|exact Hdl].
  - (* the loop is left *)
    assert (Hz : value = 0).
    { destruct (Z.eq_dec value 0) as [|Hnz]; [assumption|]. exfalso.
      assert (Hfull : n = 10%nat) by lia. subst n.
      change (10 ^ (10 - Z.of_nat 10)) with 1 in Hfit. lia. }
    exists []. subst value. simpl. rewrite Nat.add_0_r, take_drop.
    split; [reflexivity|]. split; [lia|]. split; [reflexivity|].
    split; [reflexivity|]. split; [reflexivity|lia].
Qed.
End Decimal.

Section WriteDecimal.
Context {hdr : stm32h563xx}.

Lemma bind_defined {A B} (c : M A) (k : A -> M B) m :
  c m <> Undef -> (forall a m', k a m' <> Undef) -> bind c k m <> Undef.
Proof.
  intros Hc Hk. unfold bind. destruct (c m); [apply Hk|contradiction|discriminate].
Qed.

Lemma uart3_write_byte_defined fuel b m : Nucleo.uart3_write_byte fuel b m <> Undef.
Proof.
  unfold Nucleo.uart3_write_byte. apply bind_defined.
  - apply busy_wait_defined.
  - intros; discriminate.
Qed.

(** The second loop reads assigned elements inside the buffer only. *)
Lemma emit_loop_defined fuel buf : forall (n : nat) (ds : list Z) m,
  (n <= length buf)%nat -> Z.of_nat (length buf) < 2 ^ 32 ->
  take n buf = map Some ds ->
  Nucleo.emit_loop fuel (Z.of_nat n) buf m <> Undef.
Proof.
  induction n as [|n IH]; intros ds m Hn Hlen Htake.
  - rewrite emit_loop_unfold. destruct (decide (Z.of_nat 0 > 0)); [lia|discriminate].
  - rewrite emit_loop_unfold. destruct (decide (Z.of_nat (S n) > 0)); [|lia].
    rewrite sub32_pred by lia.
    replace (Z.of_nat (S n) - 1) with (Z.of_nat n) by lia.
    destruct (lookup_lt_is_Some_2 buf n) as [x Hx]; [lia|].
    rewrite (take_S_r _ _ _ Hx) in Htake.
    destruct ds as [|c ds' _] using rev_ind.
    { destruct (take n buf); discriminate. }
    rewrite map_app in Htake. simpl in Htake.
    apply app_inj_tail in Htake. destruct Htake as [Htake Hxc]. subst x.
    unfold array_load. destruct (decide _) as [_|Hbad]; [|exfalso; lia].
    rewrite Nat2Z.id, Hx. simpl.
    apply bind_defined; [apply uart3_write_byte_defined|].
    intros _ m'. apply (IH ds'); [lia|assumption|assumption].
Qed.

(** The first loop on a 32-bit value and the empty 10-byte buffer. *)
Lemma digits_loop_u32 value :
  0 <= value <= 4294967295 ->
  exists ds,
    Nucleo.digits_loop value 0 (replicate 10 None)
    = Some (0, Z.of_nat (length ds),
            map Some ds ++ replicate (10 - length ds) None) /\
    (length ds <= 10)%nat /\
    forallb is_digit ds = true /\
    digits_value 0 (rev ds) = value /\
    (0 < value -> exists ds' d, ds = ds' ++ [d] /\ d <> 48).
Proof.
  intros Hv.
  destruct (digits_loop_spec value 0 (replicate 10 None))
    as (ds & Hrun & Hle & Hdig & Hval & _ & Hlead);
    [simpl; lia|reflexivity|lia|].
  exists ds. change (Z.of_nat 0) with 0 in Hrun.
  change (0 + length ds)%nat with (length ds) in Hrun, Hle.
  rewrite Hrun, drop_replicate. repeat split; assumption.
Qed.

(** The digits [uart3_write_u32_dec] sends depend on the value only. *)
Lemma uart3_write_u32_dec_exec (value : Z) :
  0 <= value <= 4294967295 ->
  exists ds,
    decimal_of value ds = true /\
    (value = 0 -> ds = [48]) /\
    forall (fuel d : nat) (m : machine),
      flag_within d USART3_ISR USART_ISR_TXE_TXFNF m -> (d <= fuel)%nat ->
      exists m', exec (Nucleo.uart3_write_u32_dec fuel value) m tt (tx USART3_TDR ds) m'.
Proof.
  intros Hv. unfold Nucleo.uart3_write_u32_dec.
  destruct (Z.eqb_spec value 0) as [->|Hnz].
  - exists [48]. split; [reflexivity|]. split; [reflexivity|].
    intros fuel d m Hw Hfuel.
    apply (uart3_write_byte_exec fuel d Hfuel (u8 (byte_of "0")) m Hw).
  - destruct (digits_loop_u32 value Hv) as (ds & Hrun & Hle & Hdig & Hval & Hlead).
    rewrite Hrun. exists (rev ds). split; [|split; [intros; contradiction|]].
    + destruct Hlead as (ds' & dl & -> & Hdl); [lia|].
      assert (Hall : forallb is_digit (rev (ds' ++ [dl])) = true).
      { apply forallb_forall. intros x Hx. apply in_rev in Hx.
        rewrite forallb_forall in Hdig. apply Hdig, Hx. }
      unfold decimal_of. rewrite Hall, Hval, Z.eqb_refl.
      rewrite rev_app_distr. simpl.
      destruct (rev ds'); [reflexivity|].
      apply negb_true_iff, Z.eqb_neq. exact Hdl.
    + intros fuel d m Hw Hfuel.
      assert (Hu8 : map u8 (rev ds) = rev ds).
      { rewrite <- (map_id (rev ds)) at 2. apply map_ext_in.
        intros x Hx. apply u8_small. apply in_rev in Hx.
        rewrite forallb_forall in Hdig. specialize (Hdig x Hx).
        unfold is_digit in Hdig. apply andb_true_iff in Hdig.
        rewrite !Z.leb_le in Hdig. lia. }
      rewrite <- Hu8.
      apply (emit_loop_exec fuel d Hfuel _ (length ds) ds m).
      * rewrite length_app, length_map. lia.
      * rewrite length_app, length_map, length_replicate.
        change (2 ^ 32) with 4294967296. lia.
      * apply take_app_length'. rewrite length_map. reflexivity.
      * exact Hw.
Qed.

(** C1. For every 32-bit unsigned value, on a UART that keeps reporting
    "transmit buffer empty" within the observer's patience,
    [uart3_write_u32_dec] returns having passed to the transmit data
    register exactly the decimal ASCII representation of the value, most
    significant digit first and without leading zeros; for 0 that is the
    single character '0'. *)
Theorem uart3_write_u32_dec_decimal (fuel d : nat) (value : Z) (m : machine) :
  0 <= value <= 4294967295 ->
  flag_within d USART3_ISR USART_ISR_TXE_TXFNF m ->
  (d <= fuel)%nat ->
  exists ds m',
    exec (Nucleo.uart3_write_u32_dec fuel value) m tt (tx USART3_TDR ds) m' /\
    decimal_of value ds = true /\
    (value = 0 -> ds = [48]).
Proof.
  intros Hv Hw Hfuel.
  destruct (uart3_write_u32_dec_exec value Hv) as (ds & Hdec & Hzero & Hrun).
  destruct (Hrun fuel d m Hw Hfuel) as (m' & Hexec).
  exists ds, m'. auto.
Qed.

(** C9. For every 32-bit unsigned value the digit-collection loop returns
    with the value used up (the length guard cuts off no digit), having
    stored [i <= 10] characters at the indices [0 .. i - 1] of the 10-byte
    buffer; no run of [uart3_write_u32_dec] accesses the buffer outside
    [0, 10) or reads an element that was not stored, whatever the UART
    does; and the loop is defined by recursion on the value, which division
    by 10 makes strictly smaller while it is positive. *)
Theorem uart3_write_u32_dec_safe (value : Z) :
  0 <= value <= 4294967295 ->
  (exists (i : nat) (ds : list Z),
     Nucleo.digits_loop value 0 (replicate 10 None)
     = Some (0, Z.of_nat i, map Some ds ++ replicate (10 - i) None) /\
     length ds = i /\ (i <= 10)%nat) /\
  (forall fuel m, Nucleo.uart3_write_u32_dec fuel value m <> Undef) /\
  (forall v, v > 0 -> Zwf 0 (v / 10) v).
Proof.
  intros Hv.
  destruct (digits_loop_u32 value Hv) as (ds & Hrun & Hle & _).
  split; [|split].
  - exists (length ds), ds. repeat split; assumption.
  - intros fuel m. unfold Nucleo.uart3_write_u32_dec.
    destruct (value =? 0); [apply uart3_write_byte_defined|].
    rewrite Hrun. apply (emit_loop_defined _ _ _ ds).
    + rewrite length_app, length_map. lia.
    + rewrite length_app, length_map, length_replicate.
      change (2 ^ 32) with 4294967296. lia.
    + apply take_app_length'. rewrite length_map. reflexivity.
  - intros v Hpos. split; [lia|]. apply Z.div_lt; lia.
Qed.

End WriteDecimal.

Lemma uart3_write_u32_dec_decimal_witness :
  exists ds m',
    exec (Nucleo.uart3_write_u32_dec (hdr := cmsis) 1 4294967295)
         (reset_machine (fun _ => 0x80)) tt (tx USART3_TDR ds) m' /\
    decimal_of 4294967295 ds = true /\
    (4294967295 = 0 -> ds = [48]).
Proof.
  apply (uart3_write_u32_dec_decimal (hdr := cmsis) 1 1 4294967295
           (reset_machine (fun _ => 0x80))).
  - lia.
  - intros n. exists 0%nat. split; [lia|]. vm_compute. discriminate.
  - lia.
Defined.

Lemma uart3_write_u32_dec_safe_witness :
  (exists (i : nat) (ds : list Z),
     Nucleo.digits_loop 4294967295 0 (replicate 10 None)
     = Some (0, Z.of_nat i, map Some ds ++ replicate (10 - i) None) /\
     length ds = i /\ (i <= 10)%nat) /\
  (forall fuel m,
     Nucleo.uart3_write_u32_dec (hdr := cmsis) fuel 4294967295 m <> Undef) /\
  (forall v, v > 0 -> Zwf 0 (v / 10) v).
Proof. apply (uart3_write_u32_dec_safe (hdr := cmsis) 4294967295). lia. Defined.

(** The largest value takes all ten bytes of the buffer. *)
Example digits_loop_max :
  Nucleo.digits_loop 4294967295 0 (replicate 10 None)
  = Some (0, 10, map Some [53; 57; 50; 55; 54; 57; 52; 57; 50; 52]).
Proof. vm_compute. reflexivity. Qed.

Example uart3_write_u32_dec_max :
  match Nucleo.uart3_write_u32_dec (hdr := cmsis) 1 4294967295
          (reset_machine (fun _ => 0x80)) with
  | Ret _ m' => uart_out (log m') = c_bytes "4294967295"
  | _ => False
  end.
Proof. vm_compute. reflexivity. Qed.

(** * Logs and what they show *)

Section Logs.

Lemma writes_to_app port l1 l2 :
  writes_to port (l1 ++ l2) = writes_to port l1 ++ writes_to port l2.
Proof.
  induction l1 as [|[r v|i v|] l1 IH]; simpl; [reflexivity| |exact IH|exact IH].
  destruct (decide (r = port)); simpl; rewrite IH; reflexivity.
Qed.

Lemma writes_to_tx port bs : writes_to port (tx port bs) = bs.
Proof.
  induction bs as [|b bs IH]; simpl; [reflexivity|].
  destruct (decide (port = port)); [|contradiction]. rewrite IH. reflexivity.
Qed.

Lemma uart_out_app l1 l2 : uart_out (l1 ++ l2) = uart_out l1 ++ uart_out l2.
Proof. apply writes_to_app. Qed.

Lemma uart_out_tx bs : uart_out (tx USART3_TDR bs) = bs.
Proof. apply writes_to_tx. Qed.

Lemma tx_app port a b : tx port (a ++ b) = tx port a ++ tx port b.
Proof. apply map_app. Qed.

Lemma exec_det {A} (c : M A) m a evs m' a' evs' m'' :
  exec c m a evs m' -> exec c m a' evs' m'' -> a = a' /\ evs = evs' /\ m' = m''.
Proof.
  intros (H1 & L1 & _) (H2 & L2 & _). rewrite H1 in H2. inversion H2; subst.
  split; [reflexivity|]. split; [|reflexivity].
  rewrite L1 in L2. apply app_inv_head in L2. exact L2.
Qed.

(** Sequencing when the intermediate machine is only known to exist; what
    is known of it is that the hardware behaves as in [m0]. *)
Lemma exec_then {A B} (c : M A) (k : A -> M B) m0 m a e1 b e2 :
  env m = env m0 ->
  (exists m1, exec c m a e1 m1) ->
  (forall m1, env m1 = env m0 -> exists m2, exec (k a) m1 b e2 m2) ->
  exists m2, exec (bind c k) m b (e1 ++ e2) m2.
Proof.
  intros He (m1 & H1) Hk.
  destruct (Hk m1) as (m2 & H2).
  { destruct H1 as (_ & _ & He1). congruence. }
  exists m2. apply (exec_bind _ _ _ _ _ _ _ _ _ H1 H2).
Qed.

Lemma exec_bind_ex {A B} (c : M A) (k : A -> M B) m a e1 m1 b e2 :
  exec c m a e1 m1 ->
  (exists m2, exec (k a) m1 b e2 m2) ->
  exists m2, exec (bind c k) m b (e1 ++ e2) m2.
Proof.
  intros H1 (m2 & H2). exists m2. apply (exec_bind _ _ _ _ _ _ _ _ _ H1 H2).
Qed.

Lemma stalls_bind {A B} (c : M A) (k : A -> M B) m evs m' :
  stalls c m evs m' -> stalls (bind c k) m evs m'.
Proof. intros (Hc & Hl). unfold stalls, bind. rewrite Hc. auto. Qed.

Lemma stalls_after {A B} (c : M A) (k : A -> M B) m a e1 m1 e2 m2 :
  exec c m a e1 m1 -> stalls (k a) m1 e2 m2 ->
  stalls (bind c k) m (e1 ++ e2) m2.
Proof.
  intros (Hc & Hl & _) (Hk & Hl'). unfold stalls, bind. rewrite Hc.
  split; [exact Hk|]. rewrite Hl', Hl, app_assoc. reflexivity.
Qed.

Lemma stalls_after_ex {A B} (c : M A) (k : A -> M B) m a e1 m1 e2 :
  exec c m a e1 m1 ->
  (exists m2, stalls (k a) m1 e2 m2) ->
  exists m2, stalls (bind c k) m (e1 ++ e2) m2.
Proof.
  intros H1 (m2 & H2). exists m2. apply (stalls_after _ _ _ _ _ _ _ _ H1 H2).
Qed.

Lemma stalls_then {A B} (c : M A) (k : A -> M B) m0 m a e1 e2 :
  env m = env m0 ->
  (exists m1, exec c m a e1 m1) ->
  (forall m1, env m1 = env m0 -> exists m2, stalls (k a) m1 e2 m2) ->
  exists m2, stalls (bind c k) m (e1 ++ e2) m2.
Proof.
  intros He (m1 & H1) Hk.
  destruct (Hk m1) as (m2 & H2).
  { destruct H1 as (_ & _ & He1). congruence. }
  exists m2. apply (stalls_after _ _ _ _ _ _ _ _ H1 H2).
Qed.

Lemma sends_bind {A B} (c : M A) (k : A -> M B) m0 m o1 o2 :
  env m = env m0 ->
  sends c m o1 ->
  (forall a m1, env m1 = env m0 -> sends (k a) m1 o2) ->
  sends (bind c k) m (o1 ++ o2).
Proof.
  intros He (a & e1 & m1 & H1 & Ho1) Hk.
  destruct (Hk a m1) as (b & e2 & m2 & H2 & Ho2).
  { destruct H1 as (_ & _ & He1). congruence. }
  exists b, (e1 ++ e2), m2. split; [apply (exec_bind _ _ _ _ _ _ _ _ _ H1 H2)|].
  rewrite uart_out_app, Ho1, Ho2. reflexivity.
Qed.

Lemma sends_load r m : sends (load r) m [].
Proof.
  destruct (exec_load r m) as (v & m' & H & _). exists v, [], m'. auto.
Qed.

Lemma sends_store r v m : r <> USART3_TDR -> sends (store r v) m [].
Proof.
  intros Hr. eexists tt, _, _. split; [apply exec_store|].
  unfold uart_out. simpl. destruct (decide (r = USART3_TDR)); [contradiction|reflexivity].
Qed.

Lemma sends_shl32 x s m : 0 <= s < 32 -> sends (shl32 x s) m [].
Proof. intros Hs. eexists _, [], m. split; [apply exec_shl32; exact Hs|reflexivity]. Qed.

Lemma sends_exec {A} (c : M A) m a evs m' :
  exec c m a evs m' -> sends c m (uart_out evs).
Proof. intros H. exists a, evs, m'. auto. Qed.

End Logs.

(** * The main loop of the Nucleo firmware *)

Section NucleoMain.
Context {hdr : stm32h563xx}.

(** The delay loop changes nothing the model records. *)
Lemma delay_cycles_run : forall cycles m, Nucleo.delay_cycles cycles m = Ret tt m.
Proof.
  intros cycles.
  induction cycles as [cycles IH] using (well_founded_induction (Zwf_well_founded 0)).
  intros m. rewrite Nucleo.delay_cycles_equation_1.
  unfold Nucleo.delay_cycles_unfold_clause_1.
  destruct (decide (cycles > 0)) as [Hpos|]; [|reflexivity].
  apply IH. unfold sub32, u32. split; [lia|].
  apply Z.le_lt_trans with (cycles - 1); [apply Z.mod_le|]; lia.
Qed.

Lemma delay_cycles_exec cycles m : exec (Nucleo.delay_cycles cycles) m tt [] m.
Proof.
  unfold exec. rewrite delay_cycles_run, app_nil_r. auto.
Qed.

Lemma digits_value_ge ds : forall acc,
  0 <= acc -> forallb is_digit ds = true -> acc <= digits_value acc ds.
Proof.
  induction ds as [|x ds IH]; intros acc Hacc Hd; [simpl; lia|].
  cbn [forallb digits_value] in *.
  apply andb_true_iff in Hd. destruct Hd as [Hx Hd].
  unfold is_digit in Hx. apply andb_true_iff in Hx. rewrite !Z.leb_le in Hx.
  assert (Hacc' : 0 <= 10 * acc + (x - 48)) by lia.
  specialize (IH (10 * acc + (x - 48)) Hacc' Hd). lia.
Qed.

(** A value below ten has one decimal representation, its digit. *)
Lemma decimal_of_digit v ds :
  0 <= v < 10 -> decimal_of v ds = true -> ds = [48 + v].
Proof.
  intros Hv H. unfold decimal_of in H.
  apply andb_true_iff in H. destruct H as [H Hshape].
  apply andb_true_iff in H. destruct H as [Hdig Hval].
  apply Z.eqb_eq in Hval.
  destruct ds as [|x [|y ds]]; [discriminate| |].
  - cbn [digits_value] in Hval. f_equal. lia.
  - exfalso. apply negb_true_iff, Z.eqb_neq in Hshape.
    cbn [forallb digits_value] in Hdig, Hval.
    apply andb_true_iff in Hdig. destruct Hdig as [Hx Hdig].
    apply andb_true_iff in Hdig. destruct Hdig as [Hy Hdig].
    unfold is_digit in Hx, Hy. apply andb_true_iff in Hx, Hy.
    rewrite !Z.leb_le in Hx, Hy.
    assert (Hacc : 0 <= 10 * (10 * 0 + (x - 48)) + (y - 48)) by lia.
    pose proof (digits_value_ge ds _ Hacc Hdig) as Hge.
    lia.
Qed.

(** What [led_write] stores: the set bit of each LED pin to switch on, the
    reset bit (16 higher) to switch off. *)
Lemma led_write_run on m :
  Nucleo.led_write on m
  = Ret tt (Machine
              (bus_write (BSRR GPIOG) (if on =? 0 then 0x100000 else 0x10)
                (bus_write (BSRR GPIOF) (if on =? 0 then 0x100000 else 0x10)
                  (bus_write (BSRR GPIOB) (if on =? 0 then 0x10000 else 0x1) (mem m))))
              (stress_buffer m) (env m) (polls m)
              (log m ++ [EvStore (BSRR GPIOB) (if on =? 0 then 0x10000 else 0x1);
                         EvStore (BSRR GPIOF) (if on =? 0 then 0x100000 else 0x10);
                         EvStore (BSRR GPIOG) (if on =? 0 then 0x100000 else 0x10)])).
Proof.
  unfold Nucleo.led_write, Nucleo.bsrr_write,
    Nucleo.LED1_PIN, Nucleo.LED2_PIN, Nucleo.LED3_PIN.
  change (add32 0 16) with 16. change (add32 4 16) with 20.
  destruct (on =? 0); cbn [negb];
    unfold bind, store;
    repeat (rewrite shl32_run by lia; cbv beta iota;
            cbn [mem stress_buffer env polls log]);
    rewrite <- ?app_assoc; reflexivity.
Qed.
End NucleoMain.

(** * Straight-line register sequences *)

Lemma exec_load_as r m v :
  is_status r = false -> mem m r = v -> exec (load r) m v [] m.
Proof. intros Hr <-. apply exec_load_storage, Hr. Qed.

(** The value a storage register holds after the writes so far. *)
Ltac lookup_reg :=
  cbn [mem bus_write];
  repeat (rewrite fn_lookup_insert
          || rewrite fn_lookup_insert_ne by discriminate);
  reflexivity.

(** One statement of straight-line code: a register write, a read of a
    storage register, a shift by a count in range. *)
Ltac exec_step :=
  cbn [mem stress_buffer env polls log];
  lazymatch goal with
  | |- exec (store _ _) _ _ _ _ => apply exec_store
  | |- exec bkpt _ _ _ _ => apply exec_bkpt
  | |- exec (ret _) _ _ _ _ => apply exec_ret
  | |- exec (bind (store _ _) _) _ _ _ _ =>
      eapply exec_bind; [apply exec_store | cbv beta]
  | |- exec (bind bkpt _) _ _ _ _ =>
      eapply exec_bind; [apply exec_bkpt | cbv beta]
  | |- exec (bind (load _) _) _ _ _ _ =>
      eapply exec_bind; [apply exec_load_as; [reflexivity | lookup_reg] | cbv beta]
  | |- exec (bind (shl32 _ _) _) _ _ _ _ =>
      eapply exec_bind; [apply exec_shl32; (assumption || lia) | cbv beta]
  end.

Section Leaves.
Context {hdr : stm32h563xx}.

Lemma gpio_config_output_exec gpio pin m :
  0 <= pin < 16 ->
  exists evs m',
    exec (Nucleo.gpio_config_output gpio pin) m tt evs m' /\ uart_out evs = [].
Proof.
  intros Hp. unfold Nucleo.gpio_config_output. rewrite (mul32_pin _ Hp).
  eexists _, _. split; [repeat exec_step | reflexivity].
Qed.

Lemma gpio_config_input_pullup_exec gpio pin m :
  0 <= pin < 16 ->
  exists evs m',
    exec (Nucleo.gpio_config_input_pullup gpio pin) m tt evs m' /\ uart_out evs = [].
Proof.
  intros Hp. unfold Nucleo.gpio_config_input_pullup. rewrite (mul32_pin _ Hp).
  eexists _, _. split; [repeat exec_step | reflexivity].
Qed.

(** The UART part of the Nucleo [uart3_init]: the three control registers
    are written with 0, then the divisor, then CR1 with TE, RE and UE. *)
Lemma nucleo_uart3_init_exec m :
  header_ok hdr ->
  exists evs m',
    exec Nucleo.uart3_init m tt evs m' /\
    usart3_stores evs
    = [EvStore USART3_CR1 0; EvStore USART3_CR2 0; EvStore USART3_CR3 0;
       EvStore USART3_BRR 556;
       EvStore USART3_CR1 (Z.lor (Z.lor USART_CR1_TE USART_CR1_RE) USART_CR1_UE)].
Proof.
  intros [H8 H9]. unfold Nucleo.uart3_init.
  eexists _, _. split; [repeat exec_step | reflexivity].
Qed.

(** The Nucleo [uart3_init] sends nothing. *)
Lemma nucleo_uart3_init_sends m :
  header_ok hdr -> sends Nucleo.uart3_init m [].
Proof.
  intros [H8 H9]. unfold Nucleo.uart3_init.
  eexists tt, _, _. split; [repeat exec_step | reflexivity].
Qed.

(** The UART part of the stress-test [uart3_init]: the divisor, then the
    DMA request flag or-ed into CR3, then CR1 with TE and UE. *)
Lemma hil_uart3_init_exec m :
  header_ok hdr ->
  exists evs m',
    exec Hil.uart3_init m tt evs m' /\
    usart3_stores evs
    = [EvStore USART3_BRR 556;
       EvStore USART3_CR3 (Z.lor (mem m USART3_CR3) USART_CR3_DMAT);
       EvStore USART3_CR1 (Z.lor USART_CR1_TE USART_CR1_UE)].
Proof.
  intros [H8 H9]. unfold Hil.uart3_init.
  eexists _, _. split; [repeat exec_step | reflexivity].
Qed.
End Leaves.

Section NucleoRun.
Context {hdr : stm32h563xx}.
Variables (fuel d : nat).
Hypothesis Hfuel : (d <= fuel)%nat.
Variable m0 : machine.
Hypothesis Hok : header_ok hdr.
Hypothesis Hw : flag_within d USART3_ISR USART_ISR_TXE_TXFNF m0.

Lemma txe_kept m : env m = env m0 -> flag_within d USART3_ISR USART_ISR_TXE_TXFNF m.
Proof. intros He. apply (flag_within_env _ _ _ m0); assumption. Qed.

Lemma uart3_write_str_sends s m :
  env m = env m0 -> sends (Nucleo.uart3_write_str fuel s) m (c_bytes s).
Proof.
  intros He.
  destruct (uart3_write_str_exec fuel d Hfuel s m (txe_kept m He)) as (m' & H).
  exists tt, (tx USART3_TDR (c_bytes s)), m'. split; [exact H | apply uart_out_tx].
Qed.

(** [main] up to the loop returns, having sent the banner. *)
Lemma main_init_sends m :
  env m = env m0 ->
  sends (Nucleo.main_init fuel) m (c_bytes ("H563-BLINK-UART" ++ CRLF)).
Proof.
  intros He. unfold Nucleo.main_init.
  apply (sends_bind _ _ m0 m [] _ He (sends_load _ _)). intros ahb2 m1 He1.
  apply (sends_bind _ _ m0 m1 [] _ He1 (sends_store RCC_AHB2ENR _ m1 ltac:(discriminate))).
  intros _ m2 He2.
  apply (sends_bind _ _ m0 m2 [] _ He2).
  { destruct (gpio_config_output_exec GPIOB Nucleo.LED1_PIN m2) as (e & m' & H & Ho);
      [unfold Nucleo.LED1_PIN; lia|]. rewrite <- Ho. apply (sends_exec _ _ _ _ _ H). }
  intros _ m3 He3.
  apply (sends_bind _ _ m0 m3 [] _ He3).
  { destruct (gpio_config_output_exec GPIOF Nucleo.LED2_PIN m3) as (e & m' & H & Ho);
      [unfold Nucleo.LED2_PIN; lia|]. rewrite <- Ho. apply (sends_exec _ _ _ _ _ H). }
  intros _ m4 He4.
  apply (sends_bind _ _ m0 m4 [] _ He4).
  { destruct (gpio_config_output_exec GPIOG Nucleo.LED3_PIN m4) as (e & m' & H & Ho);
      [unfold Nucleo.LED3_PIN; lia|]. rewrite <- Ho. apply (sends_exec _ _ _ _ _ H). }
  intros _ m5 He5.
  apply (sends_bind _ _ m0 m5 [] _ He5).
  { destruct (gpio_config_input_pullup_exec GPIOC Nucleo.BTN_PIN m5) as (e & m' & H & Ho);
      [unfold Nucleo.BTN_PIN; lia|]. rewrite <- Ho. apply (sends_exec _ _ _ _ _ H). }
  intros _ m6 He6.
  apply (sends_bind _ _ m0 m6 [] _ He6 (nucleo_uart3_init_sends m6 Hok)).
  intros _ m7 He7.
  apply uart3_write_str_sends. exact He7.
Qed.

Lemma str_step s m :
  env m = env m0 ->
  exists m', exec (Nucleo.uart3_write_str fuel s) m tt (tx USART3_TDR (c_bytes s)) m'.
Proof.
  intros He. apply (uart3_write_str_exec fuel d Hfuel s m (txe_kept m He)).
Qed.

Lemma led_write_exec on m :
  exists m',
    exec (Nucleo.led_write on) m tt
         [EvStore (BSRR GPIOB) (if on =? 0 then 0x10000 else 0x1);
          EvStore (BSRR GPIOF) (if on =? 0 then 0x100000 else 0x10);
          EvStore (BSRR GPIOG) (if on =? 0 then 0x100000 else 0x10)] m' /\
    polls m' = polls m.
Proof.
  eexists. unfold exec. rewrite led_write_run. cbn [log env polls]. auto.
Qed.

Lemma button_bit e :
  Z.land (Z.shiftr (u32 e) Nucleo.BTN_PIN) 1 = Z.b2z (Z.testbit e Nucleo.BTN_PIN).
Proof.
  unfold Nucleo.BTN_PIN, u32. change 1 with (Z.ones 1) at 1.
  rewrite Z.land_ones by lia. change (2 ^ 1) with 2.
  rewrite <- Z.bit0_mod, Z.shiftr_spec by lia.
  rewrite Z.mod_pow2_bits_low by lia. reflexivity.
Qed.

(** One pass through the loop: the three LED writes, then one line. *)
Lemma main_loop_exec bc led m :
  env m = env m0 -> 0 <= bc <= 4294967295 -> 0 <= led <= 1 ->
  exists dbc m',
    decimal_of bc dbc = true /\ (bc = 0 -> dbc = [48]) /\
    exec (Nucleo.main_loop fuel (bc, led)) m (add32 bc 1, Z.lxor led 1)
         ([EvStore (BSRR GPIOB) (if Z.lxor led 1 =? 0 then 0x10000 else 0x1);
           EvStore (BSRR GPIOF) (if Z.lxor led 1 =? 0 then 0x100000 else 0x10);
           EvStore (BSRR GPIOG) (if Z.lxor led 1 =? 0 then 0x100000 else 0x10)]
          ++ tx USART3_TDR
               (c_bytes "BLINK " ++ dbc
                ++ c_bytes " PB0=" ++ [48 + Z.lxor led 1]
                ++ c_bytes " PF4=" ++ [48 + Z.lxor led 1]
                ++ c_bytes " PG4=" ++ [48 + Z.lxor led 1]
                ++ c_bytes " BTN13="
                ++ [48 + Z.b2z (Z.testbit (env m (IDR GPIOC) (polls m (IDR GPIOC)))
                                          Nucleo.BTN_PIN)]
                ++ c_bytes CRLF)) m'.
Proof.
  intros He Hbc Hled.
  assert (Hled' : 0 <= Z.lxor led 1 <= 1).
  { assert (Hc : led = 0 \/ led = 1) by lia.
    destruct Hc as [->| ->];
      [change (Z.lxor 0 1) with 1 | change (Z.lxor 1 1) with 0]; lia. }
  assert (Hbtn : 0 <= Z.b2z (Z.testbit (env m (IDR GPIOC) (polls m (IDR GPIOC)))
                                       Nucleo.BTN_PIN) <= 1).
  { destruct (Z.testbit _ _); simpl; lia. }
  revert Hled' Hbtn.
  set (led' := Z.lxor led 1).
  set (btn := Z.b2z (Z.testbit (env m (IDR GPIOC) (polls m (IDR GPIOC))) Nucleo.BTN_PIN)).
  intros Hled' Hbtn.
  destruct (uart3_write_u32_dec_exec bc Hbc) as (dbc & Hdbc & Hzero & Hrun_bc).
  destruct (uart3_write_u32_dec_exec led') as (dled & Hdled & _ & Hrun_led); [lia|].
  destruct (uart3_write_u32_dec_exec btn) as (dbtn & Hdbtn & _ & Hrun_btn); [lia|].
  apply decimal_of_digit in Hdled; [|lia]. apply decimal_of_digit in Hdbtn; [|lia].
  subst dled dbtn.
  exists dbc.
  assert (Hrun : exists evs,
             (exists m', exec (Nucleo.main_loop fuel (bc, led)) m
                              (add32 bc 1, led') evs m')
             /\ evs = [EvStore (BSRR GPIOB) (if led' =? 0 then 0x10000 else 0x1);
                       EvStore (BSRR GPIOF) (if led' =? 0 then 0x100000 else 0x10);
                       EvStore (BSRR GPIOG) (if led' =? 0 then 0x100000 else 0x10)]
                      ++ tx USART3_TDR
                           (c_bytes "BLINK " ++ dbc
                            ++ c_bytes " PB0=" ++ [48 + led']
                            ++ c_bytes " PF4=" ++ [48 + led']
                            ++ c_bytes " PG4=" ++ [48 + led']
                            ++ c_bytes " BTN13=" ++ [48 + btn] ++ c_bytes CRLF)).
  { eexists. split.
    - unfold Nucleo.main_loop. fold led'.
      destruct (led_write_exec led' m) as (m1 & Hled_run & Hpolls).
      assert (He1 : env m1 = env m) by (destruct Hled_run as (_ & _ & ->); reflexivity).
      eapply exec_bind_ex; [exact Hled_run|]. cbv beta.
      eapply exec_bind_ex; [apply exec_load_status; reflexivity|]. cbv beta zeta.
      rewrite Hpolls, He1, button_bit. fold btn.
      match goal with |- exists m2, exec _ ?mc _ _ _ =>
        assert (Hc : env mc = env m0) by (cbn [env]; congruence); revert Hc;
        generalize mc end.
      intros m2 He2.
      eapply (exec_then _ _ m0); [exact He2 | apply str_step; exact He2 |].
      clear m2 He2. intros m2 He2.
      eapply (exec_then _ _ m0);
        [exact He2 | apply (Hrun_bc fuel d m2 (txe_kept m2 He2) Hfuel) |].
      clear m2 He2. intros m2 He2.
      eapply (exec_then _ _ m0); [exact He2 | apply str_step; exact He2 |].
      clear m2 He2. intros m2 He2.
      eapply (exec_then _ _ m0);
        [exact He2 | apply (Hrun_led fuel d m2 (txe_kept m2 He2) Hfuel) |].
      clear m2 He2. intros m2 He2.
      eapply (exec_then _ _ m0); [exact He2 | apply str_step; exact He2 |].
      clear m2 He2. intros m2 He2.
      eapply (exec_then _ _ m0);
        [exact He2 | apply (Hrun_led fuel d m2 (txe_kept m2 He2) Hfuel) |].
      clear m2 He2. intros m2 He2.
      eapply (exec_then _ _ m0); [exact He2 | apply str_step; exact He2 |].
      clear m2 He2. intros m2 He2.
      eapply (exec_then _ _ m0);
        [exact He2 | apply (Hrun_led fuel d m2 (txe_kept m2 He2) Hfuel) |].
      clear m2 He2. intros m2 He2.
      eapply (exec_then _ _ m0); [exact He2 | apply str_step; exact He2 |].
      clear m2 He2. intros m2 He2.
      eapply (exec_then _ _ m0);
        [exact He2 | apply (Hrun_btn fuel d m2 (txe_kept m2 He2) Hfuel) |].
      clear m2 He2. intros m2 He2.
      eapply (exec_then _ _ m0); [exact He2 | apply str_step; exact He2 |].
      clear m2 He2. intros m2 He2. cbv zeta.
      eapply (exec_then _ _ m0);
        [exact He2 | exists m2; apply delay_cycles_exec |].
      clear m2 He2. intros m2 He2.
      exists m2. apply exec_ret.
    - unfold tx. rewrite !map_app. cbn [app]. rewrite ?app_nil_r.
      rewrite <- ?app_assoc. reflexivity. }
  destruct Hrun as (evs & (m' & Hexec) & ->).
  exists m'. auto.
Qed.
End NucleoRun.

(** C2. In the periodic-report firmware, from the machine [m1] that [main]
    reaches at the loop, the first pass through the loop (counter 0, LED
    state 0) with the button pin read low switches the three LEDs on through
    the set bits of BSRR and then sends exactly the line
    "BLINK 0 PB0=1 PF4=1 PG4=1 BTN13=0" followed by CR LF; it leaves the
    counter at 1 and the LED state at 1. *)
Theorem first_iteration_line {hdr : stm32h563xx} (fuel d : nat) (m m1 : machine) :
  header_ok hdr ->
  flag_within d USART3_ISR USART_ISR_TXE_TXFNF m ->
  (d <= fuel)%nat ->
  Nucleo.main_init fuel m = Ret tt m1 ->
  Z.testbit (env m1 (IDR GPIOC) (polls m1 (IDR GPIOC))) Nucleo.BTN_PIN = false ->
  exists m2,
    exec (Nucleo.main_loop fuel (0, 0)) m1 (1, 1)
         ([EvStore (BSRR GPIOB) 0x1; EvStore (BSRR GPIOF) 0x10;
           EvStore (BSRR GPIOG) 0x10]
          ++ tx USART3_TDR (c_bytes ("BLINK 0 PB0=1 PF4=1 PG4=1 BTN13=0" ++ CRLF)))
         m2.
Proof.
  intros Hok Hw Hfuel Hinit Hbtn.
  assert (He : env m1 = env m).
  { destruct (main_init_sends fuel d Hfuel m Hok Hw m eq_refl)
      as (a & evs & m' & (Hrun & _ & Henv) & _).
    rewrite Hinit in Hrun. inversion Hrun; subst. exact Henv. }
  destruct (main_loop_exec fuel d Hfuel m Hw 0 0 m1 He) as (dbc & m2 & _ & Hz & Hexec);
    [lia|lia|].
  rewrite (Hz eq_refl), Hbtn in Hexec. exists m2. exact Hexec.
Qed.

Lemma first_iteration_line_witness :
  exists m2,
    exec (Nucleo.main_loop (hdr := cmsis) 1 (0, 0))
         (match Nucleo.main_init (hdr := cmsis) 1 (reset_machine (fun _ => 0x80)) with
          | Ret _ m1 => m1
          | _ => reset_machine (fun _ => 0x80)
          end)
         (1, 1)
         ([EvStore (BSRR GPIOB) 0x1; EvStore (BSRR GPIOF) 0x10;
           EvStore (BSRR GPIOG) 0x10]
          ++ tx USART3_TDR (c_bytes ("BLINK 0 PB0=1 PF4=1 PG4=1 BTN13=0" ++ CRLF)))
         m2.
Proof.
  apply (first_iteration_line (hdr := cmsis) 1 1 (reset_machine (fun _ => 0x80))).
  - split; simpl; lia.
  - intros n. exists 0%nat. split; [lia|]. vm_compute. discriminate.
  - lia.
  - vm_compute. reflexivity.
  - vm_compute. reflexivity.
Defined.

(** * Lines *)

Section Lines.

Lemma crlf_lines_app a : forall b,
  crlf_lines a = true -> crlf_lines b = true -> crlf_lines (a ++ b) = true.
Proof.
  induction a as [a IH] using (induction_ltof1 _ (@length Z)). unfold ltof in IH.
  intros b Ha Hb. destruct a as [|c rest]; [exact Hb|].
  cbn [crlf_lines app] in *.
  destruct (c =? 13).
  - destruct rest as [|c' rest']; [discriminate|].
    apply andb_true_iff in Ha. destruct Ha as [Hc' Hrest].
    cbn [app]. rewrite Hc'. cbn [andb].
    apply IH; [simpl; lia|assumption|assumption].
  - destruct (c =? 10); [discriminate|].
    destruct rest as [|c' rest']; [discriminate|].
    change ((c' :: rest') ++ b) with (c' :: (rest' ++ b)).
    change (c' :: (rest' ++ b)) with ((c' :: rest') ++ b).
    assert (Hgo : crlf_lines ((c' :: rest') ++ b) = true)
      by (apply IH; [simpl; lia|assumption|assumption]).
    exact Hgo.
Qed.

Lemma crlf_lines_line body :
  forallb plain body = true -> crlf_lines (body ++ [13; 10]) = true.
Proof.
  induction body as [|c body IH]; intros Hp; [reflexivity|].
  cbn [forallb] in Hp. apply andb_true_iff in Hp. destruct Hp as [Hc Hp].
  unfold plain in Hc. apply andb_true_iff in Hc. destruct Hc as [H13 H10].
  apply negb_true_iff in H13, H10.
  cbn [app crlf_lines]. rewrite H13, H10.
  specialize (IH Hp). destruct (body ++ [13; 10]) eqn:E; [|exact IH].
  destruct body; discriminate.
Qed.

Lemma uart_out_cons_other r v l :
  r <> USART3_TDR -> uart_out (EvStore r v :: l) = uart_out l.
Proof.
  intros Hr. unfold uart_out. cbn [writes_to].
  destruct (decide (r = USART3_TDR)); [contradiction|reflexivity].
Qed.

Lemma digit_plain ds : forallb is_digit ds = true -> forallb plain ds = true.
Proof.
  intros H. apply forallb_forall. intros x Hx.
  rewrite forallb_forall in H. specialize (H x Hx).
  unfold is_digit in H. apply andb_true_iff in H. rewrite !Z.leb_le in H.
  unfold plain. apply andb_true_iff.
  split; apply negb_true_iff, Z.eqb_neq; lia.
Qed.

Lemma decimal_plain n ds : decimal_of n ds = true -> forallb plain ds = true.
Proof.
  intros H. unfold decimal_of in H.
  apply andb_true_iff in H. destruct H as [H _].
  apply andb_true_iff in H. destruct H as [H _].
  apply digit_plain, H.
Qed.

End Lines.

Section NucleoLines.
Context {hdr : stm32h563xx}.
Variables (fuel d : nat).
Hypothesis Hfuel : (d <= fuel)%nat.
Variable m0 : machine.
Hypothesis Hok : header_ok hdr.
Hypothesis Hw : flag_within d USART3_ISR USART_ISR_TXE_TXFNF m0.

(** However many passes through the loop are observed, each has sent one
    line ending in CR LF. *)
Lemma forever_main_loop_lines rounds : forall bc led m,
  env m = env m0 -> 0 <= bc <= 4294967295 -> 0 <= led <= 1 ->
  exists evs m',
    stalls (forever rounds (Nucleo.main_loop fuel) (bc, led)) m evs m' /\
    crlf_lines (uart_out evs) = true.
Proof.
  induction rounds as [|n IH]; intros bc led m He Hbc Hled.
  - exists [], m. split; [|reflexivity]. split; [reflexivity|].
    rewrite app_nil_r. reflexivity.
  - destruct (main_loop_exec fuel d Hfuel m0 Hw bc led m He Hbc Hled)
      as (dbc & m1 & Hdbc & _ & Hexec).
    assert (He1 : env m1 = env m0) by (destruct Hexec as (_ & _ & ->); exact He).
    destruct (IH (add32 bc 1) (Z.lxor led 1) m1 He1) as (evs & m2 & Hst & Hout).
    { unfold add32, u32. pose proof (Z.mod_pos_bound (bc + 1) (2 ^ 32)). lia. }
    { assert (Hc : led = 0 \/ led = 1) by lia.
      destruct Hc as [->| ->];
        [change (Z.lxor 0 1) with 1 | change (Z.lxor 1 1) with 0]; lia. }
    eexists _, m2. split.
    + cbn [forever]. apply (stalls_after _ _ _ _ _ _ _ _ Hexec Hst).
    + rewrite !uart_out_app, uart_out_tx.
      rewrite !uart_out_cons_other by discriminate.
      change (uart_out []) with (@nil Z). rewrite app_nil_l.
      apply crlf_lines_app; [|exact Hout].
      change (c_bytes CRLF) with [13; 10]. rewrite !app_assoc.
      apply crlf_lines_line. rewrite !forallb_app.
      rewrite (decimal_plain _ _ Hdbc).
      assert (Hd : forall v, 0 <= v <= 1 -> forallb plain [48 + v] = true).
      { intros v Hv. assert (Hc : v = 0 \/ v = 1) by lia.
        destruct Hc as [->| ->]; reflexivity. }
      rewrite !Hd; [reflexivity| |].
      * destruct (Z.testbit _ _); simpl; lia.
      * assert (Hc : led = 0 \/ led = 1) by lia.
        destruct Hc as [->| ->];
          [change (Z.lxor 0 1) with 1 | change (Z.lxor 1 1) with 0]; lia.
Qed.

(** The periodic-report firmware as a whole: the banner, then one line per
    pass through the loop. *)
Lemma nucleo_main_lines rounds :
  exists evs m',
    stalls (Nucleo.main fuel rounds) m0 evs m' /\
    crlf_lines (uart_out evs) = true.
Proof.
  destruct (main_init_sends fuel d Hfuel m0 Hok Hw m0 eq_refl)
    as ([] & e1 & m1 & Hinit & Hout1).
  assert (He1 : env m1 = env m0) by apply Hinit.
  destruct (forever_main_loop_lines rounds 0 0 m1 He1) as (e2 & m2 & Hst & Hout2);
    [lia|lia|].
  exists (e1 ++ e2), m2. split.
  - apply (stalls_after _ _ _ _ _ _ _ _ Hinit Hst).
  - rewrite uart_out_app, Hout1. apply crlf_lines_app; [reflexivity|exact Hout2].
Qed.
End NucleoLines.

(** * The stress-test firmware *)

Section HilRun.
Context {hdr : stm32h563xx}.
Variables (fuel d : nat).
Hypothesis Hfuel : (d <= fuel)%nat.
Variable m0 : machine.
Hypothesis Hok : header_ok hdr.
Hypothesis Hw : flag_within d USART3_ISR USART_ISR_TXE_TXFNF m0.

Lemma fill_loop_unfold i :
  Hil.fill_loop i
  = if decide (i < Hil.STRESS_BUFFER_SIZE)
    then Hil.stress_buffer_store i (u8 (Z.land i 0xFF)) ;; Hil.fill_loop (add32 i 1)
    else ret tt.
Proof.
  rewrite Hil.fill_loop_equation_1. unfold Hil.fill_loop_unfold_clause_1.
  destruct (decide _); reflexivity.
Qed.

Lemma pattern_byte i : 0 <= i -> u8 (Z.land i 0xFF) = i mod 256.
Proof.
  intros Hi. change 0xFF with (Z.ones 8). rewrite Z.land_ones by lia.
  change (2 ^ 8) with 256. apply u8_small. apply Z.mod_pos_bound. lia.
Qed.

(** The fill loop from index [i] on: one buffer write per remaining index,
    in increasing order. *)
Lemma fill_loop_run (n : nat) : forall i f buf e p l,
  i = 256 - Z.of_nat n -> 0 <= i -> length buf = 256%nat ->
  Hil.fill_loop i (Machine f buf e p l)
  = Ret tt (Machine f (fill_from i n buf) e p (l ++ pattern_events i n)).
Proof.
  induction n as [|n IH]; intros i f buf e p l Hi Hpos Hlen; rewrite fill_loop_unfold;
    unfold Hil.STRESS_BUFFER_SIZE.
  - destruct (decide (i < 256)); [lia|]. simpl. rewrite app_nil_r. reflexivity.
  - destruct (decide (i < 256)); [|lia].
    unfold bind, Hil.stress_buffer_store. cbn [stress_buffer mem env polls log].
    destruct (decide _) as [_|Hbad]; [|exfalso; lia].
    rewrite pattern_byte by lia. rewrite add32_succ by lia.
    rewrite IH; [| lia | lia | rewrite length_insert; exact Hlen].
    cbn [fill_from pattern_events]. rewrite <- app_assoc. reflexivity.
Qed.

Lemma fill_loop_exec m :
  length (stress_buffer m) = 256%nat ->
  exec (Hil.fill_loop 0) m tt (pattern_events 0 256)
       (Machine (mem m) (fill_from 0 256 (stress_buffer m)) (env m) (polls m)
                (log m ++ pattern_events 0 256)).
Proof.
  intros Hlen. destruct m as [f buf e p l]. cbn [mem stress_buffer env polls log] in *.
  unfold exec. rewrite (fill_loop_run 256); [auto | reflexivity | lia | exact Hlen].
Qed.

(** After the fill loop byte [k] of the buffer holds [k mod 256]. *)
Lemma fill_from_lookup (n : nat) : forall i (buf : list Z) (k : nat),
  0 <= i -> (Z.to_nat i + n <= length buf)%nat ->
  fill_from i n buf !! k
  = if decide (Z.to_nat i <= k < Z.to_nat i + n)%nat
    then Some (Z.of_nat k mod 256)
    else buf !! k.
Proof.
  induction n as [|n IH]; intros i buf k Hi Hlen; cbn [fill_from].
  - destruct (decide _); [lia|reflexivity].
  - rewrite IH by (rewrite ?length_insert; lia).
    replace (Z.to_nat (i + 1)) with (S (Z.to_nat i)) by lia.
    destruct (decide (S (Z.to_nat i) <= k < S (Z.to_nat i) + n)%nat).
    + destruct (decide _); [reflexivity|lia].
    + destruct (decide (Z.to_nat i <= k < Z.to_nat i + S n)%nat).
      * assert (k = Z.to_nat i) as -> by lia.
        rewrite list_lookup_insert_eq by lia. rewrite Z2Nat.id by lia. reflexivity.
      * apply list_lookup_insert_ne. lia.
Qed.

Lemma fill_loop_pattern m :
  length (stress_buffer m) = 256%nat ->
  exists m',
    Hil.fill_loop 0 m = Ret tt m' /\
    forall k, (k < 256)%nat -> stress_buffer m' !! k = Some (Z.of_nat k mod 256).
Proof.
  intros Hlen. eexists. split; [apply (fill_loop_exec m Hlen)|].
  intros k Hk. cbn [stress_buffer].
  rewrite fill_from_lookup by (simpl; lia).
  destruct (decide _) as [_|Hbad]; [reflexivity|simpl in Hbad; lia].
Qed.

Lemma hil_uart3_write_str_exec s : forall m,
  env m = env m0 ->
  exists m', exec (Hil.uart3_write_str fuel s) m tt (tx USART3_TDR (c_bytes s)) m'.
Proof.
  induction s as [|c s IH]; intros m He; simpl.
  - exists m. apply exec_ret.
  - destruct (byte_of c =? 0); [exists m; apply exec_ret|].
    rewrite (u8_small _ (byte_of_range c)).
    change (tx USART3_TDR (byte_of c :: c_bytes s))
      with ([] ++ [EvStore USART3_TDR (byte_of c)] ++ tx USART3_TDR (c_bytes s)).
    eapply (exec_then _ _ m0); [exact He| |intros m1 He1].
    { destruct (busy_wait_exec d fuel USART3_ISR USART_ISR_TXE_TXFNF m eq_refl)
        as (m1 & H1 & _); [apply (flag_within_env _ _ _ m0); assumption|exact Hfuel|].
      exists m1. exact H1. }
    eapply (exec_then _ _ m0); [exact He1|eexists; apply exec_store|intros m2 He2].
    apply IH. exact He2.
Qed.

Lemma flag_never_env r flag m m' :
  env m' = env m -> flag_never r flag m -> flag_never r flag m'.
Proof. unfold flag_never. intros ->. auto. Qed.

(** [main] up to the call that sends "Started": the buffer is filled, the
    UART and the DMA channel are set up, the pin is set. *)
Ltac hil_prefix Hlen :=
  unfold Hil.main;
  eapply stalls_after_ex; [apply (fill_loop_exec _ Hlen)|]; cbv beta;
  unfold Hil.uart3_init, Hil.dma1_init, Hil.STRESS_BUFFER_SIZE;
  eapply stalls_after_ex; [repeat exec_step|]; cbv beta;
  eapply stalls_after_ex; [repeat exec_step|]; cbv beta;
  eapply stalls_after_ex; [apply exec_shl32; lia|]; cbv beta;
  eapply stalls_after_ex; [apply exec_store|];
  match goal with |- exists m2, stalls _ ?mc _ _ =>
    let Hc := fresh "He" in
    assert (Hc : env mc = env m0) by reflexivity; revert Hc; generalize mc
  end.

(** With a transfer that completes, [main] reaches its final spin, and its
    log is the one of [hil_main_events]: buffer fill, UART set-up, DMA
    set-up and start, pin on, "Started", "Passed", pin off, breakpoint. *)
Lemma hil_main_passes :
  length (stress_buffer m0) = 256%nat ->
  flag_within d DMA1_ISR DMA_ISR_TCIF1 m0 ->
  exists m', stalls (Hil.main fuel) m0 (hil_main_events (mem m0)) m'.
Proof.
  intros Hlen Htc.
  assert (Hrun : exists evs,
             (exists m', stalls (Hil.main fuel) m0 evs m')
             /\ evs = hil_main_events (mem m0)).
  { destruct Hok as [H8 H9]. eexists. split.
    - hil_prefix Hlen. intros m He.
      eapply (stalls_then _ _ m0); [exact He|apply hil_uart3_write_str_exec, He|].
      clear m He. intros m He.
      eapply (stalls_then _ _ m0); [exact He| |].
      { destruct (busy_wait_exec d fuel DMA1_ISR DMA_ISR_TCIF1 m eq_refl)
          as (m1 & H1 & _); [apply (flag_within_env _ _ _ m0); assumption|exact Hfuel|].
        exists m1. exact H1. }
      clear m He. intros m He.
      eapply (stalls_then _ _ m0); [exact He|apply hil_uart3_write_str_exec, He|].
      clear m He. intros m He.
      eapply (stalls_then _ _ m0); [exact He|exists m; apply exec_shl32; lia|].
      clear m He. intros m He. cbv beta.
      eapply (stalls_then _ _ m0); [exact He|eexists; apply exec_store|].
      clear m He. intros m He.
      eapply (stalls_then _ _ m0); [exact He|eexists; apply exec_bkpt|].
      clear m He. intros m He.
      exists m. split; [apply forever_idle|symmetry; apply app_nil_r].
    - unfold hil_main_events, hil_started_events,
        hil_uart3_init_events, hil_dma1_init_events.
      cbn [app]. change (shl 1 0) with 1. change (shl 1 16) with 65536.
      rewrite <- ?app_assoc. reflexivity. }
  destruct Hrun as (evs & Hst & ->). exact Hst.
Qed.

(** With a transfer that never completes, [main] stays in the wait loop
    whatever the observer's patience: nothing is sent after "Started". *)
Lemma hil_main_waits :
  length (stress_buffer m0) = 256%nat ->
  flag_never DMA1_ISR DMA_ISR_TCIF1 m0 ->
  exists m', stalls (Hil.main fuel) m0 (hil_started_events (mem m0)) m'.
Proof.
  intros Hlen Htc.
  assert (Hrun : exists evs,
             (exists m', stalls (Hil.main fuel) m0 evs m')
             /\ evs = hil_started_events (mem m0)).
  { destruct Hok as [H8 H9]. eexists. split.
    - hil_prefix Hlen. intros m He.
      eapply (stalls_then _ _ m0); [exact He|apply hil_uart3_write_str_exec, He|].
      clear m He. intros m He.
      destruct (busy_wait_never fuel DMA1_ISR DMA_ISR_TCIF1 m eq_refl)
        as (m' & Hspin & Hlog); [apply (flag_never_env _ _ m0); assumption|].
      exists m'. apply stalls_bind. split; [exact Hspin|].
      rewrite Hlog. symmetry. apply app_nil_r.
    - unfold hil_started_events, hil_uart3_init_events, hil_dma1_init_events.
      cbn [app]. change (shl 1 0) with 1. reflexivity. }
  destruct Hrun as (evs & Hst & ->). exact Hst.
Qed.
End HilRun.

(** * Pin writes through the set/reset register *)

Section PinWrite.

(** The output latch after a write of [v] to the set/reset register. *)
Lemma odr_after_bsrr odr v k :
  0 <= k < 16 ->
  Z.testbit (Z.lor (Z.land odr (not32 (Z.shiftr v 16))) (Z.land v 0xFFFF)) k
  = (Z.testbit odr k && negb (Z.testbit v (k + 16))) || Z.testbit v k.
Proof.
  intros Hk. rewrite Z.lor_spec, !Z.land_spec, testbit_not32, Z.shiftr_spec by lia.
  change 0xFFFF with (Z.ones 16). rewrite Z.ones_spec_low by lia.
  rewrite andb_true_r. reflexivity.
Qed.

Lemma bsrr_write_run gpio pin on m :
  0 <= pin < 16 ->
  Nucleo.bsrr_write gpio pin on m
  = Ret tt (Machine (bus_write (BSRR gpio)
                       (if on =? 0 then shl 1 (pin + 16) else shl 1 pin) (mem m))
                    (stress_buffer m) (env m) (polls m)
                    (log m ++ [EvStore (BSRR gpio)
                                 (if on =? 0 then shl 1 (pin + 16) else shl 1 pin)])).
Proof.
  intros Hp. unfold Nucleo.bsrr_write, bind.
  rewrite (add32_small pin 16) by (change (2 ^ 32) with 4294967296; lia).
  destruct (on =? 0); cbn [negb]; rewrite shl32_run by lia; reflexivity.
Qed.

(** The level of pin [k] after [bsrr_write] on [pin]: the written level on
    the pin itself, the old level on every other pin. *)
Lemma bsrr_write_level gpio pin on m k :
  0 <= pin < 16 -> 0 <= k < 16 ->
  exists m',
    Nucleo.bsrr_write gpio pin on m = Ret tt m' /\
    Z.testbit (mem m' (ODR gpio)) k
    = if decide (k = pin) then negb (on =? 0) else Z.testbit (mem m (ODR gpio)) k.
Proof.
  intros Hp Hk. rewrite bsrr_write_run by exact Hp.
  eexists. split; [reflexivity|]. cbn [mem bus_write].
  rewrite fn_lookup_insert, odr_after_bsrr by exact Hk.
  destruct (on =? 0); cbn [negb];
    rewrite !testbit_shl, !testbit_1 by lia;
    destruct (decide (k = pin)) as [->|Hne].
  - replace (pin + 16 - (pin + 16) =? 0) with true by (symmetry; apply Z.eqb_eq; lia).
    replace (pin - (pin + 16) =? 0) with false by (symmetry; apply Z.eqb_neq; lia).
    cbn [negb]. rewrite andb_false_r. reflexivity.
  - replace (k + 16 - (pin + 16) =? 0) with false by (symmetry; apply Z.eqb_neq; lia).
    replace (k - (pin + 16) =? 0) with false by (symmetry; apply Z.eqb_neq; lia).
    cbn [negb]. rewrite andb_true_r, orb_false_r. reflexivity.
  - replace (pin - pin =? 0) with true by (symmetry; apply Z.eqb_eq; lia).
    apply orb_true_r.
  - replace (k + 16 - pin =? 0) with false by (symmetry; apply Z.eqb_neq; lia).
    replace (k - pin =? 0) with false by (symmetry; apply Z.eqb_neq; lia).
    cbn [negb]. rewrite andb_true_r, orb_false_r. reflexivity.
Qed.

(** C5. The pin write of [led_write] stores a word with the single bit
    [pin] set to assert the pin and the single bit [pin + 16] set to deassert
    it, to the set/reset register of the port; under the set/reset semantics
    of the register the pin then has the written level and every other pin
    [p'] of the port keeps its level.  In particular, with [pin] high and
    [p'] low, a further write of any level to either pin leaves the other
    one as it was. *)
Theorem pin_write_isolation (gpio : GPIO_TypeDef) (pin p' on : Z) (m : machine) :
  0 <= pin < 16 -> 0 <= p' < 16 -> p' <> pin ->
  (exists v m',
     Nucleo.bsrr_write gpio pin on m = Ret tt m' /\
     log m' = log m ++ [EvStore (BSRR gpio) v] /\
     (forall k, 0 <= k < 32 ->
                Z.testbit v k = (k =? (if on =? 0 then pin + 16 else pin))) /\
     Z.testbit (mem m' (ODR gpio)) pin = negb (on =? 0) /\
     Z.testbit (mem m' (ODR gpio)) p' = Z.testbit (mem m (ODR gpio)) p') /\
  (forall lvl,
     (exists m',
        (Nucleo.bsrr_write gpio pin 1 ;; Nucleo.bsrr_write gpio p' 0 ;;
         Nucleo.bsrr_write gpio pin lvl) m = Ret tt m' /\
        Z.testbit (mem m' (ODR gpio)) p' = false) /\
     (exists m',
        (Nucleo.bsrr_write gpio pin 1 ;; Nucleo.bsrr_write gpio p' 0 ;;
         Nucleo.bsrr_write gpio p' lvl) m = Ret tt m' /\
        Z.testbit (mem m' (ODR gpio)) pin = true)).
Proof.
  intros Hp Hp' Hne. split.
  - destruct (bsrr_write_level gpio pin on m pin Hp Hp) as (m1 & Hrun & Hpin).
    destruct (bsrr_write_level gpio pin on m p' Hp Hp') as (m2 & Hrun' & Hother).
    rewrite Hrun in Hrun'. inversion Hrun'; subst m2. clear Hrun'.
    destruct (decide (pin = pin)); [|contradiction].
    destruct (decide (p' = pin)); [contradiction|].
    exists (if on =? 0 then shl 1 (pin + 16) else shl 1 pin), m1.
    split; [exact Hrun|]. split; [|split; [|split; assumption]].
    + rewrite bsrr_write_run in Hrun by exact Hp. inversion Hrun. reflexivity.
    + intros k Hk. destruct (on =? 0); rewrite testbit_shl, testbit_1 by lia.
      * destruct (Z.eqb_spec (k - (pin + 16)) 0), (Z.eqb_spec k (pin + 16)); lia || reflexivity.
      * destruct (Z.eqb_spec (k - pin) 0), (Z.eqb_spec k pin); lia || reflexivity.
  - intros lvl. unfold bind.
    destruct (bsrr_write_level gpio pin 1 m pin Hp Hp) as (m1 & Hrun1 & Hpin1).
    rewrite Hrun1.
    destruct (bsrr_write_level gpio p' 0 m1 p' Hp' Hp') as (m2 & Hrun2 & Hp2).
    destruct (bsrr_write_level gpio p' 0 m1 pin Hp' Hp) as (m2' & Hrun2' & Hpin2).
    rewrite Hrun2 in Hrun2'. inversion Hrun2'; subst m2'. clear Hrun2'.
    rewrite Hrun2.
    destruct (decide (pin = pin)); [|contradiction].
    destruct (decide (p' = p')); [|contradiction].
    destruct (decide (pin = p')); [congruence|].
    split.
    + destruct (bsrr_write_level gpio pin lvl m2 p' Hp Hp') as (m3 & Hrun3 & Hp3).
      exists m3. split; [exact Hrun3|].
      destruct (decide (p' = pin)); [contradiction|].
      rewrite Hp3, Hp2. reflexivity.
    + destruct (bsrr_write_level gpio p' lvl m2 pin Hp' Hp) as (m3 & Hrun3 & Hp3).
      exists m3. split; [exact Hrun3|].
      destruct (decide (pin = p')); [congruence|].
      rewrite Hp3, Hpin2, Hpin1. reflexivity.
Qed.

Lemma pin_write_isolation_witness :
  (exists v m',
     Nucleo.bsrr_write GPIOB 0 1 (reset_machine (fun _ => 0)) = Ret tt m' /\
     log m' = log (reset_machine (fun _ => 0)) ++ [EvStore (BSRR GPIOB) v] /\
     (forall k, 0 <= k < 32 ->
                Z.testbit v k = (k =? (if 1 =? 0 then 0 + 16 else 0))) /\
     Z.testbit (mem m' (ODR GPIOB)) 0 = negb (1 =? 0) /\
     Z.testbit (mem m' (ODR GPIOB)) 4
     = Z.testbit (mem (reset_machine (fun _ => 0)) (ODR GPIOB)) 4) /\
  (forall lvl,
     (exists m',
        (Nucleo.bsrr_write GPIOB 0 1 ;; Nucleo.bsrr_write GPIOB 4 0 ;;
         Nucleo.bsrr_write GPIOB 0 lvl) (reset_machine (fun _ => 0)) = Ret tt m' /\
        Z.testbit (mem m' (ODR GPIOB)) 4 = false) /\
     (exists m',
        (Nucleo.bsrr_write GPIOB 0 1 ;; Nucleo.bsrr_write GPIOB 4 0 ;;
         Nucleo.bsrr_write GPIOB 4 lvl) (reset_machine (fun _ => 0)) = Ret tt m' /\
        Z.testbit (mem m' (ODR GPIOB)) 0 = true)).
Proof.
  apply (pin_write_isolation GPIOB 0 4 1 (reset_machine (fun _ => 0))); lia.
Defined.
End PinWrite.

(** * The claims about the order of register writes *)

Lemma land_lor_same x y : Z.land (Z.lor x y) y = y.
Proof.
  apply Z.bits_inj'. intros n _. rewrite Z.land_spec, Z.lor_spec.
  destruct (Z.testbit x n), (Z.testbit y n); reflexivity.
Qed.

(** C4 as stated fails: the stress-test [uart3_init] writes the divisor
    first, never clears a control register and does not enable the
    receiver; the Nucleo one has the shape the specification gives. *)
Lemma uart_init_counterexample :
  match Hil.uart3_init (hdr := cmsis) (reset_machine (fun _ => 0)),
        Nucleo.uart3_init (hdr := cmsis) (reset_machine (fun _ => 0)) with
  | Ret _ mh, Ret _ mn =>
      spec_uart_init (hdr := cmsis) (log mh) = false /\
      usart3_stores (log mh)
      = [EvStore USART3_BRR 556; EvStore USART3_CR3 0x80; EvStore USART3_CR1 0x9] /\
      spec_uart_init (hdr := cmsis) (log mn) = true
  | _, _ => False
  end.
Proof. vm_compute. repeat split; reflexivity. Qed.

(** C4 (amended). The Nucleo [uart3_init] first writes 0 to CR1, CR2 and
    CR3 (disabling the UART and clearing its control registers), then
    programs the divisor 556, then writes CR1 with TE, RE and UE.  The
    stress-test [uart3_init] programs the divisor 556, then sets the
    DMA-transmit flag in CR3 by read-modify-write, then writes CR1 with TE
    and UE: it clears no control register and does not enable the
    receiver. *)
Theorem uart_init_sequences {hdr : stm32h563xx} (m : machine) :
  header_ok hdr ->
  (exists evs m',
     exec Nucleo.uart3_init m tt evs m' /\
     usart3_stores evs
     = [EvStore USART3_CR1 0; EvStore USART3_CR2 0; EvStore USART3_CR3 0;
        EvStore USART3_BRR 556;
        EvStore USART3_CR1 (Z.lor (Z.lor USART_CR1_TE USART_CR1_RE) USART_CR1_UE)]) /\
  (exists evs m',
     exec Hil.uart3_init m tt evs m' /\
     usart3_stores evs
     = [EvStore USART3_BRR 556;
        EvStore USART3_CR3 (Z.lor (mem m USART3_CR3) USART_CR3_DMAT);
        EvStore USART3_CR1 (Z.lor USART_CR1_TE USART_CR1_UE)]).
Proof.
  intros Hok. split.
  - apply nucleo_uart3_init_exec, Hok.
  - apply hil_uart3_init_exec, Hok.
Qed.

Lemma uart_init_sequences_witness :
  (exists evs m',
     exec (Nucleo.uart3_init (hdr := cmsis)) (reset_machine (fun _ => 0)) tt evs m' /\
     usart3_stores evs
     = [EvStore USART3_CR1 0; EvStore USART3_CR2 0; EvStore USART3_CR3 0;
        EvStore USART3_BRR 556; EvStore USART3_CR1 (Z.lor (Z.lor 0x8 0x4) 0x1)]) /\
  (exists evs m',
     exec (Hil.uart3_init (hdr := cmsis)) (reset_machine (fun _ => 0)) tt evs m' /\
     usart3_stores evs
     = [EvStore USART3_BRR 556; EvStore USART3_CR3 (Z.lor 0 0x80);
        EvStore USART3_CR1 (Z.lor 0x8 0x1)]).
Proof.
  apply (uart_init_sequences (hdr := cmsis) (reset_machine (fun _ => 0))).
  split; simpl; lia.
Defined.

(** C3 as stated fails: on a machine whose status flags are all set, the
    run reaches its final spin with the start of the DMA transfer before the
    pin set and the "Started" line, not after them. *)
Lemma stress_order_counterexample :
  match Hil.main (hdr := cmsis) 1 (reset_machine (fun _ => 0xFFFFFFFF)) with
  | Spin m' =>
      in_order (spec_stress_order (hdr := cmsis)) (log m') = false /\
      in_order (code_stress_order (hdr := cmsis)) (log m') = true
  | _ => False
  end.
Proof. vm_compute. split; reflexivity. Qed.

(** C3 (amended). The stress-test [main] fills the buffer with
    [i mod 256], sets up the UART, programs and starts the single DMA
    transfer, and then signals "test started" on the pin and over the UART;
    it polls for completion without a timeout (with a transfer that never
    completes it is still in the wait loop whatever the observer's patience,
    having sent nothing further), then sends "Passed", resets the pin,
    executes the breakpoint and spins for ever. *)
Theorem stress_test_order {hdr : stm32h563xx} (fuel d : nat) (m : machine) :
  header_ok hdr ->
  length (stress_buffer m) = 256%nat ->
  flag_within d USART3_ISR USART_ISR_TXE_TXFNF m ->
  (d <= fuel)%nat ->
  (flag_within d DMA1_ISR DMA_ISR_TCIF1 m ->
   exists m', stalls (Hil.main fuel) m (hil_main_events (mem m)) m') /\
  (flag_never DMA1_ISR DMA_ISR_TCIF1 m ->
   exists m', stalls (Hil.main fuel) m (hil_started_events (mem m)) m') /\
  (let evs := hil_main_events (mem m) in
   before (first_event (EvBuf 255 255) evs) (first_store USART3_BRR evs) = true /\
   before (first_store USART3_CR1 evs) (first_store DMA1_Channel1_CPAR evs) = true /\
   before (first_store DMA1_Channel1_CCR evs) (first_store (BSRR GPIOB) evs) = true /\
   before (first_store (BSRR GPIOB) evs) (first_store USART3_TDR evs) = true /\
   before (first_store USART3_TDR evs) (first_event EvBkpt evs) = true /\
   list.last evs = Some EvBkpt).
Proof.
  intros Hok Hlen Hw Hfuel. split; [|split].
  - intros Htc. apply (hil_main_passes fuel d Hfuel m Hok Hw Hlen Htc).
  - intros Htc. apply (hil_main_waits fuel d Hfuel m Hok Hw Hlen Htc).
  - cbv zeta. repeat split; reflexivity.
Qed.

Lemma stress_test_order_witness :
  let m := reset_machine (fun _ => 0xFFFFFFFF) in
  (flag_within 1 DMA1_ISR (DMA_ISR_TCIF1 (stm32h563xx := cmsis)) m ->
   exists m', stalls (Hil.main (hdr := cmsis) 1) m
                     (hil_main_events (hdr := cmsis) (mem m)) m') /\
  (flag_never DMA1_ISR (DMA_ISR_TCIF1 (stm32h563xx := cmsis)) m ->
   exists m', stalls (Hil.main (hdr := cmsis) 1) m
                     (hil_started_events (hdr := cmsis) (mem m)) m') /\
  (let evs := hil_main_events (hdr := cmsis) (mem m) in
   before (first_event (EvBuf 255 255) evs) (first_store USART3_BRR evs) = true /\
   before (first_store USART3_CR1 evs) (first_store DMA1_Channel1_CPAR evs) = true /\
   before (first_store DMA1_Channel1_CCR evs) (first_store (BSRR GPIOB) evs) = true /\
   before (first_store (BSRR GPIOB) evs) (first_store USART3_TDR evs) = true /\
   before (first_store USART3_TDR evs) (first_event EvBkpt evs) = true /\
   list.last evs = Some EvBkpt).
Proof.
  apply (stress_test_order (hdr := cmsis) 1 1 (reset_machine (fun _ => 0xFFFFFFFF))).
  - split; simpl; lia.
  - reflexivity.
  - intros n. exists 0%nat. split; [lia|]. vm_compute. discriminate.
  - lia.
Defined.

(** C6. In the stress-test firmware the peripheral-address, memory-address
    and transfer-count registers of the DMA channel are written before the
    one write to the channel's configuration register, so while the channel
    still has the enable bit it started with; the UART's DMA-transmit flag
    is set, by the write to CR3, before that write too; and that single
    write carries the direction, memory-increment and completion-interrupt
    flags together with the enable bit. *)
Theorem dma_programming_order {hdr : stm32h563xx} (fuel d : nat) (m : machine) :
  header_ok hdr ->
  length (stress_buffer m) = 256%nat ->
  flag_within d USART3_ISR USART_ISR_TXE_TXFNF m ->
  flag_within d DMA1_ISR DMA_ISR_TCIF1 m ->
  (d <= fuel)%nat ->
  exists evs m',
    stalls (Hil.main fuel) m evs m' /\
    before (first_store DMA1_Channel1_CPAR evs) (first_store DMA1_Channel1_CCR evs) = true /\
    before (first_store DMA1_Channel1_CMAR evs) (first_store DMA1_Channel1_CCR evs) = true /\
    before (first_store DMA1_Channel1_CNDTR evs) (first_store DMA1_Channel1_CCR evs) = true /\
    writes_to DMA1_Channel1_CPAR evs = [u32 USART3_TDR_address] /\
    writes_to DMA1_Channel1_CMAR evs = [u32 stress_buffer_address] /\
    writes_to DMA1_Channel1_CNDTR evs = [256] /\
    before (first_store USART3_CR3 evs) (first_store DMA1_Channel1_CCR evs) = true /\
    writes_to USART3_CR3 evs = [Z.lor (mem m USART3_CR3) USART_CR3_DMAT] /\
    Z.land (Z.lor (mem m USART3_CR3) USART_CR3_DMAT) USART_CR3_DMAT = USART_CR3_DMAT /\
    writes_to DMA1_Channel1_CCR evs
    = [Z.lor (Z.lor (Z.lor DMA_CCR_MINC DMA_CCR_DIR) DMA_CCR_TCIE) DMA_CCR_EN].
Proof.
  intros Hok Hlen Hw Htc Hfuel.
  destruct (hil_main_passes fuel d Hfuel m Hok Hw Hlen Htc) as (m' & Hst).
  exists (hil_main_events (mem m)), m'. split; [exact Hst|].
  repeat split; try reflexivity.
  apply land_lor_same.
Qed.

Lemma dma_programming_order_witness :
  let m := reset_machine (fun _ => 0xFFFFFFFF) in
  exists evs m',
    stalls (Hil.main (hdr := cmsis) 1) m evs m' /\
    before (first_store DMA1_Channel1_CPAR evs) (first_store DMA1_Channel1_CCR evs) = true /\
    before (first_store DMA1_Channel1_CMAR evs) (first_store DMA1_Channel1_CCR evs) = true /\
    before (first_store DMA1_Channel1_CNDTR evs) (first_store DMA1_Channel1_CCR evs) = true /\
    writes_to DMA1_Channel1_CPAR evs = [u32 0x40004828] /\
    writes_to DMA1_Channel1_CMAR evs = [u32 0x20000000] /\
    writes_to DMA1_Channel1_CNDTR evs = [256] /\
    before (first_store USART3_CR3 evs) (first_store DMA1_Channel1_CCR evs) = true /\
    writes_to USART3_CR3 evs = [Z.lor (mem m USART3_CR3) 0x80] /\
    Z.land (Z.lor (mem m USART3_CR3) 0x80) 0x80 = 0x80 /\
    writes_to DMA1_Channel1_CCR evs = [Z.lor (Z.lor (Z.lor 0x80 0x10) 0x2) 0x1].
Proof.
  apply (dma_programming_order (hdr := cmsis) 1 1 (reset_machine (fun _ => 0xFFFFFFFF))).
  - split; simpl; lia.
  - reflexivity.
  - intros n. exists 0%nat. split; [lia|]. vm_compute. discriminate.
  - intros n. exists 0%nat. split; [lia|]. vm_compute. discriminate.
  - lia.
Defined.

(** * The hello firmware and the line terminators *)

Section HelloRun.

Lemma spin_loop_run m : forall (n : nat) i,
  Z.to_nat (100000 - i) = n -> Hello.spin_loop i m = Ret tt m.
Proof.
  induction n as [|n IH]; intros i Hn;
    rewrite Hello.spin_loop_equation_1; unfold Hello.spin_loop_unfold_clause_1;
    destruct (decide (i < 100000)); try reflexivity; try lia.
  apply IH. lia.
Qed.

Lemma uart_puts_exec s : forall m,
  exists m', exec (Hello.uart_puts s) m tt (tx UART_DR (c_bytes s)) m'.
Proof.
  induction s as [|c s IH]; intros m; simpl.
  - exists m. apply exec_ret.
  - destruct (byte_of c =? 0); [exists m; apply exec_ret|].
    change (tx UART_DR (byte_of c :: c_bytes s))
      with ([EvStore UART_DR (byte_of c)] ++ tx UART_DR (c_bytes s)).
    eapply exec_bind_ex; [|apply IH].
    unfold Hello.uart_putc, u32. pose proof (byte_of_range c).
    rewrite Z.mod_small by (change (2 ^ 32) with 4294967296; lia).
    apply exec_store.
Qed.

Lemma lf_lines_app a : forall b,
  lf_lines a = true -> lf_lines b = true -> lf_lines (a ++ b) = true.
Proof.
  induction a as [|c rest IH]; intros b Ha Hb; [exact Hb|].
  cbn [lf_lines app] in *.
  destruct (c =? 10); [apply IH; assumption|].
  destruct (c =? 13); [discriminate|].
  destruct rest as [|c' rest']; [discriminate|].
  change ((c' :: rest') ++ b) with (c' :: (rest' ++ b)).
  change (c' :: (rest' ++ b)) with ((c' :: rest') ++ b).
  assert (Hgo : lf_lines ((c' :: rest') ++ b) = true) by (apply IH; assumption).
  exact Hgo.
Qed.

Lemma hello_loop_lines rounds : forall m,
  exists evs m',
    stalls (forever rounds Hello.main_loop tt) m evs m' /\
    lf_lines (writes_to UART_DR evs) = true.
Proof.
  induction rounds as [|n IH]; intros m.
  - exists [], m. split; [|reflexivity]. split; [reflexivity|].
    symmetry. apply app_nil_r.
  - destruct (uart_puts_exec ("Pulse..." ++ String LF EmptyString) m) as (m1 & Hputs).
    assert (Hbody : exec (Hello.main_loop tt) m tt
                         ([] ++ tx UART_DR (c_bytes ("Pulse..." ++ String LF EmptyString)))
                         m1).
    { unfold Hello.main_loop.
      refine (exec_bind (Hello.spin_loop 0) (fun _ => Hello.uart_puts _)
                        m tt [] m tt _ m1 _ Hputs).
      unfold exec. rewrite (spin_loop_run m _ 0 eq_refl), app_nil_r. auto. }
    destruct (IH m1) as (evs & m2 & Hst & Hout).
    eexists _, m2. split.
    + cbn [forever].
      exact (stalls_after (Hello.main_loop tt) (fun s' => forever n Hello.main_loop s')
                          m tt _ m1 _ m2 Hbody Hst).
    + rewrite app_nil_l, writes_to_app, writes_to_tx.
      apply lf_lines_app; [reflexivity|exact Hout].
Qed.

Lemma hello_main_lines rounds m :
  exists evs m',
    stalls (Hello.main rounds) m evs m' /\
    lf_lines (writes_to UART_DR evs) = true.
Proof.
  destruct (uart_puts_exec ("Hello from LabWired C Example!" ++ String LF EmptyString) m)
    as (m1 & H1).
  destruct (uart_puts_exec
              ("This is running on a simulated ARM Cortex-M0." ++ String LF EmptyString) m1)
    as (m2 & H2).
  destruct (hello_loop_lines rounds m2) as (evs & m3 & Hst & Hout).
  assert (Hinit : exec Hello.main_init m tt
                       (tx UART_DR (c_bytes ("Hello from LabWired C Example!"
                                             ++ String LF EmptyString))
                        ++ tx UART_DR (c_bytes ("This is running on a simulated ARM Cortex-M0."
                                                ++ String LF EmptyString)))
                       m2).
  { unfold Hello.main_init.
    exact (exec_bind (Hello.uart_puts _) (fun _ => Hello.uart_puts _)
                     m tt _ m1 tt _ m2 H1 H2). }
  eexists _, m3. split.
  - unfold Hello.main.
    exact (stalls_after Hello.main_init (fun _ => forever rounds Hello.main_loop tt)
                        m tt _ m2 _ m3 Hinit Hst).
  - rewrite !writes_to_app, !writes_to_tx.
    apply lf_lines_app; [reflexivity|exact Hout].
Qed.

End HelloRun.

(** C7 as stated fails: the two banner lines of the hello firmware end in
    a bare line feed. *)
Lemma hello_lines_counterexample :
  match Hello.main_init (reset_machine (fun _ => 0)) with
  | Ret _ m' =>
      crlf_lines (writes_to UART_DR (log m')) = false /\
      lf_lines (writes_to UART_DR (log m')) = true
  | _ => False
  end.
Proof. vm_compute. split; reflexivity. Qed.

(** C7 (amended). Every line the periodic-report firmware and the
    stress-test firmware send is terminated with carriage return, line feed:
    the banner and the line of each pass through the loop of the first, the
    "Started" and "Passed" lines of the second.  The lines of the hello
    firmware are terminated with a bare line feed. *)
Theorem serial_lines {hdr : stm32h563xx} (fuel d rounds : nat) (m : machine) :
  header_ok hdr ->
  flag_within d USART3_ISR USART_ISR_TXE_TXFNF m ->
  (d <= fuel)%nat ->
  (exists evs m',
     stalls (Nucleo.main fuel rounds) m evs m' /\
     crlf_lines (uart_out evs) = true) /\
  (length (stress_buffer m) = 256%nat ->
   flag_within d DMA1_ISR DMA_ISR_TCIF1 m ->
   exists evs m',
     stalls (Hil.main fuel) m evs m' /\
     uart_out evs = c_bytes ("HIL Stress Test Started" ++ CRLF)
                    ++ c_bytes ("HIL Stress Test Passed" ++ CRLF) /\
     crlf_lines (uart_out evs) = true) /\
  (exists evs m',
     stalls (Hello.main rounds) m evs m' /\
     lf_lines (writes_to UART_DR evs) = true).
Proof.
  intros Hok Hw Hfuel. split; [|split].
  - apply (nucleo_main_lines fuel d Hfuel m Hok Hw).
  - intros Hlen Htc.
    destruct (hil_main_passes fuel d Hfuel m Hok Hw Hlen Htc) as (m' & Hst).
    exists (hil_main_events (mem m)), m'. split; [exact Hst|].
    split; reflexivity.
  - apply hello_main_lines.
Qed.

Lemma serial_lines_witness :
  let m := reset_machine (fun _ => 0xFFFFFFFF) in
  (exists evs m',
     stalls (Nucleo.main (hdr := cmsis) 1 2) m evs m' /\
     crlf_lines (uart_out evs) = true) /\
  (length (stress_buffer m) = 256%nat ->
   flag_within 1 DMA1_ISR (DMA_ISR_TCIF1 (stm32h563xx := cmsis)) m ->
   exists evs m',
     stalls (Hil.main (hdr := cmsis) 1) m evs m' /\
     uart_out evs = c_bytes ("HIL Stress Test Started" ++ CRLF)
                    ++ c_bytes ("HIL Stress Test Passed" ++ CRLF) /\
     crlf_lines (uart_out evs) = true) /\
  (exists evs m',
     stalls (Hello.main 2) m evs m' /\
     lf_lines (writes_to UART_DR evs) = true).
Proof.
  apply (serial_lines (hdr := cmsis) 1 1 2 (reset_machine (fun _ => 0xFFFFFFFF))).
  - split; simpl; lia.
  - intros n. exists 0%nat. split; [lia|]. vm_compute. discriminate.
  - lia.
Defined.

(** * More on the GPIO configuration functions *)

Section GpioRuns.

Ltac reg_lookup :=
  repeat (rewrite fn_lookup_insert
          || rewrite fn_lookup_insert_ne by discriminate).

(** The whole effect of [gpio_config_output] on a pin of the port. *)
Lemma gpio_config_output_run gpio pin m :
  0 <= pin < 16 ->
  Nucleo.gpio_config_output gpio pin m
  = Ret tt
      (Machine
         (<[PUPDR gpio := Z.land (mem m (PUPDR gpio)) (not32 (shl 3 (2 * pin)))]>
           (<[OSPEEDR gpio := Z.lor (Z.land (mem m (OSPEEDR gpio)) (not32 (shl 3 (2 * pin))))
                                    (shl 1 (2 * pin))]>
             (<[OTYPER gpio := Z.land (mem m (OTYPER gpio)) (not32 (shl 1 pin))]>
               (<[MODER gpio := Z.lor (Z.land (mem m (MODER gpio)) (not32 (shl 3 (2 * pin))))
                                      (shl 1 (2 * pin))]> (mem m)))))
         (stress_buffer m) (env m) (polls m)
         (log m ++
          [EvStore (MODER gpio)
             (Z.lor (Z.land (mem m (MODER gpio)) (not32 (shl 3 (2 * pin)))) (shl 1 (2 * pin)));
           EvStore (OTYPER gpio) (Z.land (mem m (OTYPER gpio)) (not32 (shl 1 pin)));
           EvStore (OSPEEDR gpio)
             (Z.lor (Z.land (mem m (OSPEEDR gpio)) (not32 (shl 3 (2 * pin)))) (shl 1 (2 * pin)));
           EvStore (PUPDR gpio) (Z.land (mem m (PUPDR gpio)) (not32 (shl 3 (2 * pin))))])).
Proof.
  intros Hp. unfold Nucleo.gpio_config_output. rewrite (mul32_pin _ Hp).
  unfold bind, shl32, load, store, ret.
  repeat (destruct (decide _) as [_|Hbad]; [|exfalso; lia]).
  cbn [is_status mem stress_buffer env polls log bus_write].
  reg_lookup. rewrite <- !app_assoc. reflexivity.
Qed.

(** The whole effect of [gpio_config_input_pullup] on a pin of the port. *)
Lemma gpio_config_input_pullup_run gpio pin m :
  0 <= pin < 16 ->
  Nucleo.gpio_config_input_pullup gpio pin m
  = Ret tt
      (Machine
         (<[PUPDR gpio := Z.lor (Z.land (mem m (PUPDR gpio)) (not32 (shl 3 (2 * pin))))
                                (shl 1 (2 * pin))]>
           (<[MODER gpio := Z.land (mem m (MODER gpio)) (not32 (shl 3 (2 * pin)))]> (mem m)))
         (stress_buffer m) (env m) (polls m)
         (log m ++
          [EvStore (MODER gpio) (Z.land (mem m (MODER gpio)) (not32 (shl 3 (2 * pin))));
           EvStore (PUPDR gpio)
             (Z.lor (Z.land (mem m (PUPDR gpio)) (not32 (shl 3 (2 * pin)))) (shl 1 (2 * pin)))])).
Proof.
  intros Hp. unfold Nucleo.gpio_config_input_pullup. rewrite (mul32_pin _ Hp).
  unfold bind, shl32, load, store, ret.
  repeat (destruct (decide _) as [_|Hbad]; [|exfalso; lia]).
  cbn [is_status mem stress_buffer env polls log bus_write].
  reg_lookup. rewrite <- !app_assoc. reflexivity.
Qed.

(** X1. [gpio_config_input_pullup] on a pin of the port makes the pin an input
    (mode field 00) with the pull-up selected (pull field 01) and leaves the
    output-type and speed registers as they were. *)
Theorem gpio_config_input_pullup_fields (gpio : GPIO_TypeDef) (pin : Z) (m : machine) :
  0 <= pin < 16 ->
  exists m',
    Nucleo.gpio_config_input_pullup gpio pin m = Ret tt m' /\
    field2 (mem m' (MODER gpio)) pin = 0 /\
    field2 (mem m' (PUPDR gpio)) pin = 1 /\
    mem m' (OTYPER gpio) = mem m (OTYPER gpio) /\
    mem m' (OSPEEDR gpio) = mem m (OSPEEDR gpio).
Proof.
  intros Hp. rewrite gpio_config_input_pullup_run by exact Hp.
  eexists. split; [reflexivity|]. cbn [mem]. reg_lookup.
  split; [apply field2_clear; lia|].
  split; [apply field2_set; lia|]. split; reflexivity.
Qed.

Lemma gpio_config_input_pullup_fields_witness :
  exists m',
    Nucleo.gpio_config_input_pullup GPIOC 13 (reset_machine (fun _ => 0)) = Ret tt m' /\
    field2 (mem m' (MODER GPIOC)) 13 = 0 /\
    field2 (mem m' (PUPDR GPIOC)) 13 = 1 /\
    mem m' (OTYPER GPIOC) = mem (reset_machine (fun _ => 0)) (OTYPER GPIOC) /\
    mem m' (OSPEEDR GPIOC) = mem (reset_machine (fun _ => 0)) (OSPEEDR GPIOC).
Proof. apply gpio_config_input_pullup_fields. lia. Defined.

(** X2. Among the 32-bit pin numbers, [gpio_config_output] has defined
    behaviour exactly on the pins 0 to 15 of a port: from 16 on, [1UL << pin]
    or the shift by [pin * 2U] has a count of 32 or more. *)
Theorem gpio_config_output_defined_iff (gpio : GPIO_TypeDef) (pin : Z) (m : machine) :
  0 <= pin < 2 ^ 32 ->
  (Nucleo.gpio_config_output gpio pin m <> Undef <-> pin < 16).
Proof.
  intros Hp. split.
  - intros Hdef. destruct (Z_lt_dec pin 16) as [|Hge]; [assumption|].
    exfalso. apply Hdef. apply gpio_config_output_undefined. lia.
  - intros Hlt. rewrite gpio_config_output_run by lia. discriminate.
Qed.

Lemma gpio_config_output_defined_iff_witness :
  Nucleo.gpio_config_output GPIOB 16 (reset_machine (fun _ => 0)) <> Undef <-> 16 < 16.
Proof. apply gpio_config_output_defined_iff. change (2 ^ 32) with 4294967296. lia. Defined.

Lemma mul32_wraps pin : 0 <= pin -> mul32 pin 2 = 2 * (pin mod 2 ^ 31).
Proof.
  intros Hp. unfold mul32, u32. change (2 ^ 32) with (2 * 2 ^ 31).
  rewrite (Z.mul_comm pin 2). apply Z.mul_mod_distr_l; lia.
Qed.

(** X3. The pin number of [gpio_config_input_pullup] only enters through
    [pin * 2U], which wraps around: the call behaves as on the pin number
    reduced modulo 2^31, and is undefined when that is 16 or more. *)
Theorem gpio_config_input_pullup_wraps (gpio : GPIO_TypeDef) (pin : Z) (m : machine) :
  0 <= pin < 2 ^ 32 ->
  Nucleo.gpio_config_input_pullup gpio pin m
  = if decide (pin mod 2 ^ 31 < 16)
    then Nucleo.gpio_config_input_pullup gpio (pin mod 2 ^ 31) m
    else Undef.
Proof.
  intros Hp. pose proof (Z.mod_pos_bound pin (2 ^ 31) eq_refl) as Hq.
  destruct (decide (pin mod 2 ^ 31 < 16)) as [Hlt|Hge].
  - unfold Nucleo.gpio_config_input_pullup.
    rewrite (mul32_wraps pin), (mul32_pin (pin mod 2 ^ 31)) by lia. reflexivity.
  - unfold Nucleo.gpio_config_input_pullup, bind, shl32.
    rewrite mul32_wraps by lia.
    destruct (decide (0 <= 2 * (pin mod 2 ^ 31) < 32)); [lia|reflexivity].
Qed.

Lemma gpio_config_input_pullup_wraps_witness :
  Nucleo.gpio_config_input_pullup GPIOC 2147483661 (reset_machine (fun _ => 0))
  = if decide (2147483661 mod 2 ^ 31 < 16)
    then Nucleo.gpio_config_input_pullup GPIOC (2147483661 mod 2 ^ 31)
           (reset_machine (fun _ => 0))
    else Undef.
Proof. apply gpio_config_input_pullup_wraps. change (2 ^ 32) with 4294967296. lia. Defined.

(** X4. [gpio_config_output] writes the four configuration registers of its
    port, in the order MODER, OTYPER, OSPEEDR, PUPDR, and nothing else: every
    other register, of this port or another, keeps its value, and no status
    register is read. *)
Theorem gpio_config_output_touches (gpio : GPIO_TypeDef) (pin : Z) (m : machine) :
  0 <= pin < 16 ->
  exists m' v1 v2 v3 v4,
    Nucleo.gpio_config_output gpio pin m = Ret tt m' /\
    log m' = log m ++ [EvStore (MODER gpio) v1; EvStore (OTYPER gpio) v2;
                       EvStore (OSPEEDR gpio) v3; EvStore (PUPDR gpio) v4] /\
    polls m' = polls m /\
    forall r, r <> MODER gpio -> r <> OTYPER gpio -> r <> OSPEEDR gpio ->
              r <> PUPDR gpio -> mem m' r = mem m r.
Proof.
  intros Hp. rewrite gpio_config_output_run by exact Hp.
  eexists _, _, _, _, _. split; [reflexivity|]. cbn [mem log polls].
  split; [reflexivity|]. split; [reflexivity|].
  intros r H1 H2 H3 H4. rewrite !fn_lookup_insert_ne by congruence. reflexivity.
Qed.

Lemma gpio_config_output_touches_witness :
  exists m' v1 v2 v3 v4,
    Nucleo.gpio_config_output GPIOG 4 (reset_machine (fun _ => 0)) = Ret tt m' /\
    log m' = log (reset_machine (fun _ => 0))
             ++ [EvStore (MODER GPIOG) v1; EvStore (OTYPER GPIOG) v2;
                 EvStore (OSPEEDR GPIOG) v3; EvStore (PUPDR GPIOG) v4] /\
    polls m' = polls (reset_machine (fun _ => 0)) /\
    forall r, r <> MODER GPIOG -> r <> OTYPER GPIOG -> r <> OSPEEDR GPIOG ->
              r <> PUPDR GPIOG -> mem m' r = mem (reset_machine (fun _ => 0)) r.
Proof. apply gpio_config_output_touches. lia. Defined.

Lemma lor_land_again v nm one :
  Z.lor (Z.land (Z.lor (Z.land v nm) one) nm) one = Z.lor (Z.land v nm) one.
Proof.
  apply Z.bits_inj'. intros n _. rewrite !Z.lor_spec, !Z.land_spec, !Z.lor_spec, Z.land_spec.
  destruct (Z.testbit v n), (Z.testbit nm n), (Z.testbit one n); reflexivity.
Qed.

Lemma land_again v nm : Z.land (Z.land v nm) nm = Z.land v nm.
Proof. rewrite <- Z.land_assoc, Z.land_diag. reflexivity. Qed.

(** X5. Configuring a pin as an output twice is the same as doing it once: the
    second call writes back the values the registers already hold. *)
Theorem gpio_config_output_idempotent (gpio : GPIO_TypeDef) (pin : Z) (m : machine) :
  0 <= pin < 16 ->
  exists m1 m2,
    Nucleo.gpio_config_output gpio pin m = Ret tt m1 /\
    Nucleo.gpio_config_output gpio pin m1 = Ret tt m2 /\
    forall r, mem m2 r = mem m1 r.
Proof.
  intros Hp. pose proof (gpio_config_output_run gpio pin m Hp) as E1.
  match type of E1 with _ = Ret tt ?x => set (m1 := x) in * end.
  pose proof (gpio_config_output_run gpio pin m1 Hp) as E2.
  subst m1. cbn [mem] in E2.
  repeat (rewrite fn_lookup_insert in E2
          || rewrite fn_lookup_insert_ne in E2 by discriminate).
  rewrite !lor_land_again, !land_again in E2.
  eexists _, _. split; [exact E1|]. split; [exact E2|].
  cbn [mem]. intros r.
  destruct (decide (r = PUPDR gpio)) as [->|H4]; [reg_lookup; reflexivity|].
  rewrite (fn_lookup_insert_ne _ (PUPDR gpio) r) by congruence.
  rewrite (fn_lookup_insert_ne _ (PUPDR gpio) r) by congruence.
  destruct (decide (r = OSPEEDR gpio)) as [->|H3]; [reg_lookup; reflexivity|].
  rewrite (fn_lookup_insert_ne _ (OSPEEDR gpio) r) by congruence.
  rewrite (fn_lookup_insert_ne _ (OSPEEDR gpio) r) by congruence.
  destruct (decide (r = OTYPER gpio)) as [->|H2]; [reg_lookup; reflexivity|].
  rewrite (fn_lookup_insert_ne _ (OTYPER gpio) r) by congruence.
  rewrite (fn_lookup_insert_ne _ (OTYPER gpio) r) by congruence.
  destruct (decide (r = MODER gpio)) as [->|H1]; [reg_lookup; reflexivity|].
  rewrite !fn_lookup_insert_ne by congruence. reflexivity.
Qed.

Lemma gpio_config_output_idempotent_witness :
  exists m1 m2,
    Nucleo.gpio_config_output GPIOB 0 (reset_machine (fun _ => 0)) = Ret tt m1 /\
    Nucleo.gpio_config_output GPIOB 0 m1 = Ret tt m2 /\
    forall r, mem m2 r = mem m1 r.
Proof. apply gpio_config_output_idempotent. lia. Defined.
End GpioRuns.

(** * More on the polled transmitter *)

Section Polling.

(** What a wait loop that returns has done: it read the status register
    until the first read that showed the flag, and nothing else. *)
Lemma busy_wait_returns fuel r flag : forall m m',
  is_status r = true ->
  busy_wait fuel r flag m = Ret tt m' ->
  exists n : nat,
    (n < fuel)%nat /\
    polls m' r = S (polls m r + n) /\
    (forall r', r' <> r -> polls m' r' = polls m r') /\
    (forall j, (j < n)%nat -> Z.land (u32 (env m r (polls m r + j))) flag = 0) /\
    Z.land (u32 (env m r (polls m r + n))) flag <> 0 /\
    mem m' = mem m /\ log m' = log m /\ env m' = env m /\
    stress_buffer m' = stress_buffer m.
Proof.
  induction fuel as [|fuel IH]; intros m m' Hr Hrun; [discriminate|].
  simpl in Hrun. unfold bind at 1 in Hrun. unfold load in Hrun. rewrite Hr in Hrun.
  destruct (Z.eqb_spec (Z.land (u32 (env m r (polls m r))) flag) 0) as [Hz|Hnz].
  - apply IH in Hrun; [|exact Hr].
    destruct Hrun as (n & Hn & Hp & Hp' & Hlow & Hhit & Hmem & Hlog & Henv & Hbuf).
    cbn [mem log env polls stress_buffer] in *.
    rewrite fn_lookup_insert in Hp, Hlow, Hhit.
    exists (S n). split; [lia|]. split; [rewrite Hp; lia|].
    split.
    { intros r' Hne. rewrite (Hp' r' Hne). apply fn_lookup_insert_ne. congruence. }
    split.
    { intros [|j] Hj; [rewrite Nat.add_0_r; exact Hz|].
      replace (polls m r + S j)%nat with (S (polls m r) + j)%nat by lia.
      apply Hlow. lia. }
    split.
    { replace (polls m r + S n)%nat with (S (polls m r) + n)%nat by lia. exact Hhit. }
    auto.
  - injection Hrun as <-. cbn [mem log env polls stress_buffer].
    exists 0%nat. rewrite fn_lookup_insert, !Nat.add_0_r.
    split; [lia|]. split; [reflexivity|].
    split; [intros r' Hne; apply fn_lookup_insert_ne; congruence|].
    split; [intros j Hj; lia|]. auto.
Qed.

(** A wait loop on a flag that never shows uses up the observer's patience
    reading the status register: nothing else changes. *)
Lemma busy_wait_stuck fuel r flag : forall m,
  is_status r = true -> flag_never r flag m ->
  exists m',
    busy_wait fuel r flag m = Spin m' /\
    polls m' r = (polls m r + fuel)%nat /\
    mem m' = mem m /\ log m' = log m.
Proof.
  induction fuel as [|fuel IH]; intros m Hr Hn.
  - exists m. rewrite Nat.add_0_r. auto.
  - simpl. unfold bind at 1. unfold load. rewrite Hr.
    rewrite (Hn (polls m r)). simpl.
    match goal with |- context [busy_wait fuel r flag ?m1] =>
      destruct (IH m1 Hr) as (m' & Hrun & Hp & Hmem & Hlog); [intros n; apply Hn|]
    end.
    cbn [mem log polls] in *. rewrite fn_lookup_insert in Hp.
    exists m'. split; [exact Hrun|]. split; [lia|]. auto.
Qed.
End Polling.

Section Transmit.
Context {hdr : stm32h563xx}.

(** X6. On a UART that never reports its transmit register empty,
    [uart3_write_byte] never writes the byte: however long the observer
    waits, the call is still polling the status register, and the registers
    and the log of bus writes are as they were. *)
Theorem uart3_write_byte_stuck (fuel : nat) (b : Z) (m : machine) :
  flag_never USART3_ISR USART_ISR_TXE_TXFNF m ->
  exists m',
    Nucleo.uart3_write_byte fuel b m = Spin m' /\
    polls m' USART3_ISR = (polls m USART3_ISR + fuel)%nat /\
    mem m' = mem m /\ log m' = log m.
Proof.
  intros Hn.
  destruct (busy_wait_stuck fuel USART3_ISR USART_ISR_TXE_TXFNF m eq_refl Hn)
    as (m' & Hrun & Hrest).
  exists m'. split; [|exact Hrest].
  unfold Nucleo.uart3_write_byte, bind. rewrite Hrun. reflexivity.
Qed.

(** X7. A call of [uart3_write_byte] that returns has read the status
    register until the first read that showed the transmit-empty flag, and
    has then written the byte to the transmit data register: that store is
    its only bus write, and no other status register was read. *)
Theorem uart3_write_byte_handshake (fuel : nat) (b : Z) (m m' : machine) :
  Nucleo.uart3_write_byte fuel b m = Ret tt m' ->
  exists n : nat,
    (n < fuel)%nat /\
    polls m' USART3_ISR = S (polls m USART3_ISR + n) /\
    (forall r, r <> USART3_ISR -> polls m' r = polls m r) /\
    (forall j, (j < n)%nat ->
       Z.land (u32 (env m USART3_ISR (polls m USART3_ISR + j))) USART_ISR_TXE_TXFNF = 0) /\
    Z.land (u32 (env m USART3_ISR (polls m USART3_ISR + n))) USART_ISR_TXE_TXFNF <> 0 /\
    log m' = log m ++ [EvStore USART3_TDR b] /\
    (forall r, r <> USART3_TDR -> mem m' r = mem m r) /\
    mem m' USART3_TDR = b.
Proof.
  unfold Nucleo.uart3_write_byte, bind. intros Hrun.
  destruct (busy_wait fuel USART3_ISR USART_ISR_TXE_TXFNF m) as [[] m1| |m1] eqn:Hwait;
    try discriminate.
  apply busy_wait_returns in Hwait; [|reflexivity].
  destruct Hwait as (n & Hn & Hp & Hp' & Hlow & Hhit & Hmem & Hlog & Henv & Hbuf).
  unfold store in Hrun. injection Hrun as <-. cbn [mem log env polls bus_write].
  exists n. rewrite Hmem, Hlog.
  split; [exact Hn|]. split; [exact Hp|]. split; [exact Hp'|].
  split; [exact Hlow|]. split; [exact Hhit|]. split; [reflexivity|].
  split; [intros r Hne; apply fn_lookup_insert_ne; congruence|].
  apply fn_lookup_insert.
Qed.

Lemma bind_assoc {A B C} (c : M A) (k : A -> M B) (k' : B -> M C) m :
  bind (bind c k) k' m = bind c (fun a => bind (k a) k') m.
Proof. unfold bind. destruct (c m); reflexivity. Qed.

Lemma bind_ext {A B} (c : M A) (k k' : A -> M B) m :
  (forall a m1, k a m1 = k' a m1) -> bind c k m = bind c k' m.
Proof. intros Hk. unfold bind. destruct (c m); auto. Qed.

(** X8. [uart3_write_str] stops at the first NUL: writing [s1] followed by
    [s2] is writing [s1] and then [s2] when [s1] holds no NUL, and nothing
    that follows a NUL is looked at. *)
Theorem uart3_write_str_app (fuel : nat) (s1 s2 : string) (m : machine) :
  nul_free s1 = true ->
  Nucleo.uart3_write_str fuel (s1 ++ s2) m
  = (Nucleo.uart3_write_str fuel s1 ;; Nucleo.uart3_write_str fuel s2) m /\
  Nucleo.uart3_write_str fuel (s1 ++ String zero s2) m
  = Nucleo.uart3_write_str fuel s1 m.
Proof.
  revert m. induction s1 as [|c s1 IH]; intros m Hnf.
  - split; reflexivity.
  - cbn [nul_free list_ascii_of_string forallb] in Hnf.
    apply andb_true_iff in Hnf. destruct Hnf as [Hc Hnf].
    apply negb_true_iff in Hc.
    cbn [append Nucleo.uart3_write_str]. rewrite Hc. split.
    + rewrite bind_assoc. apply bind_ext. intros _ m1. apply IH. exact Hnf.
    + apply bind_ext. intros _ m1. apply IH. exact Hnf.
Qed.

(** X9. The string writer of the stress-test firmware, which has the wait
    loop and the store inline, behaves as the one of the periodic-report
    firmware, which calls [uart3_write_byte]: on every string and every
    machine the two runs end the same way. *)
Theorem uart3_write_str_same (fuel : nat) (s : string) (m : machine) :
  Hil.uart3_write_str fuel s m = Nucleo.uart3_write_str fuel s m.
Proof.
  revert m. induction s as [|c s IH]; intros m; [reflexivity|].
  cbn [Hil.uart3_write_str Nucleo.uart3_write_str].
  destruct (byte_of c =? 0); [reflexivity|].
  unfold Nucleo.uart3_write_byte. rewrite bind_assoc.
  apply bind_ext. intros _ m1. apply bind_ext. intros _ m2. apply IH.
Qed.
End Transmit.

Lemma uart3_write_byte_stuck_witness :
  let m := reset_machine (fun _ => 0) in
  exists m',
    Nucleo.uart3_write_byte (hdr := cmsis) 3 65 m = Spin m' /\
    polls m' USART3_ISR = (polls m USART3_ISR + 3)%nat /\
    mem m' = mem m /\ log m' = log m.
Proof.
  intros m. apply (uart3_write_byte_stuck (hdr := cmsis)). intros n. reflexivity.
Defined.

Lemma uart3_write_byte_handshake_witness :
  let m := reset_machine (fun _ => 0x80) in
  let m' := Machine (<[USART3_TDR := 65]> (mem m)) (stress_buffer m) (env m)
                    (<[USART3_ISR := 1%nat]> (polls m)) [EvStore USART3_TDR 65] in
  exists n : nat,
    (n < 1)%nat /\
    polls m' USART3_ISR = S (polls m USART3_ISR + n) /\
    (forall r, r <> USART3_ISR -> polls m' r = polls m r) /\
    (forall j, (j < n)%nat ->
       Z.land (u32 (env m USART3_ISR (polls m USART3_ISR + j))) 0x80 = 0) /\
    Z.land (u32 (env m USART3_ISR (polls m USART3_ISR + n))) 0x80 <> 0 /\
    log m' = log m ++ [EvStore USART3_TDR 65] /\
    (forall r, r <> USART3_TDR -> mem m' r = mem m r) /\
    mem m' USART3_TDR = 65.
Proof.
  intros m m'. apply (uart3_write_byte_handshake (hdr := cmsis) 1 65 m m').
  reflexivity.
Defined.

Lemma uart3_write_str_app_witness :
  Nucleo.uart3_write_str (hdr := cmsis) 1 ("BLINK " ++ "0") (reset_machine (fun _ => 0x80))
  = (Nucleo.uart3_write_str (hdr := cmsis) 1 "BLINK " ;;
     Nucleo.uart3_write_str (hdr := cmsis) 1 "0") (reset_machine (fun _ => 0x80)) /\
  Nucleo.uart3_write_str (hdr := cmsis) 1 ("BLINK " ++ String zero "0")
    (reset_machine (fun _ => 0x80))
  = Nucleo.uart3_write_str (hdr := cmsis) 1 "BLINK " (reset_machine (fun _ => 0x80)).
Proof. apply (uart3_write_str_app (hdr := cmsis)). reflexivity. Defined.

(** * The length of a decimal *)

Section DecimalLength.

Lemma digits_value_bounds ds : forall acc,
  forallb is_digit ds = true ->
  acc * 10 ^ Z.of_nat (length ds) <= digits_value acc ds
  < (acc + 1) * 10 ^ Z.of_nat (length ds).
Proof.
  induction ds as [|x ds IH]; intros acc Hdig.
  - simpl. lia.
  - cbn [forallb] in Hdig. apply andb_true_iff in Hdig. destruct Hdig as [Hx Hdig].
    unfold is_digit in Hx. apply andb_true_iff in Hx. rewrite !Z.leb_le in Hx.
    cbn [digits_value length]. specialize (IH (10 * acc + (x - 48)) Hdig).
    rewrite Nat2Z.inj_succ, Z.pow_succ_r by lia.
    assert (Hpow : 0 < 10 ^ Z.of_nat (length ds)) by (apply Z.pow_pos_nonneg; lia).
    nia.
Qed.

(** The number of digits of a positive number in decimal notation. *)
Lemma decimal_of_length n ds :
  0 < n -> decimal_of n ds = true ->
  10 ^ (Z.of_nat (length ds) - 1) <= n < 10 ^ Z.of_nat (length ds).
Proof.
  intros Hn Hdec. unfold decimal_of in Hdec.
  apply andb_true_iff in Hdec. destruct Hdec as [Hdec Hlead].
  apply andb_true_iff in Hdec. destruct Hdec as [Hdig Hval].
  apply Z.eqb_eq in Hval.
  destruct ds as [|x ds]; [discriminate|].
  assert (Hx : 49 <= x <= 57).
  { cbn [forallb] in Hdig. apply andb_true_iff in Hdig. destruct Hdig as [Hx Hdig].
    unfold is_digit in Hx. apply andb_true_iff in Hx. rewrite !Z.leb_le in Hx.
    destruct ds as [|y ds].
    - simpl in Hval. lia.
    - apply negb_true_iff, Z.eqb_neq in Hlead. lia. }
  cbn [forallb] in Hdig. apply andb_true_iff in Hdig. destruct Hdig as [_ Hdig].
  cbn [digits_value length] in *.
  pose proof (digits_value_bounds ds (10 * 0 + (x - 48)) Hdig) as Hb.
  rewrite Hval in Hb.
  replace (Z.of_nat (S (length ds)) - 1) with (Z.of_nat (length ds)) by lia.
  rewrite Nat2Z.inj_succ, Z.pow_succ_r by lia.
  assert (Hpow : 0 < 10 ^ Z.of_nat (length ds)) by (apply Z.pow_pos_nonneg; lia).
  nia.
Qed.
End DecimalLength.

(** X10. [uart3_write_u32_dec] sends as many bytes as the value has decimal
    digits: one for 0, and for a positive value the [n] with
    [10 ^ (n - 1) <= value < 10 ^ n]; that is never more than the 10 bytes of
    its buffer. *)
Theorem uart3_write_u32_dec_length {hdr : stm32h563xx} (fuel d : nat) (value : Z)
    (m : machine) :
  0 <= value <= 4294967295 ->
  flag_within d USART3_ISR USART_ISR_TXE_TXFNF m ->
  (d <= fuel)%nat ->
  exists ds m',
    exec (Nucleo.uart3_write_u32_dec fuel value) m tt (tx USART3_TDR ds) m' /\
    (1 <= length ds <= 10)%nat /\
    (value = 0 -> length ds = 1%nat) /\
    (0 < value -> 10 ^ (Z.of_nat (length ds) - 1) <= value < 10 ^ Z.of_nat (length ds)).
Proof.
  intros Hv Hw Hfuel.
  destruct (uart3_write_u32_dec_exec value Hv) as (ds & Hdec & Hzero & Hrun).
  destruct (Hrun fuel d m Hw Hfuel) as (m' & Hexec).
  exists ds, m'. split; [exact Hexec|].
  destruct (Z.eq_dec value 0) as [Hz|Hnz].
  - rewrite (Hzero Hz). simpl. repeat split; lia.
  - pose proof (decimal_of_length value ds ltac:(lia) Hdec) as Hb.
    split; [|split; [lia|intros _; exact Hb]].
    assert (Hlt : 10 ^ (Z.of_nat (length ds) - 1) < 10 ^ 10).
    { change (10 ^ 10) with 10000000000. lia. }
    destruct ds as [|x ds].
    { unfold decimal_of in Hdec. rewrite andb_false_r in Hdec. discriminate. }
    cbn [length] in *. apply Z.pow_lt_mono_r_iff in Hlt; lia.
Qed.

Lemma uart3_write_u32_dec_length_witness :
  let m := reset_machine (fun _ => 0x80) in
  exists ds m',
    exec (Nucleo.uart3_write_u32_dec (hdr := cmsis) 1 4294967295) m tt
         (tx USART3_TDR ds) m' /\
    (1 <= length ds <= 10)%nat /\
    (4294967295 = 0 -> length ds = 1%nat) /\
    (0 < 4294967295 ->
     10 ^ (Z.of_nat (length ds) - 1) <= 4294967295 < 10 ^ Z.of_nat (length ds)).
Proof.
  intros m. apply (uart3_write_u32_dec_length (hdr := cmsis) 1 1).
  - lia.
  - intros n. exists 0%nat. split; [lia|]. vm_compute. discriminate.
  - lia.
Defined.

(** * Runs that never end *)

Section Outcomes.

Lemma bind_ret_inv {A B} (c : M A) (k : A -> M B) m b m' :
  bind c k m = Ret b m' -> exists a m1, c m = Ret a m1 /\ k a m1 = Ret b m'.
Proof.
  unfold bind. destruct (c m) as [a m1| |m1]; try discriminate.
  intros Hk. exists a, m1. auto.
Qed.

Lemma exec_defined {A} (c : M A) m a evs m' : exec c m a evs m' -> c m <> Undef.
Proof. intros (Hrun & _). rewrite Hrun. discriminate. Qed.

Lemma load_defined r m : load r m <> Undef.
Proof. unfold load. destruct (is_status r); discriminate. Qed.

Lemma store_defined r v m : store r v m <> Undef.
Proof. discriminate. Qed.

Lemma land_1_range x : 0 <= Z.land x 1 <= 1.
Proof.
  assert (H : Z.land x 1 = x mod 2).
  { change 1 with (Z.ones 1). rewrite Z.land_ones by lia. reflexivity. }
  rewrite H. pose proof (Z.mod_pos_bound x 2 eq_refl). lia.
Qed.

Lemma lxor_1_range led : 0 <= led <= 1 -> 0 <= Z.lxor led 1 <= 1.
Proof.
  intros Hled. assert (Hc : led = 0 \/ led = 1) by lia.
  destruct Hc as [->| ->];
    [change (Z.lxor 0 1) with 1 | change (Z.lxor 1 1) with 0]; lia.
Qed.

Lemma add32_range a b : 0 <= add32 a b <= 4294967295.
Proof.
  unfold add32, u32. pose proof (Z.mod_pos_bound (a + b) (2 ^ 32) eq_refl).
  change (2 ^ 32) with 4294967296 in *. lia.
Qed.
End Outcomes.

Section NucleoForever.
Context {hdr : stm32h563xx}.
Variable fuel : nat.

Lemma uart3_write_str_defined s : forall m, Nucleo.uart3_write_str fuel s m <> Undef.
Proof.
  induction s as [|c s IH]; intros m; cbn [Nucleo.uart3_write_str]; [discriminate|].
  destruct (byte_of c =? 0); [discriminate|].
  apply bind_defined; [apply uart3_write_byte_defined|]. intros _ m'. apply IH.
Qed.

Lemma uart3_write_u32_dec_defined value m :
  0 <= value <= 4294967295 -> Nucleo.uart3_write_u32_dec fuel value m <> Undef.
Proof.
  intros Hv. unfold Nucleo.uart3_write_u32_dec.
  destruct (value =? 0); [apply uart3_write_byte_defined|].
  destruct (digits_loop_u32 value Hv) as (ds & Hrun & Hle & _).
  rewrite Hrun. apply (emit_loop_defined _ _ _ ds).
  - rewrite length_app, length_map. lia.
  - rewrite length_app, length_map, length_replicate.
    change (2 ^ 32) with 4294967296. lia.
  - apply take_app_length'. rewrite length_map. reflexivity.
Qed.

Lemma main_init_defined m : header_ok hdr -> Nucleo.main_init fuel m <> Undef.
Proof.
  intros Hok. unfold Nucleo.main_init.
  apply bind_defined; [apply load_defined|]. intros ahb2 m1.
  apply bind_defined; [apply store_defined|]. intros _ m2.
  apply bind_defined.
  { rewrite gpio_config_output_run by (unfold Nucleo.LED1_PIN; lia). discriminate. }
  intros _ m3. apply bind_defined.
  { rewrite gpio_config_output_run by (unfold Nucleo.LED2_PIN; lia). discriminate. }
  intros _ m4. apply bind_defined.
  { rewrite gpio_config_output_run by (unfold Nucleo.LED3_PIN; lia). discriminate. }
  intros _ m5. apply bind_defined.
  { rewrite gpio_config_input_pullup_run by (unfold Nucleo.BTN_PIN; lia). discriminate. }
  intros _ m6. apply bind_defined.
  { destruct (nucleo_uart3_init_exec m6 Hok) as (evs & m' & Hrun & _).
    apply (exec_defined _ _ _ _ _ Hrun). }
  intros _ m7. apply uart3_write_str_defined.
Qed.

Lemma main_loop_defined bc led m :
  0 <= bc <= 4294967295 -> 0 <= led <= 1 ->
  Nucleo.main_loop fuel (bc, led) m <> Undef.
Proof.
  intros Hbc Hled. pose proof (lxor_1_range led Hled) as Hled'.
  unfold Nucleo.main_loop.
  apply bind_defined; [rewrite led_write_run; discriminate|]. intros _ m1.
  apply bind_defined; [apply load_defined|]. intros idr m2. cbv zeta.
  pose proof (land_1_range (Z.shiftr idr Nucleo.BTN_PIN)) as Hbtn.
  repeat first
    [ apply bind_defined;
      [ first [ apply uart3_write_str_defined
              | apply uart3_write_u32_dec_defined; lia
              | rewrite delay_cycles_run; discriminate ]
      | intros _ ? ]
    | discriminate ].
Qed.

Lemma main_loop_result bc led m x m' :
  Nucleo.main_loop fuel (bc, led) m = Ret x m' ->
  x = (add32 bc 1, Z.lxor led 1).
Proof.
  unfold Nucleo.main_loop. intros Hrun.
  repeat (apply bind_ret_inv in Hrun; destruct Hrun as (? & ? & _ & Hrun)).
  cbv zeta in Hrun. 
  repeat (apply bind_ret_inv in Hrun; destruct Hrun as (? & ? & _ & Hrun)).
  unfold ret in Hrun. congruence.
Qed.

Lemma forever_main_loop_spins rounds : forall bc led m,
  0 <= bc <= 4294967295 -> 0 <= led <= 1 ->
  exists m', forever rounds (Nucleo.main_loop fuel) (bc, led) m = Spin m'.
Proof.
  induction rounds as [|n IH]; intros bc led m Hbc Hled; [exists m; reflexivity|].
  cbn [forever]. unfold bind.
  pose proof (main_loop_defined bc led m Hbc Hled) as Hdef.
  destruct (Nucleo.main_loop fuel (bc, led) m) as [x m1| |m1] eqn:Hrun.
  - apply main_loop_result in Hrun. subst x.
    apply IH; [apply add32_range | apply lxor_1_range; exact Hled].
  - contradiction.
  - exists m1. reflexivity.
Qed.
End NucleoForever.

(** X11. The periodic-report firmware never leaves [main] and never runs into
    undefined behaviour, whatever the status registers show and however long
    it is observed: a run is always still going, in a wait loop or in the
    [while (1)]. *)
Theorem nucleo_main_never_returns {hdr : stm32h563xx} (fuel rounds : nat) (m : machine) :
  header_ok hdr ->
  exists m', Nucleo.main fuel rounds m = Spin m'.
Proof.
  intros Hok. unfold Nucleo.main, bind.
  pose proof (main_init_defined fuel m Hok) as Hdef.
  destruct (Nucleo.main_init fuel m) as [[] m1| |m1].
  - apply forever_main_loop_spins; lia.
  - contradiction.
  - exists m1. reflexivity.
Qed.

Lemma nucleo_main_never_returns_witness :
  exists m', Nucleo.main (hdr := cmsis) 2 3 (reset_machine (fun _ => 0x80)) = Spin m'.
Proof. apply nucleo_main_never_returns. unfold header_ok. simpl. lia. Defined.

Section HilForever.
Context {hdr : stm32h563xx}.
Variable fuel : nat.

Lemma spins_bind {A B} (c : M A) (k : A -> M B) m :
  c m <> Undef -> (forall a m1, exists m', k a m1 = Spin m') ->
  exists m', bind c k m = Spin m'.
Proof.
  intros Hc Hk. unfold bind. destruct (c m) as [a m1| |m1];
    [apply Hk | contradiction | exists m1; reflexivity].
Qed.

Lemma dma1_init_defined m : Hil.dma1_init m <> Undef.
Proof.
  unfold Hil.dma1_init.
  apply bind_defined; [apply load_defined|]. intros ahb1 m1.
  repeat (apply bind_defined; [apply store_defined|]; intros _ ?).
  apply store_defined.
Qed.

Lemma bkpt_defined m : bkpt m <> Undef.
Proof. discriminate. Qed.

Lemma hil_write_str_defined s : forall m, Hil.uart3_write_str fuel s m <> Undef.
Proof.
  induction s as [|c s IH]; intros m; cbn [Hil.uart3_write_str]; [discriminate|].
  destruct (byte_of c =? 0); [discriminate|].
  apply bind_defined; [apply busy_wait_defined|]. intros _ m1.
  apply bind_defined; [apply store_defined|]. intros _ m2. apply IH.
Qed.
End HilForever.

(** X12. The one-shot stress test never leaves [main] and never runs into
    undefined behaviour either, whatever the status registers show: the fill
    loop stays inside the 256-byte buffer, and a run is always still going,
    in one of the wait loops or in the final [while (1)]. *)
Theorem hil_main_never_returns {hdr : stm32h563xx} (fuel : nat) (m : machine) :
  header_ok hdr ->
  length (stress_buffer m) = 256%nat ->
  exists m', Hil.main fuel m = Spin m'.
Proof.
  intros Hok Hlen. unfold Hil.main.
  apply spins_bind.
  { apply (exec_defined _ _ _ _ _ (fill_loop_exec 0 0 (le_n 0) m Hlen)). }
  intros _ m1. apply spins_bind.
  { destruct (hil_uart3_init_exec m1 Hok) as (evs & m' & Hrun & _).
    apply (exec_defined _ _ _ _ _ Hrun). }
  intros _ m2. apply spins_bind; [apply dma1_init_defined|].
  intros _ m3. apply spins_bind; [rewrite shl32_run by lia; discriminate|].
  intros on m4. apply spins_bind; [apply store_defined|].
  intros _ m5. apply spins_bind.
  { apply hil_write_str_defined. }
  intros _ m6. apply spins_bind; [apply busy_wait_defined|].
  intros _ m7. apply spins_bind.
  { apply hil_write_str_defined. }
  intros _ m8. apply spins_bind; [rewrite shl32_run by lia; discriminate|].
  intros off m9. apply spins_bind; [apply store_defined|].
  intros _ m10. apply spins_bind; [apply bkpt_defined|].
  intros _ m11. exists m11. apply forever_idle.
Qed.

Lemma hil_main_never_returns_witness :
  exists m', Hil.main (hdr := cmsis) 2 (reset_machine (fun _ => 0)) = Spin m'.
Proof.
  apply hil_main_never_returns; [unfold header_ok; simpl; lia | reflexivity].
Defined.

Section FillBuffer.

Lemma fill_from_length (n : nat) : forall i buf,
  length (fill_from i n buf) = length buf.
Proof.
  induction n as [|n IH]; intros i buf; [reflexivity|].
  cbn [fill_from]. rewrite IH. apply length_insert.
Qed.
End FillBuffer.

(** X13. The fill loop of the stress test returns with the buffer holding the
    bytes 0, 1, ..., 255 in this order, whatever it held before, and changes
    nothing else of the machine but the log, to which it adds the 256 buffer
    writes. *)
Theorem fill_loop_buffer (m : machine) :
  length (stress_buffer m) = 256%nat ->
  exists m',
    Hil.fill_loop 0 m = Ret tt m' /\
    stress_buffer m' = map Z.of_nat (seq 0 256) /\
    mem m' = mem m /\ polls m' = polls m /\
    log m' = log m ++ pattern_events 0 256.
Proof.
  intros Hlen. destruct (fill_loop_exec 0 0 (le_n 0) m Hlen) as (Hrun & _).
  eexists. split; [exact Hrun|]. cbn [stress_buffer mem polls log].
  split; [|auto].
  apply list_eq. intros k.
  rewrite (fill_from_lookup 0 0 (le_n 0)) by (rewrite ?Hlen; simpl; lia).
  change (Z.to_nat 0) with 0%nat.
  destruct (decide (0 <= k < 0 + 256)%nat) as [Hk|Hk].
  - rewrite list_lookup_fmap, lookup_seq_lt by lia. simpl.
    rewrite Z.mod_small by lia. reflexivity.
  - rewrite list_lookup_fmap, lookup_seq_ge by lia.
    apply lookup_ge_None_2. lia.
Qed.

Lemma fill_loop_buffer_witness :
  exists m',
    Hil.fill_loop 0 (reset_machine (fun _ => 0)) = Ret tt m' /\
    stress_buffer m' = map Z.of_nat (seq 0 256) /\
    mem m' = mem (reset_machine (fun _ => 0)) /\
    polls m' = polls (reset_machine (fun _ => 0)) /\
    log m' = log (reset_machine (fun _ => 0)) ++ pattern_events 0 256.
Proof. apply fill_loop_buffer. reflexivity. Defined.

(** * What a run leaves alone *)

Section Keeps.
Context {X : Type} (obs : machine -> X).

Lemma keeps_ret {A} (a : A) : keeps obs (ret a).
Proof. intros m m' H. injection H as <-. reflexivity. Qed.

Lemma keeps_spin {A} : keeps obs (@spin A).
Proof. intros m m' H. injection H as <-. reflexivity. Qed.

Lemma keeps_undef {A} : keeps obs (@undef A).
Proof. intros m m' H. discriminate. Qed.

Lemma keeps_bind {A B} (c : M A) (k : A -> M B) :
  keeps obs c -> (forall a, keeps obs (k a)) -> keeps obs (bind c k).
Proof.
  intros Hc Hk m m' H. unfold bind in H.
  destruct (c m) as [a m1| |m1] eqn:Hrun.
  - rewrite (Hk a m1 m' H). apply Hc. rewrite Hrun. reflexivity.
  - discriminate.
  - apply Hc. rewrite Hrun. exact H.
Qed.

Lemma keeps_load r :
  (forall m n, obs (Machine (mem m) (stress_buffer m) (env m)
                            (<[r := n]> (polls m)) (log m)) = obs m) ->
  keeps obs (load r).
Proof.
  intros Hb m m' H. unfold load in H.
  destruct (is_status r); injection H as <-; [apply Hb | reflexivity].
Qed.

Lemma keeps_store r v :
  (forall m, obs (Machine (bus_write r v (mem m)) (stress_buffer m) (env m)
                          (polls m) (log m ++ [EvStore r v])) = obs m) ->
  keeps obs (store r v).
Proof. intros Hb m m' H. injection H as <-. apply Hb. Qed.

Lemma keeps_bkpt :
  (forall m, obs (Machine (mem m) (stress_buffer m) (env m) (polls m)
                          (log m ++ [EvBkpt])) = obs m) ->
  keeps obs bkpt.
Proof. intros Hb m m' H. injection H as <-. apply Hb. Qed.

Lemma keeps_shl32 x s : keeps obs (shl32 x s).
Proof.
  unfold shl32. destruct (decide (0 <= s < 32)); [apply keeps_ret | apply keeps_undef].
Qed.

Lemma keeps_busy_wait fuel r flag :
  (forall m n, obs (Machine (mem m) (stress_buffer m) (env m)
                            (<[r := n]> (polls m)) (log m)) = obs m) ->
  keeps obs (busy_wait fuel r flag).
Proof.
  intros Hb. induction fuel as [|fuel IH]; cbn [busy_wait]; [apply keeps_spin|].
  apply keeps_bind; [apply keeps_load; exact Hb|].
  intros v. destruct (Z.land v flag =? 0); [exact IH | apply keeps_ret].
Qed.

Lemma keeps_forever {S} rounds (body : S -> M S) :
  (forall s, keeps obs (body s)) -> forall s, keeps obs (forever rounds body s).
Proof.
  intros Hb. induction rounds as [|n IH]; intros s; cbn [forever]; [apply keeps_spin|].
  apply keeps_bind; [apply Hb | exact IH].
Qed.

Lemma keeps_delay_cycles cycles : keeps obs (Nucleo.delay_cycles cycles).
Proof. intros m m' H. rewrite delay_cycles_run in H. injection H as <-. reflexivity. Qed.

Lemma keeps_spin_loop i : keeps obs (Hello.spin_loop i).
Proof.
  intros m m' H.
  rewrite (spin_loop_run m (Z.to_nat (100000 - i)) i eq_refl) in H.
  injection H as <-. reflexivity.
Qed.

(** The writers of the polled UART only read the status register of USART3
    and only write its transmit data register. *)
Section Writers.
Context {hdr : stm32h563xx}.
Variable fuel : nat.
Hypothesis Hpoll :
  forall m n, obs (Machine (mem m) (stress_buffer m) (env m)
                           (<[USART3_ISR := n]> (polls m)) (log m)) = obs m.
Hypothesis Hstore :
  forall v m, obs (Machine (bus_write USART3_TDR v (mem m)) (stress_buffer m) (env m)
                           (polls m) (log m ++ [EvStore USART3_TDR v])) = obs m.

Lemma keeps_write_byte b : keeps obs (Nucleo.uart3_write_byte fuel b).
Proof.
  unfold Nucleo.uart3_write_byte.
  apply keeps_bind; [apply keeps_busy_wait; exact Hpoll|].
  intros _. apply keeps_store. apply Hstore.
Qed.

Lemma keeps_write_str s : keeps obs (Nucleo.uart3_write_str fuel s).
Proof.
  induction s as [|c s IH]; cbn [Nucleo.uart3_write_str]; [apply keeps_ret|].
  destruct (byte_of c =? 0); [apply keeps_ret|].
  apply keeps_bind; [apply keeps_write_byte | intros _; exact IH].
Qed.

Lemma keeps_hil_write_str s : keeps obs (Hil.uart3_write_str fuel s).
Proof.
  induction s as [|c s IH]; cbn [Hil.uart3_write_str]; [apply keeps_ret|].
  destruct (byte_of c =? 0); [apply keeps_ret|].
  apply keeps_bind; [apply keeps_busy_wait; exact Hpoll|]. intros _.
  apply keeps_bind; [apply keeps_store; apply Hstore | intros _; exact IH].
Qed.

Lemma keeps_emit_loop buf : forall i, keeps obs (Nucleo.emit_loop fuel i buf).
Proof.
  intros i. induction i as [i IH] using (well_founded_induction (Zwf_well_founded 0)).
  rewrite emit_loop_unfold. destruct (decide (i > 0)) as [Hi|Hi]; [|apply keeps_ret].
  destruct (array_load buf (sub32 i 1)); [|apply keeps_undef].
  apply keeps_bind; [apply keeps_write_byte|]. intros _. apply IH.
  unfold sub32, u32. split; [lia|].
  apply Z.le_lt_trans with (i - 1); [apply Z.mod_le|]; lia.
Qed.

Lemma keeps_write_u32_dec value : keeps obs (Nucleo.uart3_write_u32_dec fuel value).
Proof.
  unfold Nucleo.uart3_write_u32_dec.
  destruct (value =? 0); [apply keeps_write_byte|].
  destruct (Nucleo.digits_loop value 0 (replicate 10 None)) as [[[v i] buf]|];
    [apply keeps_emit_loop | apply keeps_undef].
Qed.
End Writers.
End Keeps.

Ltac blind :=
  intros; cbn [mem stress_buffer env polls log bus_write];
  first [ reflexivity
        | rewrite fn_lookup_insert_ne by congruence; reflexivity
        | rewrite writes_to_app; cbn [writes_to];
          destruct (decide _) as [E|_]; [discriminate E | apply app_nil_r] ].

Ltac keeps_step :=
  lazymatch goal with
  | |- keeps _ (bind _ _) => apply keeps_bind; [|intros ?]
  | |- keeps _ (ret _) => apply keeps_ret
  | |- keeps _ (load _) => apply keeps_load; blind
  | |- keeps _ (store _ _) => apply keeps_store; blind
  | |- keeps _ (shl32 _ _) => apply keeps_shl32
  | |- keeps _ bkpt => apply keeps_bkpt; blind
  | |- keeps _ (busy_wait _ _ _) => apply keeps_busy_wait; blind
  | |- keeps _ (Nucleo.delay_cycles _) => apply keeps_delay_cycles
  | |- keeps _ (Nucleo.uart3_write_str _ _) => apply keeps_write_str; blind
  | |- keeps _ (Hil.uart3_write_str _ _) => apply keeps_hil_write_str; blind
  | |- keeps _ (Nucleo.uart3_write_u32_dec _ _) => apply keeps_write_u32_dec; blind
  end.

(** * The report lines of the periodic-report firmware *)

Section NucleoFootprint.
Context {hdr : stm32h563xx}.
Variable fuel : nat.

(** Up to its loop, [main] reads no input pin and switches no LED. *)
Lemma main_init_keeps_idr g : keeps (fun m => polls m (IDR g)) (Nucleo.main_init fuel).
Proof.
  unfold Nucleo.main_init, Nucleo.gpio_config_output, Nucleo.gpio_config_input_pullup,
    Nucleo.uart3_init.
  cbv zeta. repeat keeps_step.
Qed.

Lemma main_init_keeps_bsrr g :
  keeps (fun m => writes_to (BSRR g) (log m)) (Nucleo.main_init fuel).
Proof.
  unfold Nucleo.main_init, Nucleo.gpio_config_output, Nucleo.gpio_config_input_pullup,
    Nucleo.uart3_init.
  cbv zeta. repeat keeps_step.
Qed.

(** One pass of the loop samples the button once. *)
Lemma main_loop_polls bc led m x m' :
  Nucleo.main_loop fuel (bc, led) m = Ret x m' ->
  polls m' (IDR GPIOC) = S (polls m (IDR GPIOC)).
Proof.
  unfold Nucleo.main_loop. intros Hrun.
  apply bind_ret_inv in Hrun. destruct Hrun as ([] & m1 & Hled & Hrun).
  rewrite led_write_run in Hled. injection Hled as <-.
  apply bind_ret_inv in Hrun. destruct Hrun as (idr & m2 & Hload & Hrun).
  unfold load in Hload. cbn [is_status polls mem env log stress_buffer] in Hload.
  injection Hload as _ <-. cbv zeta in Hrun.
  match type of Hrun with ?c ?m2 = _ =>
    assert (Hk : keeps (fun m => polls m (IDR GPIOC)) c) by repeat keeps_step;
    rewrite (Hk m2 m')
  end.
  - cbn [polls]. apply fn_lookup_insert.
  - rewrite Hrun. reflexivity.
Qed.
End NucleoFootprint.

Section NucleoReport.
Context {hdr : stm32h563xx}.
Variables (fuel d : nat).
Hypothesis Hfuel : (d <= fuel)%nat.
Variable m0 : machine.
Hypothesis Hw : flag_within d USART3_ISR USART_ISR_TXE_TXFNF m0.

Lemma writes_to_tx_other r port bs : r <> port -> writes_to r (tx port bs) = [].
Proof.
  intros Hne. induction bs as [|b bs IH]; [reflexivity|].
  cbn [tx map writes_to]. destruct (decide (port = r)) as [E|_]; [congruence|exact IH].
Qed.

Lemma counter_next k : add32 (u32 k) 1 = u32 (k + 1).
Proof. unfold add32, u32. apply Z.add_mod_idemp_l. lia. Qed.

Lemma toggle_next k : Z.lxor (k mod 2) 1 = (k + 1) mod 2.
Proof.
  rewrite <- (Z.add_mod_idemp_l k 1 2) by lia.
  pose proof (Z.mod_pos_bound k 2 eq_refl) as Hb.
  assert (Hc : k mod 2 = 0 \/ k mod 2 = 1) by lia.
  destruct Hc as [-> | ->]; reflexivity.
Qed.

Lemma toggle_word k (a b : Z) :
  (if (k + 1) mod 2 =? 0 then a else b) = if k mod 2 =? 0 then b else a.
Proof.
  rewrite <- (Z.add_mod_idemp_l k 1 2) by lia.
  pose proof (Z.mod_pos_bound k 2 eq_refl) as Hb.
  assert (Hc : k mod 2 = 0 \/ k mod 2 = 1) by lia.
  destruct Hc as [-> | ->]; reflexivity.
Qed.

Lemma forever_report rounds : forall (k : nat) m,
  env m = env m0 ->
  exists evs m' lines,
    stalls (forever rounds (Nucleo.main_loop fuel) (u32 (Z.of_nat k), Z.of_nat k mod 2))
           m evs m' /\
    uart_out evs = concat lines /\
    length lines = rounds /\
    (forall (j : nat) line, lines !! j = Some line ->
       report_line (Z.of_nat (k + j))
                   (Z.b2z (Z.testbit (env m0 (IDR GPIOC) (polls m (IDR GPIOC) + j))
                                     Nucleo.BTN_PIN)) line) /\
    writes_to (BSRR GPIOB) evs
    = map (fun j : nat => if Z.of_nat (k + j) mod 2 =? 0 then 0x1 else 0x10000)
          (seq 0 rounds) /\
    writes_to (BSRR GPIOF) evs
    = map (fun j : nat => if Z.of_nat (k + j) mod 2 =? 0 then 0x10 else 0x100000)
          (seq 0 rounds) /\
    writes_to (BSRR GPIOG) evs
    = map (fun j : nat => if Z.of_nat (k + j) mod 2 =? 0 then 0x10 else 0x100000)
          (seq 0 rounds).
Proof.
  induction rounds as [|n IH]; intros k m He.
  - exists [], m, []. split; [split; [reflexivity | symmetry; apply app_nil_r]|].
    split; [reflexivity|]. split; [reflexivity|].
    split; [intros j line Hj; discriminate Hj|]. auto.
  - assert (Hbc : 0 <= u32 (Z.of_nat k) <= 4294967295).
    { unfold u32. pose proof (Z.mod_pos_bound (Z.of_nat k) (2 ^ 32) eq_refl).
      change (2 ^ 32) with 4294967296 in *. lia. }
    assert (Hled : 0 <= Z.of_nat k mod 2 <= 1).
    { pose proof (Z.mod_pos_bound (Z.of_nat k) 2 eq_refl). lia. }
    destruct (main_loop_exec fuel d Hfuel m0 Hw _ _ m He Hbc Hled)
      as (dk & m1 & Hdk & _ & Hexec).
    rewrite counter_next, toggle_next in Hexec.
    rewrite !(toggle_word (Z.of_nat k)) in Hexec.
    replace (Z.of_nat k + 1) with (Z.of_nat (S k)) in Hexec by lia.
    pose proof (main_loop_polls fuel _ _ _ _ _ (proj1 Hexec)) as Hpolls.
    assert (He1 : env m1 = env m0).
    { destruct Hexec as (_ & _ & ->). exact He. }
    destruct (IH (S k) m1 He1) as (evs & m2 & lines & Hst & Hout & Hlen & Hlines & HB & HF & HG).
    eexists _, m2, (_ :: lines). split.
    { cbn [forever].
      exact (stalls_after (Nucleo.main_loop fuel (u32 (Z.of_nat k), Z.of_nat k mod 2))
                          (fun s' => forever n (Nucleo.main_loop fuel) s')
                          m _ _ m1 evs m2 Hexec Hst). }
    split.
    { rewrite !uart_out_app, uart_out_tx, Hout. cbn [concat]. reflexivity. }
    split; [cbn [length]; rewrite Hlen; reflexivity|].
    split.
    { intros [|j] line Hj.
      - injection Hj as <-. rewrite !Nat.add_0_r, <- He. exists dk.
        split; [exact Hdk|].
        replace (Z.of_nat k + 1) with (Z.of_nat (S k)) by lia.
        cbn [app]. reflexivity.
      - cbn [lookup list_lookup] in Hj.
        replace (k + S j)%nat with (S k + j)%nat by lia.
        replace (polls m (IDR GPIOC) + S j)%nat with (polls m1 (IDR GPIOC) + j)%nat
          by (rewrite Hpolls; lia).
        apply Hlines. exact Hj. }
    cbn [seq map]. rewrite <- seq_shift, !map_map.
    rewrite !writes_to_app, !(writes_to_tx_other _ USART3_TDR) by discriminate.
    rewrite HB, HF, HG, Nat.add_0_r.
    split; [|split]; cbn [writes_to app];
      (repeat (destruct (decide _) as [?|?]; try congruence));
      cbn [app]; f_equal; apply map_ext; intros j;
      replace (k + S j)%nat with (S k + j)%nat by lia; reflexivity.
Qed.
End NucleoReport.

Section NucleoMainReport.
Context {hdr : stm32h563xx}.
Variables (fuel d : nat).
Hypothesis Hfuel : (d <= fuel)%nat.
Variable m0 : machine.
Hypothesis Hok : header_ok hdr.
Hypothesis Hw : flag_within d USART3_ISR USART_ISR_TXE_TXFNF m0.

(** The whole run of [main] on a UART that keeps up: the banner, then one
    report line and one write to each LED per pass. *)
Lemma nucleo_main_run rounds :
  exists evs m' lines,
    stalls (Nucleo.main fuel rounds) m0 evs m' /\
    uart_out evs = c_bytes ("H563-BLINK-UART" ++ CRLF) ++ concat lines /\
    length lines = rounds /\
    (forall (k : nat) line, lines !! k = Some line ->
       report_line (Z.of_nat k)
                   (Z.b2z (Z.testbit (env m0 (IDR GPIOC) (polls m0 (IDR GPIOC) + k))
                                     Nucleo.BTN_PIN)) line) /\
    writes_to (BSRR GPIOB) evs
    = map (fun k : nat => if Z.of_nat k mod 2 =? 0 then 0x1 else 0x10000) (seq 0 rounds) /\
    writes_to (BSRR GPIOF) evs
    = map (fun k : nat => if Z.of_nat k mod 2 =? 0 then 0x10 else 0x100000) (seq 0 rounds) /\
    writes_to (BSRR GPIOG) evs
    = map (fun k : nat => if Z.of_nat k mod 2 =? 0 then 0x10 else 0x100000) (seq 0 rounds).
Proof.
  destruct (main_init_sends fuel d Hfuel m0 Hok Hw m0 eq_refl)
    as ([] & e0 & m1 & Hinit & Hout0).
  pose proof Hinit as (Hrun & Hlog & Henv).
  assert (Hfin : final (Nucleo.main_init fuel m0) = Some m1) by (rewrite Hrun; reflexivity).
  pose proof (main_init_keeps_idr fuel GPIOC m0 m1 Hfin) as Hidr. cbv beta in Hidr.
  assert (Hquiet : forall g, writes_to (BSRR g) e0 = []).
  { intros g. pose proof (main_init_keeps_bsrr fuel g m0 m1 Hfin) as Hb. cbv beta in Hb.
    rewrite Hlog, writes_to_app in Hb.
    rewrite <- (app_nil_r (writes_to (BSRR g) (log m0))) in Hb at 2.
    apply app_inv_head in Hb. exact Hb. }
  destruct (forever_report fuel d Hfuel m0 Hw rounds 0 m1 Henv)
    as (evs & m2 & lines & Hst & Hout & Hlen & Hlines & HB & HF & HG).
  change (u32 (Z.of_nat 0), Z.of_nat 0 mod 2) with (0, 0) in Hst.
  exists (e0 ++ evs), m2, lines. split.
  { unfold Nucleo.main.
    exact (stalls_after (Nucleo.main_init fuel)
                        (fun _ => forever rounds (Nucleo.main_loop fuel) (0, 0))
                        m0 tt e0 m1 evs m2 Hinit Hst). }
  rewrite uart_out_app, Hout0, Hout, !writes_to_app, !Hquiet, HB, HF, HG.
  split; [reflexivity|]. split; [exact Hlen|].
  split; [|cbn [app]; auto].
  intros k line Hk. rewrite <- Hidr. apply (Hlines k line Hk).
Qed.
End NucleoMainReport.

(** X14. On a UART that keeps reporting its transmit register empty, the
    periodic-report firmware sends its banner and then, in pass [k] of its
    loop (from 0), one line that carries the pass counter modulo 2^32 in
    decimal, the LED level of the pass (1 in the even passes, 0 in the odd
    ones) three times, and bit 13 of the [k]-th read of the port C input
    register; nothing else is sent. *)
Theorem nucleo_main_report {hdr : stm32h563xx} (fuel d rounds : nat) (m : machine) :
  header_ok hdr ->
  flag_within d USART3_ISR USART_ISR_TXE_TXFNF m ->
  (d <= fuel)%nat ->
  exists evs m' lines,
    stalls (Nucleo.main fuel rounds) m evs m' /\
    uart_out evs = c_bytes ("H563-BLINK-UART" ++ CRLF) ++ concat lines /\
    length lines = rounds /\
    forall (k : nat) line, lines !! k = Some line ->
      report_line (Z.of_nat k)
                  (Z.b2z (Z.testbit (env m (IDR GPIOC) (polls m (IDR GPIOC) + k))
                                    Nucleo.BTN_PIN)) line.
Proof.
  intros Hok Hw Hfuel.
  destruct (nucleo_main_run fuel d Hfuel m Hok Hw rounds)
    as (evs & m' & lines & Hst & Hout & Hlen & Hlines & _).
  exists evs, m', lines. auto.
Qed.

(** X15. In that run the three LEDs are written together once per pass,
    through the set/reset registers of their ports and nowhere else: the set
    bit of the pin (bit 0 of port B, bit 4 of ports F and G) in the even
    passes, starting with the first, and its reset bit (bit 16, bit 20) in the
    odd ones. *)
Theorem nucleo_main_blinks {hdr : stm32h563xx} (fuel d rounds : nat) (m : machine) :
  header_ok hdr ->
  flag_within d USART3_ISR USART_ISR_TXE_TXFNF m ->
  (d <= fuel)%nat ->
  exists evs m',
    stalls (Nucleo.main fuel rounds) m evs m' /\
    writes_to (BSRR GPIOB) evs
    = map (fun k : nat => if Z.of_nat k mod 2 =? 0 then 0x1 else 0x10000) (seq 0 rounds) /\
    writes_to (BSRR GPIOF) evs
    = map (fun k : nat => if Z.of_nat k mod 2 =? 0 then 0x10 else 0x100000) (seq 0 rounds) /\
    writes_to (BSRR GPIOG) evs
    = map (fun k : nat => if Z.of_nat k mod 2 =? 0 then 0x10 else 0x100000) (seq 0 rounds).
Proof.
  intros Hok Hw Hfuel.
  destruct (nucleo_main_run fuel d Hfuel m Hok Hw rounds)
    as (evs & m' & lines & Hst & _ & _ & _ & HB & HF & HG).
  exists evs, m'. auto.
Qed.

Lemma nucleo_main_report_witness :
  let m := reset_machine (fun _ => 0x80) in
  exists evs m' lines,
    stalls (Nucleo.main (hdr := cmsis) 1 2) m evs m' /\
    uart_out evs = c_bytes ("H563-BLINK-UART" ++ CRLF) ++ concat lines /\
    length lines = 2%nat /\
    forall (k : nat) line, lines !! k = Some line ->
      report_line (Z.of_nat k)
                  (Z.b2z (Z.testbit (env m (IDR GPIOC) (polls m (IDR GPIOC) + k))
                                    Nucleo.BTN_PIN)) line.
Proof.
  intros m. apply (nucleo_main_report (hdr := cmsis) 1 1 2 m).
  - unfold header_ok. simpl. lia.
  - intros n. exists 0%nat. split; [lia|]. vm_compute. discriminate.
  - lia.
Defined.

Lemma nucleo_main_blinks_witness :
  let m := reset_machine (fun _ => 0x80) in
  exists evs m',
    stalls (Nucleo.main (hdr := cmsis) 1 3) m evs m' /\
    writes_to (BSRR GPIOB) evs = [0x1; 0x10000; 0x1] /\
    writes_to (BSRR GPIOF) evs = [0x10; 0x100000; 0x10] /\
    writes_to (BSRR GPIOG) evs = [0x10; 0x100000; 0x10].
Proof.
  intros m. apply (nucleo_main_blinks (hdr := cmsis) 1 1 3 m).
  - unfold header_ok. simpl. lia.
  - intros n. exists 0%nat. split; [lia|]. vm_compute. discriminate.
  - lia.
Defined.

Section NucleoStuck.
Context {hdr : stm32h563xx}.
Variable fuel : nat.
Variable m0 : machine.
Hypothesis Hok : header_ok hdr.
Hypothesis Hnever : flag_never USART3_ISR USART_ISR_TXE_TXFNF m0.

Lemma quiet_then {A B} (c : M A) (k : A -> M B) m :
  env m = env m0 ->
  sends c m [] ->
  (forall a m1, env m1 = env m0 ->
     exists evs m2, stalls (k a) m1 evs m2 /\ uart_out evs = []) ->
  exists evs m2, stalls (bind c k) m evs m2 /\ uart_out evs = [].
Proof.
  intros He (a & e1 & m1 & Hexec & Hout) Hk.
  assert (He1 : env m1 = env m0) by (destruct Hexec as (_ & _ & ->); exact He).
  destruct (Hk a m1 He1) as (e2 & m2 & Hst & Hout2).
  exists (e1 ++ e2), m2. split; [exact (stalls_after c k m a e1 m1 e2 m2 Hexec Hst)|].
  rewrite uart_out_app, Hout, Hout2. reflexivity.
Qed.

Lemma write_byte_quiet b m :
  env m = env m0 ->
  exists evs m2, stalls (Nucleo.uart3_write_byte fuel b) m evs m2 /\ uart_out evs = [].
Proof.
  intros He.
  destruct (busy_wait_stuck fuel USART3_ISR USART_ISR_TXE_TXFNF m eq_refl)
    as (m' & Hrun & _ & _ & Hlog).
  { intros n. rewrite He. apply Hnever. }
  exists [], m'. split; [|reflexivity].
  unfold Nucleo.uart3_write_byte. apply stalls_bind.
  split; [exact Hrun | rewrite Hlog; symmetry; apply app_nil_r].
Qed.

Lemma main_init_quiet :
  exists evs m', stalls (Nucleo.main_init fuel) m0 evs m' /\ uart_out evs = [].
Proof.
  unfold Nucleo.main_init.
  apply quiet_then; [reflexivity | apply sends_load|]. intros ahb2 m1 He1.
  apply quiet_then; [exact He1 | apply sends_store; discriminate|]. intros _ m2 He2.
  apply quiet_then; [exact He2| |].
  { destruct (gpio_config_output_exec GPIOB Nucleo.LED1_PIN m2) as (e & m' & H & Ho);
      [unfold Nucleo.LED1_PIN; lia|]. rewrite <- Ho. apply (sends_exec _ _ _ _ _ H). }
  intros _ m3 He3. apply quiet_then; [exact He3| |].
  { destruct (gpio_config_output_exec GPIOF Nucleo.LED2_PIN m3) as (e & m' & H & Ho);
      [unfold Nucleo.LED2_PIN; lia|]. rewrite <- Ho. apply (sends_exec _ _ _ _ _ H). }
  intros _ m4 He4. apply quiet_then; [exact He4| |].
  { destruct (gpio_config_output_exec GPIOG Nucleo.LED3_PIN m4) as (e & m' & H & Ho);
      [unfold Nucleo.LED3_PIN; lia|]. rewrite <- Ho. apply (sends_exec _ _ _ _ _ H). }
  intros _ m5 He5. apply quiet_then; [exact He5| |].
  { destruct (gpio_config_input_pullup_exec GPIOC Nucleo.BTN_PIN m5) as (e & m' & H & Ho);
      [unfold Nucleo.BTN_PIN; lia|]. rewrite <- Ho. apply (sends_exec _ _ _ _ _ H). }
  intros _ m6 He6.
  apply quiet_then; [exact He6 | apply (nucleo_uart3_init_sends m6 Hok)|].
  intros _ m7 He7.
  change ("H563-BLINK-UART" ++ CRLF)%string
    with (String "H" ("563-BLINK-UART" ++ CRLF)%string).
  cbn [Nucleo.uart3_write_str]. change (byte_of "H" =? 0) with false. cbv iota.
  destruct (write_byte_quiet (u8 (byte_of "H")) m7 He7) as (evs & m8 & Hst & Hout).
  exists evs, m8. split; [apply stalls_bind; exact Hst | exact Hout].
Qed.
End NucleoStuck.

(** X16. On a UART that never reports its transmit register empty, the
    periodic-report firmware gets no further than the first byte of its
    banner: however long it is observed, it has sent nothing and has not
    written to the set/reset register of any port, so no LED was switched. *)
Theorem nucleo_main_stuck {hdr : stm32h563xx} (fuel rounds : nat) (m : machine) :
  header_ok hdr ->
  flag_never USART3_ISR USART_ISR_TXE_TXFNF m ->
  exists evs m',
    stalls (Nucleo.main fuel rounds) m evs m' /\
    uart_out evs = [] /\
    forall g, writes_to (BSRR g) evs = [].
Proof.
  intros Hok Hnever.
  destruct (main_init_quiet fuel m Hok Hnever) as (evs & m' & Hst & Hout).
  exists evs, m'. split; [unfold Nucleo.main; apply stalls_bind; exact Hst|].
  split; [exact Hout|]. intros g.
  destruct Hst as (Hrun & Hlog).
  assert (Hfin : final (Nucleo.main_init fuel m) = Some m') by (rewrite Hrun; reflexivity).
  pose proof (main_init_keeps_bsrr fuel g m m' Hfin) as Hb. cbv beta in Hb.
  rewrite Hlog, writes_to_app in Hb.
  rewrite <- (app_nil_r (writes_to (BSRR g) (log m))) in Hb at 2.
  apply app_inv_head in Hb. exact Hb.
Qed.

Lemma nucleo_main_stuck_witness :
  let m := reset_machine (fun _ => 0) in
  exists evs m',
    stalls (Nucleo.main (hdr := cmsis) 2 3) m evs m' /\
    uart_out evs = [] /\
    forall g, writes_to (BSRR g) evs = [].
Proof.
  intros m. apply (nucleo_main_stuck (hdr := cmsis) 2 3 m).
  - unfold header_ok. simpl. lia.
  - intros n. reflexivity.
Defined.

(** * The state the initialisation routines leave *)

Section InitState.
Context {hdr : stm32h563xx}.

Ltac reg_lookup :=
  repeat (rewrite fn_lookup_insert
          || rewrite fn_lookup_insert_ne by discriminate).

(** To show that [c] returns in a machine with property [P], run it store by
    store. *)
Ltac run_to_end :=
  lazymatch goal with
  | |- exists m', ?c ?m = Ret tt m' /\ @?P m' =>
      cut (exists evs m', exec c m tt evs m' /\ P m');
      [ intros (evs & m' & (Hrun & _) & Hrest); exists m'; split; assumption
      | eexists _, _; split; [repeat exec_step | cbv beta; cbn [mem polls stress_buffer bus_write]] ]
  end.

Lemma lor_again v b : Z.lor (Z.lor v b) b = Z.lor v b.
Proof. rewrite <- Z.lor_assoc, Z.lor_diag. reflexivity. Qed.

(** The [uart3_init] of the periodic-report firmware configures pins of port
    D only. *)
Lemma nucleo_uart3_init_frame (m : machine) :
  header_ok hdr ->
  exists m',
    Nucleo.uart3_init m = Ret tt m' /\
    forall g r, g <> GPIOD ->
      r = MODER g \/ r = OTYPER g \/ r = OSPEEDR g \/ r = PUPDR g ->
      mem m' r = mem m r.
Proof.
  intros [H8 H9]. unfold Nucleo.uart3_init. run_to_end.
  intros g r Hg [-> | [-> | [-> | ->]]];
    rewrite !fn_lookup_insert_ne by congruence; reflexivity.
Qed.

(** X17. The [uart3_init] of the periodic-report firmware leaves USART3 in
    one fixed configuration, whatever its registers held before: CR2 and CR3
    cleared, the divisor 556, and CR1 with TE, RE and UE.  The clock-enable
    registers gain the bits of port D and of USART3 and lose none, the five
    configuration registers of port D hold the results of the
    read-modify-write steps with the header's masks for PD8 and PD9, and no
    register but these twelve is written; no status register is read. *)
Theorem nucleo_uart3_init_state (m : machine) :
  header_ok hdr ->
  exists m',
    Nucleo.uart3_init m = Ret tt m' /\
    mem m' USART3_CR1 = Z.lor (Z.lor USART_CR1_TE USART_CR1_RE) USART_CR1_UE /\
    mem m' USART3_CR2 = 0 /\
    mem m' USART3_CR3 = 0 /\
    mem m' USART3_BRR = 556 /\
    mem m' RCC_AHB2ENR = Z.lor (mem m RCC_AHB2ENR) RCC_AHB2ENR_GPIODEN /\
    mem m' RCC_APB1LENR = Z.lor (mem m RCC_APB1LENR) RCC_APB1LENR_USART3EN /\
    mem m' RCC_CCIPR1 = Z.land (mem m RCC_CCIPR1) (not32 RCC_CCIPR1_USART3SEL) /\
    mem m' (MODER GPIOD)
    = Z.lor (Z.land (mem m (MODER GPIOD))
                    (not32 (Z.lor GPIO_MODER_MODE8_Msk GPIO_MODER_MODE9_Msk)))
            (Z.lor GPIO_MODER_MODE8_1 GPIO_MODER_MODE9_1) /\
    mem m' (OTYPER GPIOD)
    = Z.land (mem m (OTYPER GPIOD)) (not32 (Z.lor GPIO_OTYPER_OT8 GPIO_OTYPER_OT9)) /\
    mem m' (OSPEEDR GPIOD)
    = Z.lor (mem m (OSPEEDR GPIOD))
            (Z.lor GPIO_OSPEEDR_OSPEED8_Msk GPIO_OSPEEDR_OSPEED9_Msk) /\
    mem m' (PUPDR GPIOD)
    = Z.lor (Z.land (mem m (PUPDR GPIOD))
                    (not32 (Z.lor GPIO_PUPDR_PUPD8_Msk GPIO_PUPDR_PUPD9_Msk)))
            GPIO_PUPDR_PUPD9_0 /\
    mem m' (AFRH GPIOD)
    = Z.lor (Z.land (mem m (AFRH GPIOD))
                    (not32 (Z.lor GPIO_AFRH_AFSEL8_Msk GPIO_AFRH_AFSEL9_Msk)))
            (Z.lor (shl 7 GPIO_AFRH_AFSEL8_Pos) (shl 7 GPIO_AFRH_AFSEL9_Pos)) /\
    (forall r,
       r <> RCC_AHB2ENR -> r <> RCC_APB1LENR -> r <> RCC_CCIPR1 ->
       r <> MODER GPIOD -> r <> OTYPER GPIOD -> r <> OSPEEDR GPIOD ->
       r <> PUPDR GPIOD -> r <> AFRH GPIOD ->
       r <> USART3_CR1 -> r <> USART3_CR2 -> r <> USART3_CR3 -> r <> USART3_BRR ->
       mem m' r = mem m r) /\
    polls m' = polls m.
Proof.
  intros [H8 H9]. unfold Nucleo.uart3_init. run_to_end.
  reg_lookup. repeat split.
  intros r; intros. rewrite !fn_lookup_insert_ne by congruence. reflexivity.
Qed.

(** What the [uart3_init] of the stress test leaves. *)
Lemma hil_uart3_init_run (m : machine) :
  header_ok hdr ->
  exists m',
    Hil.uart3_init m = Ret tt m' /\
    mem m' USART3_CR1 = Z.lor USART_CR1_TE USART_CR1_UE /\
    mem m' USART3_CR3 = Z.lor (mem m USART3_CR3) USART_CR3_DMAT /\
    mem m' USART3_BRR = 556 /\
    mem m' RCC_AHB2ENR = Z.lor (mem m RCC_AHB2ENR) RCC_AHB2ENR_GPIODEN /\
    mem m' RCC_APB1LENR = Z.lor (mem m RCC_APB1LENR) RCC_APB1LENR_USART3EN /\
    mem m' (MODER GPIOD)
    = Z.lor (Z.land (mem m (MODER GPIOD)) (not32 GPIO_MODER_MODE8_Msk))
            GPIO_MODER_MODE8_1 /\
    mem m' (AFRH GPIOD)
    = Z.lor (Z.land (mem m (AFRH GPIOD)) (not32 GPIO_AFRH_AFSEL8_Msk))
            (shl 7 GPIO_AFRH_AFSEL8_Pos) /\
    (forall r,
       r <> RCC_AHB2ENR -> r <> RCC_APB1LENR ->
       r <> MODER GPIOD -> r <> AFRH GPIOD ->
       r <> USART3_CR1 -> r <> USART3_CR3 -> r <> USART3_BRR ->
       mem m' r = mem m r) /\
    polls m' = polls m /\ stress_buffer m' = stress_buffer m.
Proof.
  intros [H8 H9]. unfold Hil.uart3_init. run_to_end.
  reg_lookup. repeat split.
  intros r; intros. rewrite !fn_lookup_insert_ne by congruence. reflexivity.
Qed.

(** X18. The set-up of the stress test, [uart3_init] followed by
    [dma1_init], leaves the transmitter enabled without the receiver (CR1 is
    TE and UE), the DMA request of the transmitter set in CR3 with the other
    bits of CR3 as they were, and DMA channel 1 programmed to move the 256
    bytes of the buffer to the transmit data register and enabled.  CR2, the
    registers of every port but the mode and alternate-function registers of
    port D, and the output latches are not written. *)
Theorem hil_init_state (m : machine) :
  header_ok hdr ->
  exists m',
    (Hil.uart3_init ;; Hil.dma1_init) m = Ret tt m' /\
    mem m' USART3_CR1 = Z.lor USART_CR1_TE USART_CR1_UE /\
    mem m' USART3_CR3 = Z.lor (mem m USART3_CR3) USART_CR3_DMAT /\
    mem m' USART3_BRR = 556 /\
    mem m' DMA1_Channel1_CPAR = u32 USART3_TDR_address /\
    mem m' DMA1_Channel1_CMAR = u32 stress_buffer_address /\
    mem m' DMA1_Channel1_CNDTR = 256 /\
    mem m' DMA1_Channel1_CCR
    = Z.lor (Z.lor (Z.lor DMA_CCR_MINC DMA_CCR_DIR) DMA_CCR_TCIE) DMA_CCR_EN /\
    mem m' RCC_AHB1ENR = Z.lor (mem m RCC_AHB1ENR) RCC_AHB1ENR_DMA1EN /\
    (forall r,
       r <> RCC_AHB1ENR -> r <> RCC_AHB2ENR -> r <> RCC_APB1LENR ->
       r <> MODER GPIOD -> r <> AFRH GPIOD ->
       r <> USART3_CR1 -> r <> USART3_CR3 -> r <> USART3_BRR ->
       r <> DMA1_Channel1_CPAR -> r <> DMA1_Channel1_CMAR ->
       r <> DMA1_Channel1_CNDTR -> r <> DMA1_Channel1_CCR ->
       mem m' r = mem m r).
Proof.
  intros Hok.
  destruct (hil_uart3_init_run m Hok)
    as (m1 & Hrun & Hcr1 & Hcr3 & Hbrr & _ & _ & _ & _ & Hframe & _).
  unfold bind at 1. rewrite Hrun.
  unfold Hil.dma1_init, bind, load, store.
  cbn [is_status mem stress_buffer env polls log bus_write].
  eexists. split; [reflexivity|]. cbn [mem]. reg_lookup.
  rewrite Hcr1, Hcr3, Hbrr, (Hframe RCC_AHB1ENR) by discriminate.
  repeat split.
  intros r; intros. rewrite !fn_lookup_insert_ne by congruence.
  apply Hframe; assumption.
Qed.

(** X19. The initialisation routines can be run again: a second call of
    [uart3_init], of either firmware, or of [dma1_init] writes back the
    values the registers already hold. *)
Theorem init_idempotent (m : machine) :
  header_ok hdr ->
  (exists m1 m2,
     Nucleo.uart3_init m = Ret tt m1 /\ Nucleo.uart3_init m1 = Ret tt m2 /\
     forall r, mem m2 r = mem m1 r) /\
  (exists m1 m2,
     Hil.uart3_init m = Ret tt m1 /\ Hil.uart3_init m1 = Ret tt m2 /\
     forall r, mem m2 r = mem m1 r) /\
  (exists m1 m2,
     Hil.dma1_init m = Ret tt m1 /\ Hil.dma1_init m1 = Ret tt m2 /\
     forall r, mem m2 r = mem m1 r).
Proof.
  intros [H8 H9]. split; [|split].
  - assert (Hrun : exists e1 m1, exec Nucleo.uart3_init m tt e1 m1 /\
                   exists e2 m2, exec Nucleo.uart3_init m1 tt e2 m2 /\
                                 forall r, mem m2 r = mem m1 r).
    { unfold Nucleo.uart3_init.
      eexists _, _. split; [repeat exec_step|].
      eexists _, _. split; [repeat exec_step|].
      intros r. cbn [mem bus_write].
      rewrite ?lor_again, ?land_again, ?lor_land_again.
      destruct r as [| | | |g|g|g|g|g|g|g|g| | | | | | | | | | | | |];
        try destruct g; reg_lookup; reflexivity. }
    destruct Hrun as (e1 & m1 & (Hr1 & _) & e2 & m2 & (Hr2 & _) & Hsame).
    exists m1, m2. auto.
  - assert (Hrun : exists e1 m1, exec Hil.uart3_init m tt e1 m1 /\
                   exists e2 m2, exec Hil.uart3_init m1 tt e2 m2 /\
                                 forall r, mem m2 r = mem m1 r).
    { unfold Hil.uart3_init.
      eexists _, _. split; [repeat exec_step|].
      eexists _, _. split; [repeat exec_step|].
      intros r. cbn [mem bus_write].
      rewrite ?lor_again, ?land_again, ?lor_land_again.
      destruct r as [| | | |g|g|g|g|g|g|g|g| | | | | | | | | | | | |];
        try destruct g; reg_lookup; reflexivity. }
    destruct Hrun as (e1 & m1 & (Hr1 & _) & e2 & m2 & (Hr2 & _) & Hsame).
    exists m1, m2. auto.
  - assert (Hrun : exists e1 m1, exec Hil.dma1_init m tt e1 m1 /\
                   exists e2 m2, exec Hil.dma1_init m1 tt e2 m2 /\
                                 forall r, mem m2 r = mem m1 r).
    { unfold Hil.dma1_init.
      eexists _, _. split; [repeat exec_step|].
      eexists _, _. split; [repeat exec_step|].
      intros r. cbn [mem bus_write].
      rewrite ?lor_again, ?land_again, ?lor_land_again.
      destruct r as [| | | |g|g|g|g|g|g|g|g| | | | | | | | | | | | |];
        try destruct g; reg_lookup; reflexivity. }
    destruct Hrun as (e1 & m1 & (Hr1 & _) & e2 & m2 & (Hr2 & _) & Hsame).
    exists m1, m2. auto.
Qed.
End InitState.

Lemma nucleo_uart3_init_state_witness :
  let m := reset_machine (fun _ => 0) in
  exists m',
    Nucleo.uart3_init (hdr := cmsis) m = Ret tt m' /\
    mem m' USART3_CR1 = 0xD /\ mem m' USART3_CR2 = 0 /\ mem m' USART3_CR3 = 0 /\
    mem m' USART3_BRR = 556 /\
    mem m' RCC_AHB2ENR = Z.lor (mem m RCC_AHB2ENR) 0x8 /\
    mem m' RCC_APB1LENR = Z.lor (mem m RCC_APB1LENR) 0x40000 /\
    mem m' RCC_CCIPR1 = Z.land (mem m RCC_CCIPR1) (not32 0x1C0) /\
    mem m' (MODER GPIOD)
    = Z.lor (Z.land (mem m (MODER GPIOD)) (not32 (Z.lor 0x30000 0xC0000)))
            (Z.lor 0x20000 0x80000) /\
    mem m' (OTYPER GPIOD) = Z.land (mem m (OTYPER GPIOD)) (not32 (Z.lor 0x100 0x200)) /\
    mem m' (OSPEEDR GPIOD) = Z.lor (mem m (OSPEEDR GPIOD)) (Z.lor 0x30000 0xC0000) /\
    mem m' (PUPDR GPIOD)
    = Z.lor (Z.land (mem m (PUPDR GPIOD)) (not32 (Z.lor 0x30000 0xC0000))) 0x40000 /\
    mem m' (AFRH GPIOD)
    = Z.lor (Z.land (mem m (AFRH GPIOD)) (not32 (Z.lor 0xF 0xF0)))
            (Z.lor (shl 7 0) (shl 7 4)) /\
    (forall r,
       r <> RCC_AHB2ENR -> r <> RCC_APB1LENR -> r <> RCC_CCIPR1 ->
       r <> MODER GPIOD -> r <> OTYPER GPIOD -> r <> OSPEEDR GPIOD ->
       r <> PUPDR GPIOD -> r <> AFRH GPIOD ->
       r <> USART3_CR1 -> r <> USART3_CR2 -> r <> USART3_CR3 -> r <> USART3_BRR ->
       mem m' r = mem m r) /\
    polls m' = polls m.
Proof.
  intros m. apply (nucleo_uart3_init_state (hdr := cmsis) m).
  unfold header_ok. simpl. lia.
Defined.

Lemma hil_init_state_witness :
  let m := reset_machine (fun _ => 0) in
  exists m',
    (Hil.uart3_init (hdr := cmsis) ;; Hil.dma1_init (hdr := cmsis)) m = Ret tt m' /\
    mem m' USART3_CR1 = 0x9 /\
    mem m' USART3_CR3 = Z.lor (mem m USART3_CR3) 0x80 /\
    mem m' USART3_BRR = 556 /\
    mem m' DMA1_Channel1_CPAR = u32 0x40004828 /\
    mem m' DMA1_Channel1_CMAR = u32 0x20000000 /\
    mem m' DMA1_Channel1_CNDTR = 256 /\
    mem m' DMA1_Channel1_CCR = 0x93 /\
    mem m' RCC_AHB1ENR = Z.lor (mem m RCC_AHB1ENR) 0x1 /\
    (forall r,
       r <> RCC_AHB1ENR -> r <> RCC_AHB2ENR -> r <> RCC_APB1LENR ->
       r <> MODER GPIOD -> r <> AFRH GPIOD ->
       r <> USART3_CR1 -> r <> USART3_CR3 -> r <> USART3_BRR ->
       r <> DMA1_Channel1_CPAR -> r <> DMA1_Channel1_CMAR ->
       r <> DMA1_Channel1_CNDTR -> r <> DMA1_Channel1_CCR ->
       mem m' r = mem m r).
Proof.
  intros m. apply (hil_init_state (hdr := cmsis) m).
  unfold header_ok. simpl. lia.
Defined.

Lemma init_idempotent_witness :
  let m := reset_machine (fun _ => 0) in
  (exists m1 m2,
     Nucleo.uart3_init (hdr := cmsis) m = Ret tt m1 /\
     Nucleo.uart3_init (hdr := cmsis) m1 = Ret tt m2 /\
     forall r, mem m2 r = mem m1 r) /\
  (exists m1 m2,
     Hil.uart3_init (hdr := cmsis) m = Ret tt m1 /\
     Hil.uart3_init (hdr := cmsis) m1 = Ret tt m2 /\
     forall r, mem m2 r = mem m1 r) /\
  (exists m1 m2,
     Hil.dma1_init (hdr := cmsis) m = Ret tt m1 /\
     Hil.dma1_init (hdr := cmsis) m1 = Ret tt m2 /\
     forall r, mem m2 r = mem m1 r).
Proof.
  intros m. apply (init_idempotent (hdr := cmsis) m).
  unfold header_ok. simpl. lia.
Defined.

(** * What the stress test leaves unconfigured *)

Section HilFootprint.
Context {hdr : stm32h563xx}.
Variable fuel : nat.

Lemma keeps_fill_loop {X} (obs : machine -> X) :
  (forall m buf j v, obs (Machine (mem m) buf (env m) (polls m)
                                  (log m ++ [EvBuf j v])) = obs m) ->
  forall i, 0 <= i -> keeps obs (Hil.fill_loop i).
Proof.
  intros Hb i.
  induction i as [i IH] using (well_founded_induction (Zwf_up_well_founded 256)).
  intros Hi. rewrite fill_loop_unfold.
  destruct (decide (i < Hil.STRESS_BUFFER_SIZE)) as [Hlt|Hge]; [|apply keeps_ret].
  unfold Hil.STRESS_BUFFER_SIZE in Hlt.
  apply keeps_bind.
  - intros m m' H. unfold Hil.stress_buffer_store in H.
    destruct (decide _); [|discriminate]. injection H as <-. apply Hb.
  - intros _. rewrite add32_succ by (change (2 ^ 32) with 4294967296; lia).
    apply IH; [unfold Zwf_up|]; lia.
Qed.

Lemma hil_main_keeps (r : reg) :
  r <> RCC_AHB1ENR -> r <> RCC_AHB2ENR -> r <> RCC_APB1LENR ->
  r <> MODER GPIOD -> r <> AFRH GPIOD -> r <> ODR GPIOB ->
  r <> USART3_CR1 -> r <> USART3_CR3 -> r <> USART3_BRR -> r <> USART3_TDR ->
  r <> DMA1_Channel1_CPAR -> r <> DMA1_Channel1_CMAR ->
  r <> DMA1_Channel1_CNDTR -> r <> DMA1_Channel1_CCR ->
  keeps (fun m => mem m r) (Hil.main fuel).
Proof.
  intros. unfold Hil.main, Hil.uart3_init, Hil.dma1_init.
  apply keeps_bind; [apply keeps_fill_loop; [reflexivity|lia]|]. intros _.
  repeat keeps_step.
  apply keeps_forever. intros _. apply keeps_ret.
Qed.
End HilFootprint.

(** X20. The stress test signals through PB0 without setting the pin up: at
    no point of a run has it written the mode, output-type, speed or pull
    register of port B, and the only clock it has switched on in AHB2ENR is
    that of port D.  The pin works as an output only if it was configured
    before [main]. *)
Theorem hil_main_leaves_gpiob {hdr : stm32h563xx} (fuel : nat) (m m' : machine) :
  header_ok hdr ->
  length (stress_buffer m) = 256%nat ->
  final (Hil.main fuel m) = Some m' ->
  mem m' (MODER GPIOB) = mem m (MODER GPIOB) /\
  mem m' (OTYPER GPIOB) = mem m (OTYPER GPIOB) /\
  mem m' (OSPEEDR GPIOB) = mem m (OSPEEDR GPIOB) /\
  mem m' (PUPDR GPIOB) = mem m (PUPDR GPIOB) /\
  mem m' RCC_AHB2ENR = Z.lor (mem m RCC_AHB2ENR) RCC_AHB2ENR_GPIODEN.
Proof.
  intros Hok Hlen Hfin.
  repeat (split; [apply (hil_main_keeps fuel _) with (m := m) (m' := m');
                  (discriminate || exact Hfin)|]).
  unfold Hil.main in Hfin. unfold bind at 1 in Hfin.
  rewrite (proj1 (fill_loop_exec 0 0 (le_n 0) m Hlen)) in Hfin.
  match type of Hfin with final (bind _ _ ?m1) = _ =>
    destruct (hil_uart3_init_run m1 Hok) as (m2 & Hrun & _ & _ & _ & Hahb2 & _)
  end.
  unfold bind at 1 in Hfin. rewrite Hrun in Hfin. cbn [mem] in Hahb2.
  rewrite <- Hahb2.
  match type of Hfin with final (?c m2) = _ =>
    assert (Hk : keeps (fun m => mem m RCC_AHB2ENR) c)
  end.
  { unfold Hil.dma1_init. repeat keeps_step.
    apply keeps_forever. intros _. apply keeps_ret. }
  exact (Hk m2 m' Hfin).
Qed.

Lemma hil_main_leaves_gpiob_witness :
  let m := reset_machine (fun _ => 0xFFFFFFFF) in
  let m' := match Hil.main (hdr := cmsis) 1 m with Spin m' => m' | _ => m end in
  mem m' (MODER GPIOB) = mem m (MODER GPIOB) /\
  mem m' (OTYPER GPIOB) = mem m (OTYPER GPIOB) /\
  mem m' (OSPEEDR GPIOB) = mem m (OSPEEDR GPIOB) /\
  mem m' (PUPDR GPIOB) = mem m (PUPDR GPIOB) /\
  mem m' RCC_AHB2ENR = Z.lor (mem m RCC_AHB2ENR) 0x8.
Proof.
  intros m m'. apply (hil_main_leaves_gpiob (hdr := cmsis) 1 m m').
  - unfold header_ok. simpl. lia.
  - reflexivity.
  - vm_compute. reflexivity.
Defined.

(** * The hello firmware *)

Section HelloOutput.

Lemma uart_puts_run s : forall m,
  exists m',
    Hello.uart_puts s m = Ret tt m' /\
    log m' = log m ++ tx UART_DR (c_bytes s) /\
    polls m' = polls m /\
    (forall r, r <> UART_DR -> mem m' r = mem m r).
Proof.
  induction s as [|c s IH]; intros m; cbn [Hello.uart_puts c_bytes].
  - exists m. rewrite app_nil_r. auto.
  - destruct (byte_of c =? 0); [exists m; rewrite app_nil_r; auto|].
    unfold bind, Hello.uart_putc, store.
    match goal with |- context [Hello.uart_puts s ?m1] =>
      destruct (IH m1) as (m' & Hrun & Hlog & Hpolls & Hmem)
    end.
    cbn [mem log polls bus_write] in *.
    exists m'. split; [exact Hrun|]. split.
    { rewrite Hlog, <- app_assoc. unfold u32. pose proof (byte_of_range c).
      rewrite Z.mod_small by (change (2 ^ 32) with 4294967296; lia). reflexivity. }
    split; [exact Hpolls|].
    intros r Hne. rewrite (Hmem r Hne). apply fn_lookup_insert_ne. congruence.
Qed.

Lemma hello_loop_run rounds : forall m,
  exists m',
    forever rounds Hello.main_loop tt m = Spin m' /\
    log m' = log m ++ tx UART_DR
                        (concat (replicate rounds (c_bytes ("Pulse..." ++ String LF EmptyString)))) /\
    polls m' = polls m /\
    (forall r, r <> UART_DR -> mem m' r = mem m r).
Proof.
  induction rounds as [|n IH]; intros m.
  - exists m. cbn [replicate concat tx map]. rewrite app_nil_r. auto.
  - cbn [forever]. unfold bind at 1. unfold Hello.main_loop at 1. unfold bind at 1.
    rewrite (spin_loop_run m _ 0 eq_refl).
    destruct (uart_puts_run ("Pulse..." ++ String LF EmptyString) m)
      as (m1 & Hrun & Hlog & Hpolls & Hmem).
    rewrite Hrun.
    destruct (IH m1) as (m2 & Hrun2 & Hlog2 & Hpolls2 & Hmem2).
    exists m2. split; [exact Hrun2|]. split.
    { rewrite Hlog2, Hlog, <- app_assoc. cbn [replicate concat].
      rewrite tx_app. reflexivity. }
    split; [congruence|].
    intros r Hne. rewrite (Hmem2 r Hne). apply Hmem. exact Hne.
Qed.
End HelloOutput.

(** X21. The hello firmware writes its two greeting lines and then one
    "Pulse..." line per pass of its loop, every byte straight to the data
    register: it never reads the flag register, or any other status
    register, before a write, it writes no other register, and it never
    leaves [main]. *)
Theorem hello_main_output (rounds : nat) (m : machine) :
  exists m',
    Hello.main rounds m = Spin m' /\
    log m' = log m ++ tx UART_DR
               (c_bytes ("Hello from LabWired C Example!" ++ String LF EmptyString)
                ++ c_bytes ("This is running on a simulated ARM Cortex-M0."
                            ++ String LF EmptyString)
                ++ concat (replicate rounds
                             (c_bytes ("Pulse..." ++ String LF EmptyString)))) /\
    polls m' = polls m /\
    (forall r, r <> UART_DR -> mem m' r = mem m r).
Proof.
  unfold Hello.main, Hello.main_init. unfold bind at 1. unfold bind at 1.
  destruct (uart_puts_run ("Hello from LabWired C Example!" ++ String LF EmptyString) m)
    as (m1 & Hrun1 & Hlog1 & Hpolls1 & Hmem1).
  rewrite Hrun1.
  destruct (uart_puts_run
              ("This is running on a simulated ARM Cortex-M0." ++ String LF EmptyString) m1)
    as (m2 & Hrun2 & Hlog2 & Hpolls2 & Hmem2).
  rewrite Hrun2.
  destruct (hello_loop_run rounds m2) as (m3 & Hrun3 & Hlog3 & Hpolls3 & Hmem3).
  exists m3. split; [exact Hrun3|]. split.
  { rewrite Hlog3, Hlog2, Hlog1, <- !app_assoc, !tx_app. reflexivity. }
  split; [congruence|].
  intros r Hne. rewrite (Hmem3 r Hne), (Hmem2 r Hne). apply Hmem1. exact Hne.
Qed.

(** * The LEDs *)

Section Leds.

Lemma bsrr_level odr pin on k :
  0 <= pin < 16 -> 0 <= k < 16 ->
  Z.testbit (Z.lor (Z.land odr (not32 (Z.shiftr (if on =? 0 then shl 1 (pin + 16)
                                                  else shl 1 pin) 16)))
                   (Z.land (if on =? 0 then shl 1 (pin + 16) else shl 1 pin) 0xFFFF)) k
  = if decide (k = pin) then negb (on =? 0) else Z.testbit odr k.
Proof.
  intros Hp Hk. rewrite odr_after_bsrr by exact Hk.
  destruct (on =? 0); cbn [negb];
    rewrite !testbit_shl, !testbit_1 by lia;
    destruct (decide (k = pin)) as [->|Hne].
  - replace (pin + 16 - (pin + 16) =? 0) with true by (symmetry; apply Z.eqb_eq; lia).
    replace (pin - (pin + 16) =? 0) with false by (symmetry; apply Z.eqb_neq; lia).
    cbn [negb]. rewrite andb_false_r. reflexivity.
  - replace (k + 16 - (pin + 16) =? 0) with false by (symmetry; apply Z.eqb_neq; lia).
    replace (k - (pin + 16) =? 0) with false by (symmetry; apply Z.eqb_neq; lia).
    cbn [negb]. rewrite andb_true_r, orb_false_r. reflexivity.
  - replace (pin - pin =? 0) with true by (symmetry; apply Z.eqb_eq; lia).
    apply orb_true_r.
  - replace (k + 16 - pin =? 0) with false by (symmetry; apply Z.eqb_neq; lia).
    replace (k - pin =? 0) with false by (symmetry; apply Z.eqb_neq; lia).
    cbn [negb]. rewrite andb_true_r, orb_false_r. reflexivity.
Qed.
End Leds.

(** X22. [led_write] drives the three LED pins, PB0, PF4 and PG4, to one
    level, high for every nonzero argument and low for 0, and changes no
    other pin of any port and no register but the three output latches (with
    the set/reset register acting on the latch as the model of the bus
    describes). *)
Theorem led_write_levels (on : Z) (m : machine) :
  exists m',
    Nucleo.led_write on m = Ret tt m' /\
    Z.testbit (mem m' (ODR GPIOB)) 0 = negb (on =? 0) /\
    Z.testbit (mem m' (ODR GPIOF)) 4 = negb (on =? 0) /\
    Z.testbit (mem m' (ODR GPIOG)) 4 = negb (on =? 0) /\
    (forall g k, 0 <= k < 16 ->
       (g, k) <> (GPIOB, 0) -> (g, k) <> (GPIOF, 4) -> (g, k) <> (GPIOG, 4) ->
       Z.testbit (mem m' (ODR g)) k = Z.testbit (mem m (ODR g)) k) /\
    (forall r, r <> ODR GPIOB -> r <> ODR GPIOF -> r <> ODR GPIOG ->
               mem m' r = mem m r).
Proof.
  rewrite led_write_run. eexists. split; [reflexivity|].
  cbn [mem bus_write].
  change (if on =? 0 then 65536 else 1)
    with (if on =? 0 then shl 1 (0 + 16) else shl 1 0).
  change (if on =? 0 then 1048576 else 16)
    with (if on =? 0 then shl 1 (4 + 16) else shl 1 4).
  split; [|split; [|split; [|split]]].
  - rewrite !fn_lookup_insert_ne by discriminate.
    rewrite fn_lookup_insert, bsrr_level by lia. reflexivity.
  - rewrite !fn_lookup_insert_ne by discriminate.
    rewrite fn_lookup_insert, fn_lookup_insert_ne by discriminate.
    rewrite bsrr_level by lia. reflexivity.
  - rewrite fn_lookup_insert, !fn_lookup_insert_ne by discriminate.
    rewrite bsrr_level by lia. reflexivity.
  - intros g k Hk HB HF HG.
    destruct g;
      repeat (rewrite fn_lookup_insert
              || rewrite fn_lookup_insert_ne by discriminate);
      try reflexivity;
      rewrite bsrr_level by lia;
      destruct (decide _) as [->|_]; congruence.
  - intros r HB HF HG. rewrite !fn_lookup_insert_ne by congruence. reflexivity.
Qed.

(** * The pin configuration of the periodic-report firmware *)

Section NucleoPins.
Context {hdr : stm32h563xx}.
Variable fuel : nat.

Lemma keeps_led_write {X} (obs : machine -> X) on :
  (forall g v m, obs (Machine (bus_write (BSRR g) v (mem m)) (stress_buffer m) (env m)
                              (polls m) (log m ++ [EvStore (BSRR g) v])) = obs m) ->
  keeps obs (Nucleo.led_write on).
Proof.
  intros Hb. unfold Nucleo.led_write, Nucleo.bsrr_write.
  repeat (apply keeps_bind;
          [|intros ?; first [apply keeps_store; apply Hb | idtac]]);
    try (destruct (negb (on =? 0)); apply keeps_shl32).
Qed.

(** The loop writes no configuration register. *)
Lemma main_loop_keeps (r : reg) s :
  r <> USART3_TDR -> (forall g, r <> ODR g) ->
  keeps (fun m => mem m r) (Nucleo.main_loop fuel s).
Proof.
  intros Htdr Hodr. destruct s as [bc led]. unfold Nucleo.main_loop.
  apply keeps_bind.
  { apply keeps_led_write. intros g v m. cbn [mem bus_write].
    apply fn_lookup_insert_ne. apply not_eq_sym, Hodr. }
  intros _. apply keeps_bind; [apply keeps_load; reflexivity|]. intros idr.
  cbv zeta. repeat keeps_step.
Qed.

Lemma final_bind_inv {A B} (c : M A) (k : A -> M B) m m' :
  final (bind c k m) = Some m' ->
  (exists a m1, c m = Ret a m1 /\ final (k a m1) = Some m') \/ c m = Spin m'.
Proof.
  unfold bind. destruct (c m) as [a m1| |m1]; intros H.
  - left. exists a, m1. auto.
  - discriminate.
  - right. injection H as <-. reflexivity.
Qed.

Ltac reg_lookup :=
  repeat (rewrite fn_lookup_insert
          || rewrite fn_lookup_insert_ne by discriminate).

Lemma gpio_config_output_facts gpio pin m :
  0 <= pin < 16 ->
  exists m',
    Nucleo.gpio_config_output gpio pin m = Ret tt m' /\
    (field2 (mem m' (MODER gpio)) pin = 1 /\
     Z.testbit (mem m' (OTYPER gpio)) pin = false /\
     field2 (mem m' (OSPEEDR gpio)) pin = 1 /\
     field2 (mem m' (PUPDR gpio)) pin = 0) /\
    (forall g r, g <> gpio -> r = MODER g \/ r = OTYPER g \/ r = OSPEEDR g \/ r = PUPDR g ->
                 mem m' r = mem m r).
Proof.
  intros Hp. rewrite gpio_config_output_run by exact Hp.
  eexists. split; [reflexivity|]. cbn [mem]. split.
  - reg_lookup.
    split; [apply field2_set; lia|]. split; [apply bit_clear; lia|].
    split; [apply field2_set; lia | apply field2_clear; lia].
  - intros g r Hg [-> | [-> | [-> | ->]]];
      rewrite !fn_lookup_insert_ne by congruence; reflexivity.
Qed.

Lemma gpio_config_input_pullup_facts gpio pin m :
  0 <= pin < 16 ->
  exists m',
    Nucleo.gpio_config_input_pullup gpio pin m = Ret tt m' /\
    (field2 (mem m' (MODER gpio)) pin = 0 /\
     field2 (mem m' (PUPDR gpio)) pin = 1) /\
    (forall g r, g <> gpio -> r = MODER g \/ r = OTYPER g \/ r = OSPEEDR g \/ r = PUPDR g ->
                 mem m' r = mem m r).
Proof.
  intros Hp. rewrite gpio_config_input_pullup_run by exact Hp.
  eexists. split; [reflexivity|]. cbn [mem]. split.
  - reg_lookup. split; [apply field2_clear; lia | apply field2_set; lia].
  - intros g r Hg [-> | [-> | [-> | ->]]];
      rewrite !fn_lookup_insert_ne by congruence; reflexivity.
Qed.

(** The pins as [main] has set them up when it reaches the banner. *)
Lemma main_init_pins m m' :
  header_ok hdr ->
  final (Nucleo.main_init fuel m) = Some m' ->
  (forall g pin, (g, pin) = (GPIOB, 0) \/ (g, pin) = (GPIOF, 4) \/ (g, pin) = (GPIOG, 4) ->
     field2 (mem m' (MODER g)) pin = 1 /\
     Z.testbit (mem m' (OTYPER g)) pin = false /\
     field2 (mem m' (OSPEEDR g)) pin = 1 /\
     field2 (mem m' (PUPDR g)) pin = 0) /\
  field2 (mem m' (MODER GPIOC)) 13 = 0 /\
  field2 (mem m' (PUPDR GPIOC)) 13 = 1.
Proof.
  intros Hok. unfold Nucleo.main_init. intros Hfin.
  apply final_bind_inv in Hfin.
  destruct Hfin as [(ahb2 & m1 & _ & Hfin) | Hc];
    [cbv beta in Hfin | unfold load in Hc; discriminate Hc].
  apply final_bind_inv in Hfin.
  destruct Hfin as [([] & m2 & _ & Hfin) | Hc]; [cbv beta in Hfin | discriminate Hc].
  destruct (gpio_config_output_facts GPIOB Nucleo.LED1_PIN m2)
    as (m3 & Hrun3 & (HB1 & HB2 & HB3 & HB4) & _); [unfold Nucleo.LED1_PIN; lia|].
  apply final_bind_inv in Hfin. rewrite Hrun3 in Hfin.
  destruct Hfin as [([] & m3' & Hc & Hfin) | Hc]; [cbv beta in Hfin | discriminate Hc].
  injection Hc as <-.
  destruct (gpio_config_output_facts GPIOF Nucleo.LED2_PIN m3)
    as (m4 & Hrun4 & (HF1 & HF2 & HF3 & HF4) & Hfr4); [unfold Nucleo.LED2_PIN; lia|].
  apply final_bind_inv in Hfin. rewrite Hrun4 in Hfin.
  destruct Hfin as [([] & m4' & Hc & Hfin) | Hc]; [cbv beta in Hfin | discriminate Hc].
  injection Hc as <-.
  destruct (gpio_config_output_facts GPIOG Nucleo.LED3_PIN m4)
    as (m5 & Hrun5 & (HG1 & HG2 & HG3 & HG4) & Hfr5); [unfold Nucleo.LED3_PIN; lia|].
  apply final_bind_inv in Hfin. rewrite Hrun5 in Hfin.
  destruct Hfin as [([] & m5' & Hc & Hfin) | Hc]; [cbv beta in Hfin | discriminate Hc].
  injection Hc as <-.
  destruct (gpio_config_input_pullup_facts GPIOC Nucleo.BTN_PIN m5)
    as (m6 & Hrun6 & (HC1 & HC2) & Hfr6); [unfold Nucleo.BTN_PIN; lia|].
  apply final_bind_inv in Hfin. rewrite Hrun6 in Hfin.
  destruct Hfin as [([] & m6' & Hc & Hfin) | Hc]; [cbv beta in Hfin | discriminate Hc].
  injection Hc as <-.
  destruct (nucleo_uart3_init_frame m6 Hok) as (m7 & Hrun7 & Hfr7).
  apply final_bind_inv in Hfin. rewrite Hrun7 in Hfin.
  destruct Hfin as [([] & m7' & Hc & Hfin) | Hc]; [cbv beta in Hfin | discriminate Hc].
  injection Hc as <-.
  assert (Hkeep : forall r, r <> USART3_TDR -> mem m' r = mem m7 r).
  { intros r Hr.
    match type of Hfin with final (?c m7) = _ =>
      assert (Hk : keeps (fun m => mem m r) c)
    end.
    { apply keeps_write_str; [reflexivity|].
      intros v mx. cbn [mem bus_write]. apply fn_lookup_insert_ne. congruence. }
    exact (Hk m7 m' Hfin). }
  assert (Hall : forall g r, g <> GPIOD ->
            r = MODER g \/ r = OTYPER g \/ r = OSPEEDR g \/ r = PUPDR g ->
            mem m' r = mem m6 r).
  { intros g r Hg Hr. rewrite Hkeep by (destruct Hr as [-> | [-> | [-> | ->]]]; discriminate).
    apply (Hfr7 g r Hg Hr). }
  unfold Nucleo.LED1_PIN, Nucleo.LED2_PIN, Nucleo.LED3_PIN, Nucleo.BTN_PIN in *.
  split; [|split].
  - intros g pin [E|[E|E]]; injection E as -> ->.
    + rewrite !(Hall GPIOB) by (auto; discriminate).
      rewrite !(Hfr6 GPIOB) by (auto; discriminate).
      rewrite !(Hfr5 GPIOB) by (auto; discriminate).
      rewrite !(Hfr4 GPIOB) by (auto; discriminate). auto.
    + rewrite !(Hall GPIOF) by (auto; discriminate).
      rewrite !(Hfr6 GPIOF) by (auto; discriminate).
      rewrite !(Hfr5 GPIOF) by (auto; discriminate). auto.
    + rewrite !(Hall GPIOG) by (auto; discriminate).
      rewrite !(Hfr6 GPIOG) by (auto; discriminate). auto.
  - rewrite (Hall GPIOC) by (auto; discriminate). exact HC1.
  - rewrite (Hall GPIOC) by (auto; discriminate). exact HC2.
Qed.
End NucleoPins.

(** X23. When the periodic-report firmware reaches its banner, PB0, PF4 and
    PG4 are push-pull outputs (mode 01, output type 0, speed 01, no pull) and
    PC13 is an input with pull-up (mode 00, pull 01), whatever the registers
    held before; and the loop never changes this: it holds at every later
    point of a run, whether the UART keeps up or not. *)
Theorem nucleo_main_pins {hdr : stm32h563xx} (fuel rounds : nat) (m m' : machine) :
  header_ok hdr ->
  final (Nucleo.main fuel rounds m) = Some m' ->
  (forall g pin, (g, pin) = (GPIOB, 0) \/ (g, pin) = (GPIOF, 4) \/ (g, pin) = (GPIOG, 4) ->
     field2 (mem m' (MODER g)) pin = 1 /\
     Z.testbit (mem m' (OTYPER g)) pin = false /\
     field2 (mem m' (OSPEEDR g)) pin = 1 /\
     field2 (mem m' (PUPDR g)) pin = 0) /\
  field2 (mem m' (MODER GPIOC)) 13 = 0 /\
  field2 (mem m' (PUPDR GPIOC)) 13 = 1.
Proof.
  intros Hok. unfold Nucleo.main, bind. intros Hfin.
  destruct (Nucleo.main_init fuel m) as [[] m1| |m1] eqn:Hinit; [| discriminate |].
  - assert (Hpins := main_init_pins fuel m m1 Hok).
    rewrite Hinit in Hpins. specialize (Hpins eq_refl).
    assert (Hkeep : forall r, r <> USART3_TDR -> (forall g, r <> ODR g) ->
                              mem m' r = mem m1 r).
    { intros r Hr Hodr.
      assert (Hk : keeps (fun m => mem m r)
                         (forever rounds (Nucleo.main_loop fuel) (0, 0))).
      { apply keeps_forever. intros s. apply main_loop_keeps; assumption. }
      exact (Hk m1 m' Hfin). }
    rewrite !Hkeep by discriminate.
    destruct Hpins as (Hleds & Hc1 & Hc2). split; [|split; assumption].
    intros g pin Hg. rewrite !Hkeep by discriminate. apply Hleds. exact Hg.
  - apply (main_init_pins fuel m m' Hok). rewrite Hinit. exact Hfin.
Qed.

Lemma nucleo_main_pins_witness :
  let m := reset_machine (fun _ => 0x80) in
  let m' := match Nucleo.main (hdr := cmsis) 1 0 m with Spin m' => m' | _ => m end in
  (forall g pin, (g, pin) = (GPIOB, 0) \/ (g, pin) = (GPIOF, 4) \/ (g, pin) = (GPIOG, 4) ->
     field2 (mem m' (MODER g)) pin = 1 /\
     Z.testbit (mem m' (OTYPER g)) pin = false /\
     field2 (mem m' (OSPEEDR g)) pin = 1 /\
     field2 (mem m' (PUPDR g)) pin = 0) /\
  field2 (mem m' (MODER GPIOC)) 13 = 0 /\
  field2 (mem m' (PUPDR GPIOC)) 13 = 1.
Proof.
  intros m m'. apply (nucleo_main_pins (hdr := cmsis) 1 0 m m').
  - unfold header_ok. simpl. lia.
  - vm_compute. reflexivity.
Defined.
